(** * Fishbone diagram editor (fishbone.js, v6): bone-relative placement

    A shallow embedding of the editor's model store, bone builder, point
    projector, drag controller and JSON importer, and the properties of the
    natural-language specification stated over it.

    Numbers.  A JavaScript number is an IEEE-754 double.  It is modelled
    here as an exact rational extended with [NaN], [+Infinity] and
    [-Infinity]: arithmetic on finite values is exact (no rounding, no
    overflow) and there is a single zero, taken as [+0].  The special
    values follow the language: [NaN] is absorbing, every comparison with
    [NaN] is false, [Infinity - Infinity] and [0 * Infinity] are [NaN],
    [x / 0] is an infinity for [x <> 0] and [NaN] for [x = 0].  Two
    fractions of the same rational are the same number: equalities between
    numbers are stated with [≈].  Where rounding or overflow decides, the
    geometry and the drag are embedded a second time, over the binary64
    numbers of the kernel (module [F64]), and run.

    State.  The script keeps its state in the variables [model],
    [selected], [catBones] and [drag]; a handler is a function from state
    to state, and the editor a transition system over the events its
    listeners receive.  A listener of an element of the diagram closes over
    the category and block objects the element was rendered for; every
    change of structure renders the elements anew, so such an event is
    addressed by the positions of the two objects in the model.  Drawing
    reads the state: what it computes (bones, ribs, positions, sizes) is
    embedded, what it writes on the elements is not.

    Type errors.  [String(v)] and [Number(v)] throw for an object with a
    property [toString] of its own, which a JSON text can give.  Module
    [JSValue] has the two conversions where they return, and [step] runs
    the editor without these errors; module [Strict] embeds the importer,
    the rest of the [try] of the import and the drawing of the bones with
    them.  The properties of the import and of the bones of a frame are
    stated on [Strict]; the two agree on every run without such a value
    ([strict_run_agrees]).

    Runtime.  [uid()] draws from the random generator and the clock, and
    [String] and [Number] rely on the number conversions of the language:
    the ids drawn and the two conversions are parameters. *)

From Stdlib Require Import QArith Qround Lqa Lia List String Ascii DecimalString
  DecimalNat.
From Stdlib Require Floats.PrimFloat.
From stdpp Require Import gmap strings list.

(** ** JavaScript numbers *)

Module JSNum.

Local Open Scope Q_scope.

Inductive num : Type :=
| NaN
| NegInf
| PosInf
| Fin (q : Q).

(** The infinity (or [NaN]) selected by the sign of a finite factor. *)
Definition signed_inf (c : comparison) : num :=
  match c with
  | Gt => PosInf
  | Lt => NegInf
  | Eq => NaN
  end.

Definition neg (a : num) : num :=
  match a with
  | NaN => NaN
  | NegInf => PosInf
  | PosInf => NegInf
  | Fin q => Fin (- q)
  end.

Definition add (a b : num) : num :=
  match a, b with
  | NaN, _ | _, NaN => NaN
  | Fin p, Fin q => Fin (p + q)
  | PosInf, NegInf | NegInf, PosInf => NaN
  | PosInf, _ | _, PosInf => PosInf
  | NegInf, _ | _, NegInf => NegInf
  end.

Definition sub (a b : num) : num :=
  match a, b with
  | Fin p, Fin q => Fin (p - q)
  | _, _ => add a (neg b)
  end.

Definition mul (a b : num) : num :=
  match a, b with
  | NaN, _ | _, NaN => NaN
  | Fin p, Fin q => Fin (p * q)
  | PosInf, Fin q | Fin q, PosInf => signed_inf (q ?= 0)
  | NegInf, Fin q | Fin q, NegInf => signed_inf (0 ?= q)
  | PosInf, PosInf | NegInf, NegInf => PosInf
  | PosInf, NegInf | NegInf, PosInf => NegInf
  end.

Definition div (a b : num) : num :=
  match a, b with
  | NaN, _ | _, NaN => NaN
  | Fin p, Fin q =>
      if Qeq_bool q 0 then signed_inf (p ?= 0) else Fin (p / q)
  | Fin _, (PosInf | NegInf) => Fin 0
  | PosInf, Fin q => match q ?= 0 with Lt => NegInf | _ => PosInf end
  | NegInf, Fin q => match q ?= 0 with Lt => PosInf | _ => NegInf end
  | (PosInf | NegInf), (PosInf | NegInf) => NaN
  end.

(** [a < b]; false as soon as one side is [NaN]. *)
Definition lt (a b : num) : bool :=
  match a, b with
  | NaN, _ | _, NaN => false
  | Fin p, Fin q => match p ?= q with Lt => true | _ => false end
  | NegInf, NegInf => false
  | NegInf, _ => true
  | _, NegInf => false
  | PosInf, _ => false
  | Fin _, PosInf => true
  end.

(** [Math.min] and [Math.max] of two arguments. *)
Definition Math_min (a b : num) : num :=
  match a, b with
  | NaN, _ | _, NaN => NaN
  | _, _ => if lt b a then b else a
  end.

Definition Math_max (a b : num) : num :=
  match a, b with
  | NaN, _ | _, NaN => NaN
  | _, _ => if lt a b then b else a
  end.

(** [Math.round]: the nearest integer, ties towards [+Infinity]. *)
Definition Math_round (a : num) : num :=
  match a with
  | Fin q => Fin (inject_Z (Qfloor (q + 0.5)))
  | _ => a
  end.

(** Truthiness of a number: [0] and [NaN] are falsy. *)
Definition truthy (a : num) : bool :=
  match a with
  | NaN => false
  | Fin q => negb (Qeq_bool q 0)
  | _ => true
  end.

Definition is_finite (a : num) : bool :=
  match a with Fin _ => true | _ => false end.

(** Numeric equality of two modelled numbers: the same special value, or
    two fractions denoting the same rational. *)
Definition num_eq (a b : num) : Prop :=
  match a, b with
  | NaN, NaN | NegInf, NegInf | PosInf, PosInf => True
  | Fin p, Fin q => p == q
  | _, _ => False
  end.

(** [lo <= a <= hi] for a finite [a]; false for [NaN] and the infinities. *)
Definition in_range (lo hi : Q) (a : num) : Prop :=
  match a with
  | Fin q => lo <= q /\ q <= hi
  | _ => False
  end.

Definition of_nat (n : nat) : num := Fin (inject_Z (Z.of_nat n)).

End JSNum.

Import JSNum.

Declare Scope num_scope.
Delimit Scope num_scope with num.
Bind Scope num_scope with num.
Infix "+" := add : num_scope.
Infix "-" := sub : num_scope.
Infix "*" := mul : num_scope.
Infix "/" := div : num_scope.
Infix "<?" := lt : num_scope.
Infix "≈" := num_eq (at level 70, no associativity).
Coercion Fin : Q >-> num.

(** ** Geometry: points, bones, projection *)

Inductive Side : Type := top | bottom.

Definition Side_eqb (a b : Side) : bool :=
  match a, b with
  | top, top | bottom, bottom => true
  | _, _ => false
  end.

Module Point.
Record Point : Type := mk { x : num; y : num }.
End Point.
Abbreviation Point := Point.Point.

(** [catBones] entry: [{ xSpine, ySpine, xEdge, yEdge, side }]. *)
Module Bone.
Record Bone : Type := mk {
    xSpine : num; ySpine : num;
    xEdge : num; yEdge : num;
    side : Side
  }.
End Bone.
Abbreviation Bone := Bone.Bone.

Module Geometry.

Local Open Scope Q_scope.

(** [function clamp(x, a, b) { return Math.max(a, Math.min(b, x)); }] *)
Definition clamp (x a b : num) : num := Math_max a (Math_min b x).

(** The bounds every stored [t] is clamped to. *)
Definition tMin : Q := 0.08.
Definition tMax : Q := 0.92.

Definition pointOnBone (bone : Bone) (t : num) : Point :=
  {| Point.x := (Bone.xSpine bone + t * (Bone.xEdge bone - Bone.xSpine bone))%num;
     Point.y := (Bone.ySpine bone + t * (Bone.yEdge bone - Bone.ySpine bone))%num |}.

(** The denominator of [projectT]: the squared length of the segment
    from [a] to [b]. *)
Definition denom (a b : Point) : num :=
  let abx := (Point.x b - Point.x a)%num in
  let aby := (Point.y b - Point.y a)%num in
  (abx * abx + aby * aby)%num.

Definition epsilon : Q := 1e-6.

(** [function projectT(p, a, b)], in exact arithmetic; [F64.projectT]
    rounds as the processor does. *)
Definition projectT (p a b : Point) : num :=
  let abx := (Point.x b - Point.x a)%num in
  let aby := (Point.y b - Point.y a)%num in
  let apx := (Point.x p - Point.x a)%num in
  let apy := (Point.y p - Point.y a)%num in
  let denom := (abx * abx + aby * aby)%num in
  if (denom <? epsilon)%num then Fin 0
  else ((apx * abx + apy * aby) / denom)%num.

(** The two ends of a bone, as [startDrag] and [onDragMove] pass them to
    [projectT]: [{x:bone.xSpine,y:bone.ySpine}] and
    [{x:bone.xEdge,y:bone.yEdge}]. *)
Definition spinePoint (bone : Bone) : Point :=
  {| Point.x := Bone.xSpine bone; Point.y := Bone.ySpine bone |}.

Definition edgePoint (bone : Bone) : Point :=
  {| Point.x := Bone.xEdge bone; Point.y := Bone.yEdge bone |}.

(** [function spineAnchors(n, startX, endX)]. *)
Definition spineAnchors (n : nat) (startX endX : num) : list num :=
  if (n <=? 1)%nat then [ ((startX + endX) / Fin 2)%num ]
  else
    let step := ((endX - startX) / (of_nat n - Fin 1))%num in
    List.map (fun i => (startX + of_nat i * step)%num) (seq 0 n).

(** Equality of points up to the representation of their coordinates. *)
Definition point_eq (p q : Point) : Prop :=
  Point.x p ≈ Point.x q /\ Point.y p ≈ Point.y q.

(** [p] lies on the segment of [bone]: it is the bone point of some
    parameter in [[0, 1]]. *)
Definition on_bone (p : Point) (bone : Bone) : Prop :=
  exists s : Q, 0 <= s /\ s <= 1 /\ point_eq p (pointOnBone bone (Fin s)).

End Geometry.

Import Geometry.

(** ** JavaScript values

    The values the importer meets: what [JSON.parse] returns, and
    [undefined] for an absent property or array element. *)

Module JSValue.

#[warnings="-register-all"]
Inductive value : Type :=
| VUndefined
| VNull
| VBool (b : bool)
| VNum (n : num)
| VStr (s : string)
| VArr (items : list value)
| VObj (props : list (string * value)).

Definition truthy (v : value) : bool :=
  match v with
  | VUndefined | VNull => false
  | VBool b => b
  | VNum n => JSNum.truthy n
  | VStr s => negb (String.eqb s "")
  | VArr _ | VObj _ => true
  end.

Definition nullish (v : value) : bool :=
  match v with
  | VUndefined | VNull => true
  | _ => false
  end.

(** [a || b] and [a ?? b] where [b] has no effect. *)
Definition or_else (a b : value) : value := if truthy a then a else b.
Definition coalesce (a b : value) : value := if nullish a then b else a.

Definition isArray (v : value) : bool :=
  match v with VArr _ => true | _ => false end.

(** [typeof v === "object"]: objects, arrays and [null]. *)
Definition typeof_object (v : value) : bool :=
  match v with VObj _ | VArr _ | VNull => true | _ => false end.

(** An object is kept as the list of its property writes: the latest write
    of a key is its value. *)
Definition lookup_prop (k : string) (props : list (string * value)) : value :=
  match List.find (fun kv => String.eqb k (fst kv)) (rev props) with
  | Some kv => snd kv
  | None => VUndefined
  end.

(** [v.k] for a [v] that is neither [null] nor [undefined].  None of the
    property names the program reads is defined on a boolean, a number, a
    string or an array, so only objects answer. *)
Definition getp (v : value) (k : string) : value :=
  match v with
  | VObj props => lookup_prop k props
  | _ => VUndefined
  end.

(** [v.k]; [None] is the [TypeError] of reading a property of [null] or
    [undefined]. *)
Definition get (v : value) (k : string) : option value :=
  if nullish v then None else Some (getp v k).

(** [arr[i]] *)
Definition index (items : list value) (i : nat) : value :=
  nth i items VUndefined.

Definition nat_to_string (n : nat) : string :=
  NilEmpty.string_of_uint (Nat.to_uint n).

(** The own enumerable properties copied by an object spread [{...v}]. *)
Definition spread (v : value) : list (string * value) :=
  match v with
  | VObj props => props
  | VArr items => imap (fun i e => (nat_to_string i, e)) items
  | VStr s =>
      imap (fun i c => (nat_to_string i, VStr (String c EmptyString)))
           (list_ascii_of_string s)
  | _ => []
  end.

Section Coercions.

(** The two conversions of the language runtime that the program relies
      on but does not define: [Number::toString] and [StringToNumber]. *)
Variable NumberToString : num -> string.
Variable StringToNumber : string -> num.

(** [String(v)], where it returns (the [TypeError] is in
    [Strict.ToString]) *)
Fixpoint ToString (v : value) : string :=
    match v with
    | VUndefined => "undefined"
    | VNull => "null"
    | VBool true => "true"
    | VBool false => "false"
    | VNum n => NumberToString n
    | VStr s => s
    | VArr items =>
        String.concat ","
          (List.map (fun e => match e with
                              | VUndefined | VNull => EmptyString
                              | _ => ToString e
                              end) items)
    | VObj _ => "[object Object]"
    end.

(** [Number(v)], where it returns (the [TypeError] is in
    [Strict.ToNumber]) *)
Definition ToNumber (v : value) : num :=
    match v with
    | VUndefined => NaN
    | VNull => Fin 0
    | VBool true => Fin 1
    | VBool false => Fin 0
    | VNum n => n
    | VStr s => StringToNumber s
    | VArr _ => StringToNumber (ToString v)
    | VObj _ => NaN
    end.

End Coercions.

End JSValue.

Import JSValue.

(** ** The model store *)

Module Block.
(** [{ id, title, bullets, t }] and the width [w] kept once the user
      has resized the block. *)
Record Block : Type := mk {
    id : string;
    title : string;
    bullets : list string;
    t : num;
    w : option num
  }.
Definition set_t (v : num) (b : Block) : Block :=
    mk (id b) (title b) (bullets b) v (w b).
Definition set_title (v : string) (b : Block) : Block :=
    mk (id b) v (bullets b) (t b) (w b).
Definition set_bullets (v : list string) (b : Block) : Block :=
    mk (id b) (title b) v (t b) (w b).
Definition set_w (v : num) (b : Block) : Block :=
    mk (id b) (title b) (bullets b) (t b) (Some v).
End Block.
Abbreviation Block := Block.Block.

Module Category.
Record Category : Type := mk {
    id : string;
    side : Side;
    label : string;
    blocks : list Block
  }.
Definition set_blocks (v : list Block) (c : Category) : Category :=
    mk (id c) (side c) (label c) v.
Definition set_label (v : string) (c : Category) : Category :=
    mk (id c) (side c) v (blocks c).
End Category.
Abbreviation Category := Category.Category.

Module EffectPos.
Record EffectPos : Type := mk { dx : num; dy : num }.
End EffectPos.

Module EffectSize.
Record EffectSize : Type := mk { w : num; h : num }.
End EffectSize.

Module Model.
Record Model : Type := mk {
    version : nat;
    effectText : string;
    effectPos : EffectPos.EffectPos;
    effectSize : EffectSize.EffectSize;
    appearance : list (string * value);
    categories : list Category
  }.
Definition set_categories (v : list Category) (m : Model) : Model :=
    mk (version m) (effectText m) (effectPos m) (effectSize m)
       (appearance m) v.
Definition set_appearance (v : list (string * value)) (m : Model) : Model :=
    mk (version m) (effectText m) (effectPos m) (effectSize m)
       v (categories m).
End Model.
Abbreviation Model := Model.Model.

(** [selected = { catId, blockId }]; [null] is [None]. *)
Module Selected.
Record Selected : Type := mk {
    catId : option string;
    blockId : option string
  }.
Definition none : Selected := mk None None.
End Selected.
Abbreviation Selected := Selected.Selected.

(** [drag = { catId, blockId, pointerId, tOffset }] *)
Module Drag.
Record Drag : Type := mk {
    catId : string;
    blockId : string;
    pointerId : nat;
    tOffset : num
  }.
End Drag.
Abbreviation Drag := Drag.Drag.

(** What a handler reads of a pointer event, and of
    [wrapper.getBoundingClientRect()]. *)
Module PointerEvent.
Record PointerEvent : Type := mk {
    clientX : num;
    clientY : num;
    pointerId : nat
  }.
End PointerEvent.
Abbreviation PointerEvent := PointerEvent.PointerEvent.

Module Rect.
Record Rect : Type := mk {
    left : num;
    top : num;
    width : num;
    height : num
  }.
End Rect.
Abbreviation Rect := Rect.Rect.

(** ** Computations that draw ids and may throw

    [uid()] reads the random generator and the clock; a computation is run
    from the number of ids drawn so far.  [Gen] is a computation that only
    draws ids; [M] is one that may also throw: [None] is a thrown
    exception, and the ids drawn before it stay drawn. *)

Module Eff.

Definition Gen (A : Type) : Type := nat -> A * nat.

Definition gret {A : Type} (a : A) : Gen A := fun n => (a, n).

Definition gbind {A B : Type} (m : Gen A) (f : A -> Gen B) : Gen B :=
  fun n => let '(a, n') := m n in f a n'.

Definition M (A : Type) : Type := nat -> option A * nat.

Definition ret {A : Type} (a : A) : M A := fun n => (Some a, n).

Definition bind {A B : Type} (m : M A) (f : A -> M B) : M B :=
  fun n =>
    match m n with
    | (Some a, n') => f a n'
    | (None, n') => (None, n')
    end.

(** A value that may be the [TypeError] of a property read. *)
Definition lift {A : Type} (o : option A) : M A := fun n => (o, n).

(** A computation that cannot throw, run where one may. *)
Definition gen {A : Type} (m : Gen A) : M A :=
  fun n => let '(a, n') := m n in (Some a, n').

End Eff.

Import Eff.

Notation "'let*' x := m 'in' k" := (bind m (fun x => k))
  (at level 10, x name, m at level 100, k at level 200).

Notation "'let+' x := m 'in' k" := (gbind m (fun x => k))
  (at level 10, x name, m at level 100, k at level 200).

(** [l.map(f)] with a callback that draws ids, or may throw, and also
    receives the index. *)
Fixpoint gmapi {A B : Type} (f : A -> nat -> Gen B) (l : list A) (i : nat)
  : Gen (list B) :=
  match l with
  | [] => gret []
  | a :: rest =>
      let+ b := f a i in
      let+ bs := gmapi f rest (S i) in
      gret (b :: bs)
  end.

Fixpoint mapMi {A B : Type} (f : A -> nat -> M B) (l : list A) (i : nat)
  : M (list B) :=
  match l with
  | [] => ret []
  | a :: rest =>
      let* b := f a i in
      let* bs := mapMi f rest (S i) in
      ret (b :: bs)
  end.

Definition mapM {A B : Type} (f : A -> M B) (l : list A) : M (list B) :=
  mapMi (fun a _ => f a) l 0.

(** The first element satisfying [p] is replaced by its image: an
    assignment through the reference that [Array.prototype.find] returned.
    No two places of a model hold the same object, so nothing else changes. *)
Fixpoint update_first {A : Type} (p : A -> bool) (f : A -> A) (l : list A)
  : list A :=
  match l with
  | [] => []
  | a :: rest => if p a then f a :: rest else a :: update_first p f rest
  end.

(** ** The editor *)

Module Fishbone.

Local Open Scope Q_scope.

Import Model.

(** [let model], [let selected], [const catBones], [let drag]; the notices
    shown with [alert]; the number of ids drawn from [uid()]. *)
Record State : Type := mkState {
  model : Model;
  selected : Selected;
  catBones : gmap string Bone;
  drag : option Drag;
  alerts : list string;
  uidCount : nat
}.

Definition W : Q := 1200.
Definition H : Q := 720.

Definition defaultAppearance : list (string * value) :=
  [ ("boneColor", VStr "#c00000");
    ("boneThickness", VNum 10);
    ("fontSize", VNum 12);
    ("arrowWidth", VNum 140);
    ("labelWidth", VNum 200);
    ("ribLength", VNum 150);
    ("blockWidth", VNum 300);
    ("boneSlant", VNum 120) ]%string.

Definition defaultEffectText : string := "Add your problem here".

(** The sides and labels of the six classic categories, and the [t] of
    the one block each starts with. *)
Definition classicCategories : list (Side * string * Q) :=
  [ (top, "People", 0.26);
    (top, "Methods", 0.36);
    (top, "Machines", 0.26);
    (bottom, "Materials", 0.26);
    (bottom, "Measurement", 0.36);
    (bottom, "Environment", 0.26) ]%string.

Definition has_cat_id (catId : string) (c : Category) : bool :=
  String.eqb (Category.id c) catId.

Definition has_block_id (blockId : string) (b : Block) : bool :=
  String.eqb (Block.id b) blockId.

(** [selected.catId] (or [.blockId]) is truthy: neither [null] nor the
    empty string. *)
Definition sel_truthy (o : option string) : bool :=
  match o with
  | Some s => negb (String.eqb s "")
  | None => false
  end.

(** [selected.blockId === id] *)
Definition sel_is (o : option string) (id : string) : bool :=
  match o with
  | Some s => String.eqb s id
  | None => false
  end.

(** [function catsBySide(side)] *)
Definition catsBySide (m : Model) (s : Side) : list Category :=
  List.filter (fun c => Side_eqb (Category.side c) s) (categories m).

(** pointer -> svg coords, as [startDrag] and [onDragMove] compute them *)
Definition pointerToSvg (e : PointerEvent) (wrapRect : Rect) : Point :=
  let px := (PointerEvent.clientX e - Rect.left wrapRect)%num in
  let py := (PointerEvent.clientY e - Rect.top wrapRect)%num in
  {| Point.x := (px / Rect.width wrapRect * Fin W)%num;
     Point.y := (py / Rect.height wrapRect * Fin H)%num |}.

(** [drag.tOffset || 0] *)
Definition offset_or_zero (tOffset : num) : num :=
  if JSNum.truthy tOffset then tOffset else Fin 0.

(** [cat.blocks.find(b => b.id === blockId)] in
    [model.categories.find(c => c.id === catId)], and the assignment of
    [t] to the block found. *)
Definition findBlock (m : Model) (catId blockId : string) : option Block :=
  match List.find (has_cat_id catId) (categories m) with
  | Some cat => List.find (has_block_id blockId) (Category.blocks cat)
  | None => None
  end.

Definition assign_t (m : Model) (catId blockId : string) (v : num) : Model :=
  set_categories
    (update_first (has_cat_id catId)
       (fun cat =>
          Category.set_blocks
            (update_first (has_block_id blockId) (Block.set_t v)
               (Category.blocks cat)) cat)
       (categories m)) m.

Section Runtime.

Variable NumberToString : num -> string.
Variable StringToNumber : string -> num.

(** The id that the [n]-th call of [uid()] returns. *)
Variable uid_at : nat -> string.

Let String_ := ToString NumberToString.
Let Number_ := ToNumber NumberToString StringToNumber.

Definition uid : Gen string := fun n => (uid_at n, S n).

(** The object literal of [mkBlock(t)], once [uid()] has returned [id];
    [t ?? 0.3] for an argument left out. *)
Definition freshBlock (t : option num) (id : string) : Block :=
  {| Block.id := id; Block.title := "";
     Block.bullets := [""%string];
     Block.t := clamp (match t with Some v => v | None => Fin 0.3 end)
                  tMin tMax;
     Block.w := None |}.

(** [function mkBlock(t)] *)
Definition mkBlock (t : option num) : Gen Block :=
  let+ id := uid in
  gret (freshBlock t id).

(** One entry of [categories] in [defaultModel]:
    [{ id: uid(), side, label, blocks: [mkBlock(t0)] }]. *)
Definition mkCategory (c : Side * string * Q) (_ : nat) : Gen Category :=
  let '(sd, lbl, t0) := c in
  let+ id := uid in
  let+ b := mkBlock (Some (Fin t0)) in
  gret {| Category.id := id; Category.side := sd; Category.label := lbl;
          Category.blocks := [b] |}.

(** [function defaultModel()] *)
Definition defaultModel : Gen Model :=
  let+ cats := gmapi mkCategory classicCategories 0 in
  gret {| version := 6;
          effectText := defaultEffectText;
          effectPos := EffectPos.mk (Fin 0) (Fin 0);
          effectSize := EffectSize.mk (Fin 180) (Fin 110);
          appearance := defaultAppearance;
          categories := cats |}.

(** *** Bones *)

Definition midY : num := Math_round (Fin H * Fin 0.5)%num.

(** The bone that [drawStaticBones] sets for a category anchored at
    [xSpine]: [{ xSpine, ySpine: midY, xEdge, yEdge, side }] with
    [xEdge = clamp(xSpine - slant, 90, W - 40)]. *)
Definition categoryBone (xSpine slant yEdge : num) (sd : Side) : Bone :=
  {| Bone.xSpine := xSpine; Bone.ySpine := midY;
     Bone.xEdge := clamp (xSpine - slant)%num (Fin 90) (Fin W - Fin 40)%num;
     Bone.yEdge := yEdge; Bone.side := sd |}.

(** The [catBones.set] calls of one [forEach] of [drawStaticBones], in
    order.  An index beyond [xs] would read [undefined], which is [NaN]
    in the subtraction. *)
Fixpoint boneSets (cats : list Category) (i : nat) (xs : list num)
    (slant yEdge : num) (sd : Side) : list (string * Bone) :=
  match cats with
  | [] => []
  | cat :: rest =>
      (Category.id cat, categoryBone (nth i xs NaN) slant yEdge sd)
      :: boneSets rest (S i) xs slant yEdge sd
  end.

Definition arrowW (m : Model) : num :=
  Number_ (coalesce (lookup_prop "arrowWidth" (appearance m)) (VNum 180)).

Definition slantOf (m : Model) : num :=
  (Fin 120 +
   Number_ (coalesce (lookup_prop "boneSlant" (appearance m)) (VNum 120)))%num.

Definition marginL : num := Fin 160.
Definition spineStart : num := marginL.
Definition spineEnd (m : Model) : num := (Fin W - arrowW m)%num.
Definition yTop : num := Fin 70.
Definition yBot : num := (Fin H - Fin 70)%num.

(** [topXs] and [botXs]: the anchors of the categories of a side. *)
Definition anchorsOf (m : Model) (sd : Side) : list num :=
  spineAnchors (length (catsBySide m sd))
    (spineStart + Fin 140)%num (spineEnd m - Fin 30)%num.

Definition topXs (m : Model) : list num := anchorsOf m top.
Definition botXs (m : Model) : list num := anchorsOf m bottom.

Definition yEdgeOf (sd : Side) : num :=
  match sd with top => yTop | bottom => yBot end.

(** The [catBones.set] calls of [topCats.forEach] and of
    [botCats.forEach]. *)
Definition sideBoneSets (m : Model) (sd : Side) : list (string * Bone) :=
  boneSets (catsBySide m sd) 0 (anchorsOf m sd) (slantOf m) (yEdgeOf sd) sd.

(** All the [catBones.set] calls of [drawStaticBones], in order. *)
Definition allBoneSets (m : Model) : list (string * Bone) :=
  sideBoneSets m top ++ sideBoneSets m bottom.

(** [function drawStaticBones()]: the map it leaves in [catBones] when
    it returns; [Strict.drawStaticBones] has the case where it throws. *)
Definition drawStaticBones (m : Model) : gmap string Bone :=
  fold_left (fun acc kv => <[fst kv := snd kv]> acc) (allBoneSets m) ∅.

(** *** Dragging along the bone *)

(** [function startDrag(catId, blockId, pointerId, startEvent)] *)
Definition startDrag (catId blockId : string) (pointerId : nat)
    (startEvent : PointerEvent) (wrapRect : Rect) (st : State) : State :=
  match findBlock (model st) catId blockId, catBones st !! catId with
  | Some block, Some bone =>
      let p := pointerToSvg startEvent wrapRect in
      let grabT := projectT p (spinePoint bone) (edgePoint bone) in
      let currentT := clamp (Block.t block) tMin tMax in
      mkState (model st) (selected st) (catBones st)
        (Some {| Drag.catId := catId; Drag.blockId := blockId;
                 Drag.pointerId := pointerId;
                 Drag.tOffset := (currentT - grabT)%num |})
        (alerts st) (uidCount st)
  | _, _ => st
  end.

(** The [t] that [onDragMove] writes for a pointer at [e]. *)
Definition dragT (d : Drag) (bone : Bone) (e : PointerEvent)
    (wrapRect : Rect) : num :=
  let p := pointerToSvg e wrapRect in
  let t := projectT p (spinePoint bone) (edgePoint bone) in
  clamp (t + offset_or_zero (Drag.tOffset d))%num tMin tMax.

(** [function onDragMove(e)] *)
Definition onDragMove (e : PointerEvent) (wrapRect : Rect) (st : State)
  : State :=
  match drag st with
  | None => st
  | Some d =>
      match findBlock (model st) (Drag.catId d) (Drag.blockId d),
            catBones st !! Drag.catId d with
      | Some _, Some bone =>
          mkState
            (assign_t (model st) (Drag.catId d) (Drag.blockId d)
               (dragT d bone e wrapRect))
            (selected st) (catBones st) (drag st) (alerts st) (uidCount st)
      | _, _ => st
      end
  end.

(** [function onDragEnd()] *)
Definition onDragEnd (st : State) : State :=
  mkState (model st) (selected st) (catBones st) None (alerts st)
    (uidCount st).

(** [function select(catId, blockId)] *)
Definition select (catId blockId : string) (st : State) : State :=
  mkState (model st) (Selected.mk (Some catId) (Some blockId))
    (catBones st) (drag st) (alerts st) (uidCount st).

(** The [pointerdown] listener of the grab handle of the block at position
    [bi] of the category at position [ci]: the listener closes over these
    two objects.  An event on an element that was never rendered does not
    occur; it is modelled as no change. *)
Definition onHandlePointerDown (ci bi : nat) (e : PointerEvent)
    (wrapRect : Rect) (st : State) : State :=
  match categories (model st) !! ci with
  | Some cat =>
      match Category.blocks cat !! bi with
      | Some block =>
          startDrag (Category.id cat) (Block.id block)
            (PointerEvent.pointerId e) e wrapRect
            (select (Category.id cat) (Block.id block) st)
      | None => st
      end
  | None => st
  end.

(** *** Headings and bullets *)

Definition with_model (m : Model) (st : State) : State :=
  mkState m (selected st) (catBones st) (drag st) (alerts st) (uidCount st).

(** The [t] given to a heading added next to [sel]. *)
Definition newHeadingT (sel : option Block) : num :=
  let baseT := match sel with
               | Some b => Block.t b
               | None => Fin 0.3
               end in
  clamp (baseT + Fin 0.10)%num tMin tMax.

(** The [click] listener of [btnAddHeading]. *)
Definition onAddHeading (st : State) : State :=
  if negb (sel_truthy (Selected.catId (selected st))) then st
  else
    let catId := default ""%string (Selected.catId (selected st)) in
    match List.find (has_cat_id catId) (categories (model st)) with
    | None => st
    | Some cat =>
        let sel :=
          match Selected.blockId (selected st) with
          | Some blockId => List.find (has_block_id blockId) (Category.blocks cat)
          | None => None
          end in
        let newT := newHeadingT sel in
        let nb := {| Block.id := fst (uid (uidCount st));
                     Block.title := "New heading";
                     Block.bullets := ["New bullet…"%string];
                     Block.t := newT; Block.w := None |} in
        mkState
          (set_categories
             (update_first (has_cat_id catId)
                (fun c => Category.set_blocks (Category.blocks c ++ [nb]) c)
                (categories (model st))) (model st))
          (Selected.mk (Some (Category.id cat)) (Some (Block.id nb)))
          (catBones st) (drag st) (alerts st) (snd (uid (uidCount st)))
    end.

(** The [click] listener of [btnAddBullet]. *)
Definition onAddBullet (st : State) : State :=
  if negb (sel_truthy (Selected.catId (selected st))
           && sel_truthy (Selected.blockId (selected st))) then st
  else
    let catId := default ""%string (Selected.catId (selected st)) in
    let blockId := default ""%string (Selected.blockId (selected st)) in
    match findBlock (model st) catId blockId with
    | None => st
    | Some _ =>
        with_model
          (set_categories
             (update_first (has_cat_id catId)
                (fun c =>
                   Category.set_blocks
                     (update_first (has_block_id blockId)
                        (fun b => Block.set_bullets
                                    (Block.bullets b ++ ["New bullet…"%string]) b)
                        (Category.blocks c)) c)
                (categories (model st))) (model st)) st
    end.

(** The category at position [ci] is replaced by its image. *)
Definition alter_cat (f : Category -> Category) (ci : nat) (m : Model)
  : Model :=
  set_categories (alter f ci (categories m)) m.

Definition alter_block (f : Block -> Block) (ci bi : nat) (m : Model)
  : Model :=
  alter_cat (fun c => Category.set_blocks (alter f bi (Category.blocks c)) c)
    ci m.

(** The [click] listener of a heading's delete button, once the user has
    answered the confirmation with [ok]. *)
Definition onDeleteHeading (ci bi : nat) (ok : bool) (st : State) : State :=
  match categories (model st) !! ci with
  | Some cat =>
      match Category.blocks cat !! bi with
      | Some block =>
          if negb ok then st
          else
            mkState
              (alter_cat
                 (fun c =>
                    Category.set_blocks
                      (List.filter
                         (fun b => negb (String.eqb (Block.id b) (Block.id block)))
                         (Category.blocks c)) c) ci (model st))
              (if sel_is (Selected.blockId (selected st)) (Block.id block)
               then Selected.none else selected st)
              (catBones st) (drag st) (alerts st) (uidCount st)
      | None => st
      end
  | None => st
  end.

(** [block.bullets.splice(i, 1)], then an empty bullet if none is left. *)
Definition deleteBullet (i : nat) (bullets : list string) : list string :=
  let rest := delete i bullets in
  if (length rest =? 0)%nat then rest ++ [""%string] else rest.

(** The [click] listener of the delete mark of bullet [i]. *)
Definition onDeleteBullet (ci bi i : nat) (st : State) : State :=
  match categories (model st) !! ci with
  | Some cat =>
      match Category.blocks cat !! bi with
      | Some block =>
          match Block.bullets block !! i with
          | Some _ =>
              with_model
                (alter_block
                   (fun b => Block.set_bullets (deleteBullet i (Block.bullets b)) b)
                   ci bi (model st)) st
          | None => st
          end
      | None => st
      end
  | None => st
  end.

(** The [input] listeners of a title, a bullet and a category label;
    [text] is the trimmed text content of the element. *)
Definition onEditTitle (ci bi : nat) (text : string) (st : State) : State :=
  with_model (alter_block (Block.set_title text) ci bi (model st)) st.

(** A bullet element exists only for an index of the list, where the
    assignment replaces the entry. *)
Definition onEditBullet (ci bi i : nat) (text : string) (st : State)
  : State :=
  with_model
    (alter_block
       (fun b => Block.set_bullets (<[i := text]> (Block.bullets b)) b)
       ci bi (model st)) st.

Definition onEditLabel (ci : nat) (text : string) (st : State) : State :=
  with_model
    (alter_cat
       (Category.set_label (if String.eqb text "" then "Category"%string else text))
       ci (model st)) st.

(** The [ResizeObserver] callback of a block of measured width [width]. *)
Definition onBlockResize (ci bi : nat) (width : num) (st : State) : State :=
  with_model
    (alter_block
       (Block.set_w (clamp (Math_round width) (Fin 180) (Fin 520)))
       ci bi (model st)) st.

(** *** Import *)

(** [a || uid()] *)
Definition or_uid (a : value) : M value :=
  if truthy a then ret a
  else let* u := gen uid in ret (VStr u).

(** The object literal that the callback of [sc.blocks.map] returns for
    the entry [sb], once its [id] is evaluated. *)
Definition importedBlock (sb : value) (id : string) : Block :=
  {| Block.id := id;
     Block.title := String_ (or_else (getp sb "title") (VStr ""));
     Block.bullets :=
       match getp sb "bullets" with
       | VArr items => List.map String_ items
       | _ => [""%string]
       end;
     Block.t :=
       clamp (Number_ (coalesce (getp sb "t") (VNum (Fin 0.3))))
         tMin tMax;
     Block.w := None |}.

(** The callback of [sc.blocks.map]: reading [sb.id] throws when [sb] is
    [null]. *)
Definition importBlock (sb : value) : M Block :=
  let* idv := lift (get sb "id") in
  let* id := or_uid idv in
  ret (importedBlock sb (String_ id)).

(** [cats[i] || {}] *)
Definition payloadCategory (cats : list value) (i : nat) : value :=
  or_else (index cats i) (VObj []).

(** The callback of [def.categories.map]. *)
Definition importCategory (cats : list value) (dc : Category) (i : nat)
  : M Category :=
  let sc := payloadCategory cats i in
  let* id := or_uid (or_else (getp sc "id") (VStr (Category.id dc))) in
  let label :=
    String_ (or_else (getp sc "label") (VStr (Category.label dc))) in
  let* blocks :=
    match getp sc "blocks" with
    | VArr items => mapM importBlock items
    | _ => let* b := gen (mkBlock (Some (Fin 0.3))) in ret [b]
    end in
  ret {| Category.id := String_ id; Category.side := Category.side dc;
         Category.label := label; Category.blocks := blocks |}.

(** [Array.isArray(v) ? v : []] *)
Definition arrayOrEmpty (v : value) : list value :=
  match v with VArr items => items | _ => [] end.

(** The body of the [try] of [reader.onload], from the parsed payload to
    the model assigned. *)
Definition importModel (obj : value) : M Model :=
  let* def := gen defaultModel in
  let* catsv := lift (get obj "categories") in
  let cats := arrayOrEmpty catsv in
  let* fixed := mapMi (importCategory cats) (categories def) 0 in
  let ep := getp obj "effectPos" in
  let es := getp obj "effectSize" in
  ret {| version := 6;
         effectText :=
           String_ (or_else (getp obj "effectText") (VStr (effectText def)));
         effectPos :=
           if truthy ep && typeof_object ep
           then EffectPos.mk (Number_ (or_else (getp ep "dx") (VNum (Fin 0))))
                             (Number_ (or_else (getp ep "dy") (VNum (Fin 0))))
           else effectPos def;
         effectSize :=
           if truthy es && typeof_object es
           then EffectSize.mk
                  (Number_ (or_else (getp es "w")
                              (VNum (EffectSize.w (effectSize def)))))
                  (Number_ (or_else (getp es "h")
                              (VNum (EffectSize.h (effectSize def)))))
           else effectSize def;
         appearance :=
           appearance def
           ++ spread (or_else (getp obj "appearance") (VObj []));
         categories := fixed |}.

Definition importNotice : string := "Could not read JSON.".

(** [reader.onload]; [parsed] is what [JSON.parse] returns for the text of
    the file, [None] when it throws.  This is the listener up to the
    assignment of [model] and [selected], without the type errors of the
    conversions; [Strict.onImport] is the whole [try]. *)
Definition onImport (parsed : option value) (st : State) : State :=
  match (let* obj := lift parsed in importModel obj) (uidCount st) with
  | (Some m, n) =>
      mkState m Selected.none (catBones st) (drag st) (alerts st) n
  | (None, n) =>
      mkState (model st) (selected st) (catBones st) (drag st)
        (alerts st ++ [importNotice]) n
  end.

(** The [click] listener of [btnReset], once the user has answered the
    confirmation with [ok]. *)
Definition onReset (ok : bool) (st : State) : State :=
  if negb ok then st
  else
    let '(m, n) := defaultModel (uidCount st) in
    mkState m Selected.none (catBones st) (drag st) (alerts st) n.

(** An [input] listener of the appearance panel: the colour is kept as
    text, the seven sizes as [Number(e.target.value)]. *)
Definition numericControls : list string :=
  [ "boneThickness"; "fontSize"; "arrowWidth"; "labelWidth"; "ribLength";
    "blockWidth"; "boneSlant" ]%string.

Definition onAppearanceInput (key text : string) (st : State) : State :=
  if String.eqb key "boneColor" then
    with_model
      (set_appearance (appearance (model st) ++ [(key, VStr text)]) (model st))
      st
  else if existsb (String.eqb key) numericControls then
    with_model
      (set_appearance
         (appearance (model st) ++ [(key, VNum (StringToNumber text))])
         (model st)) st
  else st.

(** The deferred part of [renderAll] and the [resize] listener of the
    window: the bones are rebuilt from the model. *)
Definition onFrame (st : State) : State :=
  mkState (model st) (selected st) (drawStaticBones (model st)) (drag st)
    (alerts st) (uidCount st).

(** *** The editor as a transition system *)

Inductive Event : Type :=
| EvFrame
| EvSelect (ci bi : nat)
| EvPointerDown (ci bi : nat) (e : PointerEvent) (wrapRect : Rect)
| EvPointerMove (e : PointerEvent) (wrapRect : Rect)
| EvPointerUp
| EvAddHeading
| EvAddBullet
| EvDeleteHeading (ci bi : nat) (ok : bool)
| EvDeleteBullet (ci bi i : nat)
| EvEditTitle (ci bi : nat) (text : string)
| EvEditBullet (ci bi i : nat) (text : string)
| EvEditLabel (ci : nat) (text : string)
| EvBlockResize (ci bi : nat) (width : num)
| EvAppearance (key text : string)
| EvImport (parsed : option value)
| EvReset (ok : bool).

(** The [mousedown] listener of a block. *)
Definition onBlockMouseDown (ci bi : nat) (st : State) : State :=
  match categories (model st) !! ci with
  | Some cat =>
      match Category.blocks cat !! bi with
      | Some block => select (Category.id cat) (Block.id block) st
      | None => st
      end
  | None => st
  end.

Definition step (st : State) (ev : Event) : State :=
  match ev with
  | EvFrame => onFrame st
  | EvSelect ci bi => onBlockMouseDown ci bi st
  | EvPointerDown ci bi e r => onHandlePointerDown ci bi e r st
  | EvPointerMove e r => onDragMove e r st
  | EvPointerUp => onDragEnd st
  | EvAddHeading => onAddHeading st
  | EvAddBullet => onAddBullet st
  | EvDeleteHeading ci bi ok => onDeleteHeading ci bi ok st
  | EvDeleteBullet ci bi i => onDeleteBullet ci bi i st
  | EvEditTitle ci bi text => onEditTitle ci bi text st
  | EvEditBullet ci bi i text => onEditBullet ci bi i text st
  | EvEditLabel ci text => onEditLabel ci text st
  | EvBlockResize ci bi width => onBlockResize ci bi width st
  | EvAppearance key text => onAppearanceInput key text st
  | EvImport parsed => onImport parsed st
  | EvReset ok => onReset ok st
  end.

Definition run (st : State) (evs : list Event) : State :=
  fold_left step evs st.

(** The state in which the script leaves the editor: [let model =
    defaultModel()], nothing selected, no bone yet, no drag. *)
Definition initial : State :=
  let '(m, n) := defaultModel 0%nat in
  mkState m Selected.none ∅ None [] n.

End Runtime.

End Fishbone.

(** ** Notions used in the statements *)

(** No entry of the [blocks] array of an entry of [categories] is [null]
    or [undefined]. *)
Definition blocksReadable (sc : value) : Prop :=
  match getp sc "blocks" with
  | VArr items => Forall (fun sb => nullish sb = false) items
  | _ => True
  end.

(** A payload of one category holding one block of which only [t] is
    given: [{"categories":[{"blocks":[{"t":tv}]}]}]. *)
Definition payloadWithT (tv : value) : value :=
  VObj [("categories",
         VArr [VObj [("blocks", VArr [VObj [("t", tv)]])]])]%string.

(** The [t] of the first block of the first category. *)
Definition firstT (m : Model) : option num :=
  match Model.categories m with
  | c :: _ =>
      match Category.blocks c with
      | b :: _ => Some (Block.t b)
      | [] => None
      end
  | [] => None
  end.

(** The invariants of the data model: a property of every category, and a
    property of every block of every category. *)
Definition eachCategory (Q : Category -> Prop) (m : Model) : Prop :=
  Forall Q (Model.categories m).

Definition eachBlock (P : Block -> Prop) (m : Model) : Prop :=
  eachCategory (fun c => Forall P (Category.blocks c)) m.

Definition hasBlock (c : Category) : Prop := Category.blocks c <> [].
Definition hasBullet (b : Block) : Prop := Block.bullets b <> [].

(** The stored [t] is what [clamp] returns: in the band, or [NaN]. *)
Definition tClamped (b : Block) : Prop :=
  Block.t b = NaN \/ in_range tMin tMax (Block.t b).

Definition sixSides : list Side := [top; top; top; bottom; bottom; bottom].

Definition sidesFixed (m : Model) : Prop :=
  List.map Category.side (Model.categories m) = sixSides.

Definition is_import (ev : Fishbone.Event) : bool :=
  match ev with Fishbone.EvImport _ => true | _ => false end.

Definition is_delete_heading (ev : Fishbone.Event) : bool :=
  match ev with Fishbone.EvDeleteHeading _ _ _ => true | _ => false end.

(** ** A runtime to run the editor on examples

    The theorems below hold for every [Number::toString], every
    [StringToNumber] and every sequence of ids.  To run the editor on a
    concrete input some choice is needed: ids [id0], [id1], ... and
    conversions that are those of the language on the special values and
    on decimal integers (other texts and fractions are not converted
    faithfully; no example converts one). *)

Module Sample.

Definition uid_at (n : nat) : string := ("id" ++ nat_to_string n)%string.

Definition NumberToString (n : num) : string :=
  match n with
  | NaN => "NaN"
  | PosInf => "Infinity"
  | NegInf => "-Infinity"
  | Fin q => NilZero.string_of_int (Z.to_int (Qfloor q))
  end.

Definition StringToNumber (s : string) : num :=
  if String.eqb s "" then Fin 0
  else match NilZero.int_of_string s with
       | Some i => Fin (inject_Z (Z.of_int i))
       | None => NaN
       end.

Definition initial : Fishbone.State := Fishbone.initial uid_at.

Definition step : Fishbone.State -> Fishbone.Event -> Fishbone.State :=
  Fishbone.step NumberToString StringToNumber uid_at.

Definition run : Fishbone.State -> list Fishbone.Event -> Fishbone.State :=
  Fishbone.run NumberToString StringToNumber uid_at.

(** The editor once the first frame has drawn the bones. *)
Definition ready : Fishbone.State := run initial [Fishbone.EvFrame].

End Sample.

(** ** Concrete inputs *)

Module Examples.

Import Fishbone.

(** The upper left bone of the default diagram, from (300, 360) on the
    spine to (90, 70), and its point at [t = 1/2]. *)
Definition bone0 : Bone := Bone.mk (Fin 300) (Fin 360) (Fin 90) (Fin 70) top.
Definition mid0 : Point := Point.mk (Fin 195) (Fin 215).

(** A wrapper laid out at the size of the logical canvas, at the origin:
    client coordinates are svg coordinates. *)
Definition unitRect : Rect := Rect.mk (Fin 0) (Fin 0) (Fin 1200) (Fin 720).

Definition pointerAt (px py : Q) : PointerEvent :=
  PointerEvent.mk (Fin px) (Fin py) 1.

(** [{"categories":[{"blocks":[{"t":0.4}]}]}], imported and drawn: the
    first category is [id12], its block [id24] is stored at 0.4 and its
    bone is [bone0]. *)
Definition stored04 : State :=
  Sample.run Sample.initial
    [EvImport (Some (payloadWithT (VNum (Fin 0.4)))); EvFrame].

(** A payload of four categories, the second with two headings:
    [{"categories":[{"label":"Staff","side":"bottom"},
                    {"label":"Process","blocks":[{"title":"Late","t":0.5},
                                                 {"title":"Lost","t":0.7}]},
                    {"label":"Tools"},{"label":"Parts"}]}]. *)
Definition payloadFour : value :=
  VObj [("categories",
         VArr [VObj [("label", VStr "Staff"); ("side", VStr "bottom")];
               VObj [("label", VStr "Process");
                     ("blocks",
                      VArr [VObj [("title", VStr "Late"); ("t", VNum (Fin 0.5))];
                            VObj [("title", VStr "Lost"); ("t", VNum (Fin 0.7))]])];
               VObj [("label", VStr "Tools")];
               VObj [("label", VStr "Parts")]])]%string.

(** The editor after the user has typed a title in the first heading. *)
Definition titled : State :=
  Sample.run Sample.ready [EvEditTitle 0 0 "Late delivery"].


(** [{"categories":[{"blocks":[]}]}] and
    [{"categories":[{"blocks":[{"bullets":[]}]}]}]. *)
Definition payloadNoBlocks : value :=
  VObj [("categories", VArr [VObj [("blocks", VArr [])]])]%string.

Definition payloadNoBullets : value :=
  VObj [("categories",
         VArr [VObj [("blocks", VArr [VObj [("bullets", VArr [])]])]])]%string.

(** [{"appearance":{k:v}}], imported and drawn. *)
Definition withAppearance (k : string) (v : Q) : State :=
  Sample.run Sample.initial
    [EvImport (Some (VObj [("appearance", VObj [(k, VNum (Fin v))])]%string));
     EvFrame].

End Examples.

(** ** Drawing and placement

    What [drawRibs], [positionBlocks], [positionLabels] and
    [applyAppearance] compute from the state and from the rectangles they
    measure; the writing of the result on the elements is left out. *)

Module Line.
Record Line : Type := mk { x1 : num; y1 : num; x2 : num; y2 : num }.
End Line.
Abbreviation Line := Line.Line.

Module Layout.

Import Fishbone.
Import Model.

Local Open Scope Q_scope.

(** [clamp(Number(block.t ?? 0.3), 0.08, 0.92)]: the [t] that [drawRibs]
    and [positionBlocks] read. *)
Definition readT (block : Block) : num := clamp (Block.t block) tMin tMax.

(** [(p.x / W) * wrapRect.width] and [(p.y / H) * wrapRect.height] *)
Definition toRendered (p : Point) (wrapRect : Rect) : num * num :=
  ((Point.x p / Fin W * Rect.width wrapRect)%num,
   (Point.y p / Fin H * Rect.height wrapRect)%num).

(** The two clamps of [positionBlocks]. *)
Definition placeLeft (xPx ribLen blockW width : num) : num :=
  clamp (xPx - ribLen - blockW - Fin 12)%num (Fin 8)
    (width - Fin 8 - Math_min blockW (width - Fin 16))%num.

Definition placeTop (yPx height : num) : num :=
  clamp (yPx - Fin 30)%num (Fin 8) (height - Fin 120)%num.

(** [el.getBoundingClientRect().height || 40] *)
Definition labelHeight (measured : num) : num :=
  if JSNum.truthy measured then measured else Fin 40.

Section Runtime.

Variable NumberToString : num -> string.
Variable StringToNumber : string -> num.

Let Number_ := ToNumber NumberToString StringToNumber.

(** [Number(a.ribLength ?? 150)] *)
Definition ribLen (m : Model) : num :=
  Number_ (coalesce (lookup_prop "ribLength" (appearance m)) (VNum 150)).

(** [block.w ? Number(block.w) : Number(a.blockWidth ?? 300)] *)
Definition blockW (m : Model) (block : Block) : num :=
  let dflt :=
    Number_ (coalesce (lookup_prop "blockWidth" (appearance m)) (VNum 300)) in
  match Block.w block with
  | Some v => if JSNum.truthy v then v else dflt
  | None => dflt
  end.

(** The line that [drawRibs] adds for a block. *)
Definition ribOf (m : Model) (bone : Bone) (block : Block) : Line :=
  let p := pointOnBone bone (readT block) in
  let x2 := (Point.x p - Fin 6)%num in
  let x1 := (x2 - ribLen m)%num in
  {| Line.x1 := x1; Line.y1 := Point.y p; Line.x2 := x2; Line.y2 := Point.y p |}.

(** [function drawRibs()]: the lines added, in order; a category without
    bone is skipped. *)
Definition drawRibs (st : State) : list Line :=
  flat_map
    (fun cat =>
       match catBones st !! Category.id cat with
       | Some bone => List.map (ribOf (model st) bone) (Category.blocks cat)
       | None => []
       end)
    (categories (model st)).

(** [function positionBlocks()], for the element whose data set holds
    [catId] and [blockId]: the [left] and [top] written, [None] when the
    element is skipped. *)
Definition positionBlock (st : State) (wrapRect : Rect)
    (catId blockId : string) : option (num * num) :=
  match findBlock (model st) catId blockId, catBones st !! catId with
  | Some block, Some bone =>
      let p := pointOnBone bone (readT block) in
      let px := toRendered p wrapRect in
      Some (placeLeft (fst px) (ribLen (model st)) (blockW (model st) block)
              (Rect.width wrapRect),
            placeTop (snd px) (Rect.height wrapRect))
  | _, _ => None
  end.

(** [function positionLabels()], for the label element of [catId] whose
    measured height is [measured]. *)
Definition positionLabel (st : State) (wrapRect : Rect) (catId : string)
    (measured : num) : option (num * num) :=
  match catBones st !! catId with
  | Some bone =>
      let px := toRendered (edgePoint bone) wrapRect in
      let labelH := labelHeight measured in
      let yOffset := match Bone.side bone with
                     | top => (neg labelH + Fin 6)%num
                     | bottom => neg (Fin 6)
                     end in
      Some (fst px, (snd px + yOffset)%num)
  | None => None
  end.

(** The width and height that [applyAppearance] writes on the effect
    text. *)
Definition appliedEffectSize (m : Model) : num * num :=
  (clamp (EffectSize.w (effectSize m)) (Fin 120) (Fin 800),
   clamp (EffectSize.h (effectSize m)) (Fin 70) (Fin 700)).

End Runtime.

End Layout.

(** ** The effect box: move and resize *)

Module EffectDragState.
Record EffectDragState : Type := mk {
  startX : num; startY : num; startDx : num; startDy : num
}.
End EffectDragState.
Abbreviation EffectDragState := EffectDragState.EffectDragState.

Module EffectBox.

Import Model.

Definition set_effectPos (v : EffectPos.EffectPos) (m : Model) : Model :=
  mk (version m) (effectText m) v (effectSize m) (appearance m) (categories m).

Definition set_effectSize (v : EffectSize.EffectSize) (m : Model) : Model :=
  mk (version m) (effectText m) (effectPos m) v (appearance m) (categories m).

(** [model] and [effectDragState] *)
Definition State : Type := (Model * option EffectDragState)%type.

(** The [mousedown] listener of [effectDrag], for a press at
    [(clientX, clientY)]. *)
Definition onEffectDown (clientX clientY : num) (st : State) : State :=
  (fst st,
   Some {| EffectDragState.startX := clientX;
           EffectDragState.startY := clientY;
           EffectDragState.startDx := EffectPos.dx (effectPos (fst st));
           EffectDragState.startDy := EffectPos.dy (effectPos (fst st)) |}).

(** [function onEffectMove(e)] *)
Definition onEffectMove (clientX clientY : num) (st : State) : State :=
  match snd st with
  | None => st
  | Some ds =>
      let dx := (clientX - EffectDragState.startX ds)%num in
      let dy := (clientY - EffectDragState.startY ds)%num in
      (set_effectPos
         (EffectPos.mk (EffectDragState.startDx ds + dx)%num
                       (EffectDragState.startDy ds + dy)%num) (fst st),
       snd st)
  end.

(** [function onEffectUp()] *)
Definition onEffectUp (st : State) : State := (fst st, None).

(** The callback of the [ResizeObserver] of the effect text, for a
    measured rectangle of [width] by [height]. *)
Definition onEffectResize (width height : num) (m : Model) : Model :=
  set_effectSize
    (EffectSize.mk (clamp (Math_round width) (Fin 120) (Fin 800))
                   (clamp (Math_round height) (Fin 70) (Fin 700))) m.

End EffectBox.

(** ** Notions for the traces of the editor *)

Module Traces.

Import Fishbone.

(** What [drawStaticBones] reads of a model: the appearance, and the
    [id] and [side] of every category, in order. *)
Definition skeleton (m : Model) : list (string * value) * list (string * Side) :=
  (Model.appearance m,
   List.map (fun c => (Category.id c, Category.side c)) (Model.categories m)).

(** The model with every [t] overwritten: what is left when the positions
    of the blocks are not looked at. *)
Definition forgetT (m : Model) : Model :=
  Model.set_categories
    (List.map
       (fun c => Category.set_blocks
                   (List.map (Block.set_t NaN) (Category.blocks c)) c)
       (Model.categories m)) m.

(** No two categories share an [id], and no two blocks of a category. *)
Definition idsDistinct (m : Model) : Prop :=
  List.NoDup (List.map Category.id (Model.categories m))
  /\ Forall (fun c => List.NoDup (List.map Block.id (Category.blocks c)))
       (Model.categories m).

Definition is_pointer_down (ev : Event) : bool :=
  match ev with EvPointerDown _ _ _ _ => true | _ => false end.

Definition is_pointer_move (ev : Event) : bool :=
  match ev with EvPointerMove _ _ => true | _ => false end.

(** The events after which the bones may have to be drawn again: those
    that replace the model or write the appearance. *)
Definition redraws (ev : Event) : bool :=
  match ev with
  | EvImport _ | EvReset _ | EvAppearance _ _ => true
  | _ => false
  end.

(** [s] is one of the first [n] ids that [uid()] has returned. *)
Definition drawn (uid_at : nat -> string) (n : nat) (s : string) : Prop :=
  exists k : nat, (k < n)%nat /\ s = uid_at k.

(** Distinct ids, every id of a block among the first [n] drawn. *)
Definition idsDrawn (uid_at : nat -> string) (n : nat) (m : Model) : Prop :=
  List.NoDup (List.map Category.id (Model.categories m))
  /\ Forall (fun c =>
               List.NoDup (List.map Block.id (Category.blocks c))
               /\ Forall (drawn uid_at n) (List.map Block.id (Category.blocks c)))
       (Model.categories m).

(** The stored width [w] of a block, when there is one, is what the
    observer of its size stores: [NaN], or a number from 180 to 520. *)
Definition wBounded (b : Block) : Prop :=
  match Block.w b with
  | None => True
  | Some v => v = NaN \/ in_range 180 520 v
  end.

End Traces.

(** ** What an export writes and an import reads back

    [btnExportJSON] writes [JSON.stringify(model, null, 2)] and
    [fileImportJSON] reads the text of a file with [JSON.parse].  The value
    read back from the text written differs from the object written where
    the notation has no word for it: [NaN] and the infinities are written
    as [null], a property whose value is [undefined] is not written, and
    [undefined] in an array is written as [null]. *)

Module Json.

(** The latest write of the key [k]. *)
Definition latest {A : Type} (k : string) (ps : list (string * A)) : option A :=
  option_map snd (List.find (fun kv => String.eqb k (fst kv)) (rev ps)).

(** The properties written for an object: [None] stands for a value that
    is not written.  A write is kept if it is of a written value and the
    latest write of its key is. *)
Definition written (ps : list (string * option value))
  : list (string * value) :=
  flat_map
    (fun kv =>
       match latest (fst kv) ps, snd kv with
       | Some (Some _), Some v => [(fst kv, v)]
       | _, _ => []
       end) ps.

Definition jsonNum (n : num) : value :=
  match n with
  | Fin q => VNum (Fin q)
  | _ => VNull
  end.

(** The value read back for [v]; [None] if nothing is written for it. *)
Fixpoint readBack (v : value) : option value :=
  match v with
  | VUndefined => None
  | VNull => Some VNull
  | VBool b => Some (VBool b)
  | VNum n => Some (jsonNum n)
  | VStr s => Some (VStr s)
  | VArr items =>
      Some (VArr (List.map
                    (fun e => match readBack e with
                              | Some r => r
                              | None => VNull
                              end) items))
  | VObj props =>
      Some (VObj (written
                    (List.map (fun kv => let '(k, e) := kv in (k, readBack e))
                       props)))
  end.

Definition sideName (s : Side) : string :=
  match s with top => "top" | bottom => "bottom" end.

(** A block, a category and the model, read back. *)
Definition jsonBlock (b : Block) : value :=
  VObj ([ ("id", VStr (Block.id b));
          ("title", VStr (Block.title b));
          ("bullets", VArr (List.map VStr (Block.bullets b)));
          ("t", jsonNum (Block.t b)) ]%string
        ++ match Block.w b with
           | Some v => [("w"%string, jsonNum v)]
           | None => []
           end).

Definition jsonCategory (c : Category) : value :=
  VObj [ ("id", VStr (Category.id c));
         ("side", VStr (sideName (Category.side c)));
         ("label", VStr (Category.label c));
         ("blocks", VArr (List.map jsonBlock (Category.blocks c))) ]%string.

Definition jsonModel (m : Model) : value :=
  VObj [ ("version", VNum (of_nat (Model.version m)));
         ("effectText", VStr (Model.effectText m));
         ("effectPos",
          VObj [ ("dx", jsonNum (EffectPos.dx (Model.effectPos m)));
                 ("dy", jsonNum (EffectPos.dy (Model.effectPos m))) ]);
         ("effectSize",
          VObj [ ("w", jsonNum (EffectSize.w (Model.effectSize m)));
                 ("h", jsonNum (EffectSize.h (Model.effectSize m))) ]);
         ("appearance",
          VObj (written
                  (List.map (fun kv => let '(k, e) := kv in (k, readBack e))
                     (Model.appearance m))));
         ("categories",
          VArr (List.map jsonCategory (Model.categories m))) ]%string.

(** What an import of the export keeps of a block, and of a category: all
    but the width [w]; a [t] that is not a finite number comes back as
    0.3, and an empty label as the label of the default model. *)
Definition blockKept (b b' : Block) : Prop :=
  Block.id b' = Block.id b
  /\ Block.title b' = Block.title b
  /\ Block.bullets b' = Block.bullets b
  /\ Block.w b' = None
  /\ (in_range tMin tMax (Block.t b) -> Block.t b' ≈ Block.t b)
  /\ (is_finite (Block.t b) = false -> Block.t b' ≈ Fin 0.3).

Definition categoryKept (c c' : Category) : Prop :=
  Category.id c' = Category.id c
  /\ Category.side c' = Category.side c
  /\ (Category.label c <> ""%string -> Category.label c' = Category.label c)
  /\ Forall2 blockKept (Category.blocks c) (Category.blocks c').

(** The category that the importer makes of the category [c] read back,
    at a place whose default category is [dc]. *)
Definition reimported (NumberToString : num -> string)
    (StringToNumber : string -> num) (dc c : Category) : Category :=
  {| Category.id := Category.id c;
     Category.side := Category.side dc;
     Category.label :=
       if String.eqb (Category.label c) "" then Category.label dc
       else Category.label c;
     Category.blocks :=
       List.map
         (fun b =>
            Fishbone.importedBlock NumberToString StringToNumber (jsonBlock b)
              (Block.id b))
         (Category.blocks c) |}.

End Json.

(** ** The arithmetic of the processor

    The numbers of the program are binary64 floating-point numbers.  The
    functions of the geometry and of the drag are embedded here a second
    time, operation for operation, over the binary64 numbers of the
    kernel: they round and overflow as the program does, and are run where
    that decides. *)

Module F64.

Import PrimFloat.
#[local] Set Warnings "-inexact-float".
Local Open Scope float_scope.

Record Point : Set := mkPoint { x : float; y : float }.

Record Bone : Set := mkBone {
  xSpine : float; ySpine : float; xEdge : float; yEdge : float
}.

(** [wrapper.getBoundingClientRect()] *)
Record Rect : Set := mkRect {
  left : float; top : float; width : float; height : float
}.

(** [Math.max] and [Math.min] of two arguments: [NaN] if one is, and [-0]
    below [+0]. *)
Definition Math_max (a b : float) : float :=
  if (is_nan a || is_nan b)%bool then nan
  else if a <? b then b
  else if b <? a then a
  else if get_sign a then b else a.

Definition Math_min (a b : float) : float :=
  if (is_nan a || is_nan b)%bool then nan
  else if b <? a then b
  else if a <? b then a
  else if get_sign a then a else b.

(** [function clamp(x, a, b)] *)
Definition clamp (x a b : float) : float := Math_max a (Math_min b x).

(** A small natural number as a double. *)
Fixpoint of_nat (n : nat) : float :=
  match n with
  | O => 0
  | S k => of_nat k + 1
  end.

(** Entry [i] of [spineAnchors(n, startX, endX)], for [n > 1]. *)
Definition spineAnchor (n i : nat) (startX endX : float) : float :=
  let step := (endX - startX) / (of_nat n - 1) in
  startX + of_nat i * step.

(** The bone that [drawStaticBones] sets for category [i] of the three
    of a side, from the [arrowWidth] and the [boneSlant] of the
    appearance; [yEdge] is 70 on the upper side and 650 on the lower. *)
Definition categoryBone (arrowW boneSlant : float) (i : nat) (yEdge : float)
  : Bone :=
  let slant := 120 + boneSlant in
  let marginL := 160 in
  let arrowX := 1200 - arrowW in
  let spineStart := marginL in
  let spineEnd := arrowX in
  let xSpine := spineAnchor 3 i (spineStart + 140) (spineEnd - 30) in
  let xEdge := clamp (xSpine - slant) 90 (1200 - 40) in
  mkBone xSpine 360 xEdge yEdge.

(** [function pointOnBone(bone, t)] *)
Definition pointOnBone (bone : Bone) (t : float) : Point :=
  {| x := xSpine bone + t * (xEdge bone - xSpine bone);
     y := ySpine bone + t * (yEdge bone - ySpine bone) |}.

Definition denom (a b : Point) : float :=
  let abx := x b - x a in
  let aby := y b - y a in
  abx * abx + aby * aby.

Definition epsilon : float := 1e-6.

(** [function projectT(p, a, b)] *)
Definition projectT (p a b : Point) : float :=
  let abx := x b - x a in
  let aby := y b - y a in
  let apx := x p - x a in
  let apy := y p - y a in
  let denom := abx * abx + aby * aby in
  if denom <? epsilon then 0
  else (apx * abx + apy * aby) / denom.

Definition spinePoint (bone : Bone) : Point :=
  {| x := xSpine bone; y := ySpine bone |}.

Definition edgePoint (bone : Bone) : Point :=
  {| x := xEdge bone; y := yEdge bone |}.

(** pointer -> svg coords, for a pointer at [(clientX, clientY)] *)
Definition pointerToSvg (clientX clientY : float) (wrapRect : Rect) : Point :=
  let px := clientX - left wrapRect in
  let py := clientY - top wrapRect in
  {| x := (px / width wrapRect) * 1200;
     y := (py / height wrapRect) * 720 |}.

(** [tOffset] as [startDrag] stores it for a block stored at [t]. *)
Definition startOffset (bone : Bone) (t clientX clientY : float)
    (wrapRect : Rect) : float :=
  let grabT :=
    projectT (pointerToSvg clientX clientY wrapRect)
      (spinePoint bone) (edgePoint bone) in
  let currentT := clamp t 0.08 0.92 in
  currentT - grabT.

(** [tOffset || 0] *)
Definition offset_or_zero (tOffset : float) : float :=
  if (is_nan tOffset || is_zero tOffset)%bool then 0 else tOffset.

(** The [t] that [onDragMove] writes. *)
Definition dragT (bone : Bone) (tOffset clientX clientY : float)
    (wrapRect : Rect) : float :=
  let t :=
    projectT (pointerToSvg clientX clientY wrapRect)
      (spinePoint bone) (edgePoint bone) in
  clamp (t + offset_or_zero tOffset) 0.08 0.92.

(** A press at the point [p0] and a move to the point [p1], on a wrapper
    at the origin of the size of the logical canvas, where client
    coordinates are logical units: the [t] stored for a block stored at
    [t]. *)
Definition unitRect : Rect := mkRect 0 0 1200 720.

Definition dragged (bone : Bone) (t : float) (p0 p1 : Point) : float :=
  dragT bone (startOffset bone t (x p0) (y p0) unitRect) (x p1) (y p1)
    unitRect.

(** The upper left bone of the default diagram; the lower middle bone
    for [boneSlant = 121]; and the third upper bone for
    [arrowWidth = 1e200], a finite bone the square of whose length is not
    a finite number. *)
Definition bone0 : Bone := mkBone 300 360 90 70.
Definition slantBone : Bone := mkBone 665 360 424 650.
Definition overflowBone : Bone := mkBone (-1e200) 360 90 70.

(** The same three bones, as [drawStaticBones] builds them. *)
Definition builtBone0 : Bone := categoryBone 140 120 0 70.
Definition builtSlantBone : Bone := categoryBone 140 121 1 650.
Definition builtOverflowBone : Bone := categoryBone 1e200 120 2 70.

(** The six bones of the default diagram, the fractions [k / 100] for
    [k] from 0 to 100, and two numbers at most [2^-50] apart. *)
Definition defaultBones : list Bone :=
  List.map (fun i => categoryBone 140 120 i 70) (seq 0 3)
  ++ List.map (fun i => categoryBone 140 120 i 650) (seq 0 3).

Definition hundredths : list float :=
  List.map (fun k => of_nat k / 100) (seq 0 101).

Definition close (a b : float) : bool := abs (a - b) <=? 0x1p-50.

Definition t026 : float := 0.26.
Definition t04 : float := 0.4.
Definition t06 : float := 0.6.

End F64.

(** ** The type errors of [String] and [Number]

    [ToString] and [ToNumber] above give the value of [String(v)] and of
    [Number(v)] where these return.  For an object the runtime asks the
    object for a primitive value: it calls [toString] and [valueOf] if they
    are functions, and throws a [TypeError] if neither returns a primitive
    value.  An object read from a JSON text inherits both from
    [Object.prototype], where [valueOf] returns the object itself; a
    property [toString] of its own hides the inherited function, and no
    value of a JSON text is a function.  So the conversion of an object
    throws as soon as the object has a property [toString] of its own, and
    the conversion of an array, which joins the conversions of its elements
    other than [null] and [undefined], throws if one of those does.  The
    same holds where a value is written to a control, to an attribute or
    to a style property, or is added to a text.

    The functions that convert values of an imported file are embedded
    here with this error. *)

Module Strict.

Import Fishbone.
Import Model.

(** [String(v)] and [Number(v)] throw a [TypeError]. *)
Fixpoint throws (v : value) : bool :=
  match v with
  | VObj props => existsb (fun kv => String.eqb (fst kv) "toString") props
  | VArr items =>
      existsb (fun e => match e with
                        | VUndefined | VNull => false
                        | _ => throws e
                        end) items
  | _ => false
  end.

Section Runtime.

Variable NumberToString : num -> string.
Variable StringToNumber : string -> num.
Variable uid_at : nat -> string.

(** [String(v)] and [Number(v)]; [None] is the [TypeError]. *)
Definition ToString (v : value) : option string :=
  if throws v then None else Some (JSValue.ToString NumberToString v).

Definition ToNumber (v : value) : option num :=
  if throws v then None
  else Some (JSValue.ToNumber NumberToString StringToNumber v).

Let String_ (v : value) : M string := lift (ToString v).
Let Number_ (v : value) : M num := lift (ToNumber v).

(** The callback of [sc.blocks.map]: the properties of the object
    literal are evaluated in the order they are written. *)
Definition importBlock (sb : value) : M Block :=
  let* idv := lift (get sb "id") in
  let* idv' := or_uid uid_at idv in
  let* id := String_ idv' in
  let* title := String_ (or_else (getp sb "title") (VStr "")) in
  let* bullets :=
    match getp sb "bullets" with
    | VArr items => mapM String_ items
    | _ => ret [""%string]
    end in
  let* t := Number_ (coalesce (getp sb "t") (VNum (Fin 0.3))) in
  ret {| Block.id := id; Block.title := title; Block.bullets := bullets;
         Block.t := clamp t tMin tMax; Block.w := None |}.

(** The callback of [def.categories.map]. *)
Definition importCategory (cats : list value) (dc : Category) (i : nat)
  : M Category :=
  let sc := payloadCategory cats i in
  let* idv := or_uid uid_at (or_else (getp sc "id") (VStr (Category.id dc))) in
  let* id := String_ idv in
  let* label :=
    String_ (or_else (getp sc "label") (VStr (Category.label dc))) in
  let* blocks :=
    match getp sc "blocks" with
    | VArr items => mapM importBlock items
    | _ => let* b := gen (mkBlock uid_at (Some (Fin 0.3))) in ret [b]
    end in
  ret {| Category.id := id; Category.side := Category.side dc;
         Category.label := label; Category.blocks := blocks |}.

(** The body of the [try] of [reader.onload], from the parsed payload to
    the model assigned. *)
Definition importModel (obj : value) : M Model :=
  let* def := gen (defaultModel uid_at) in
  let* catsv := lift (get obj "categories") in
  let cats := arrayOrEmpty catsv in
  let* fixed := mapMi (importCategory cats) (categories def) 0 in
  let* text :=
    String_ (or_else (getp obj "effectText") (VStr (effectText def))) in
  let ep := getp obj "effectPos" in
  let es := getp obj "effectSize" in
  let* pos :=
    if truthy ep && typeof_object ep
    then let* dx := Number_ (or_else (getp ep "dx") (VNum (Fin 0))) in
         let* dy := Number_ (or_else (getp ep "dy") (VNum (Fin 0))) in
         ret (EffectPos.mk dx dy)
    else ret (effectPos def) in
  let* size :=
    if truthy es && typeof_object es
    then let* w := Number_ (or_else (getp es "w")
                              (VNum (EffectSize.w (effectSize def)))) in
         let* h := Number_ (or_else (getp es "h")
                              (VNum (EffectSize.h (effectSize def)))) in
         ret (EffectSize.mk w h)
    else ret (effectSize def) in
  ret {| version := 6;
         effectText := text;
         effectPos := pos;
         effectSize := size;
         appearance :=
           appearance def
           ++ spread (or_else (getp obj "appearance") (VObj []));
         categories := fixed |}.

(** The values of the appearance that are converted to a text:
    [a.boneColor || "#c00000"], and [a.k ?? d] for each of the seven sizes;
    the defaults are those of [syncControlsFromModel], and those of
    [applyAppearance]. *)
Definition appearanceTexts (sizes : list (string * Q)) (m : Model)
  : list value :=
  or_else (lookup_prop "boneColor" (appearance m)) (VStr "#c00000")
  :: List.map
       (fun kd => coalesce (lookup_prop (fst kd) (appearance m))
                    (VNum (Fin (snd kd)))) sizes.

Definition controlSizes : list (string * Q) :=
  [ ("boneThickness", 10%Q); ("fontSize", 12%Q); ("arrowWidth", 140%Q);
    ("labelWidth", 200%Q); ("ribLength", 150%Q); ("blockWidth", 300%Q);
    ("boneSlant", 200%Q) ]%string.

Definition styleSizes : list (string * Q) :=
  [ ("boneThickness", 10%Q); ("fontSize", 12%Q); ("arrowWidth", 180%Q);
    ("labelWidth", 200%Q); ("ribLength", 150%Q); ("blockWidth", 300%Q);
    ("boneSlant", 200%Q) ]%string.

(** [function syncControlsFromModel()] and [function applyAppearance()],
    the first step of [renderAll()]: they write outside the state that is
    modelled, and throw if a value they convert does. *)
Definition syncControlsFromModel (m : Model) : option unit :=
  if existsb throws (appearanceTexts controlSizes m) then None else Some tt.

Definition applyAppearance (m : Model) : option unit :=
  if existsb throws (appearanceTexts styleSizes m) then None else Some tt.

(** [reader.onload]: the [try] goes on, after the assignment of [model]
    and of [selected], with [syncControlsFromModel()] and [renderAll()];
    the [catch] shows the notice wherever the exception comes from. *)
Definition onImport (parsed : option value) (st : State) : State :=
  match (let* obj := lift parsed in importModel obj) (uidCount st) with
  | (Some m, n) =>
      match syncControlsFromModel m, applyAppearance m with
      | Some _, Some _ =>
          mkState m Selected.none (catBones st) (drag st) (alerts st) n
      | _, _ =>
          mkState m Selected.none (catBones st) (drag st)
            (alerts st ++ [importNotice]) n
      end
  | (None, n) =>
      mkState (model st) (selected st) (catBones st) (drag st)
        (alerts st ++ [importNotice]) n
  end.

(** [function drawStaticBones()]: [catBones.clear()], then the four
    values of the appearance are converted, [boneColor] where the first
    line is added, and then the bones are set; [None] when it throws,
    which it does before the first bone is set. *)
Definition drawnTexts (m : Model) : list value :=
  [ coalesce (lookup_prop "boneThickness" (appearance m)) (VNum (Fin 10));
    coalesce (lookup_prop "arrowWidth" (appearance m)) (VNum (Fin 180));
    coalesce (lookup_prop "boneSlant" (appearance m)) (VNum (Fin 120));
    or_else (lookup_prop "boneColor" (appearance m)) (VStr "#c00000") ].

Definition drawStaticBones (m : Model) : option (gmap string Bone) :=
  if existsb throws (drawnTexts m) then None
  else Some (Fishbone.drawStaticBones NumberToString StringToNumber m).

(** The deferred part of [renderAll] and the [resize] listener. *)
Definition onFrame (st : State) : State :=
  mkState (model st) (selected st)
    (match drawStaticBones (model st) with
     | Some bones => bones
     | None => ∅
     end)
    (drag st) (alerts st) (uidCount st).

(** The editor as a transition system, with the type errors of the
    import and of the frame; the other listeners change the state before
    they render, so an exception of [renderAll] leaves what they did.
    The events are those of the elements of the model: once an import has
    thrown after the assignment of the model, the elements shown are
    still those of the model before, and an event of one of them is
    followed only as far as it reads the model by id ([startDrag]). *)
Definition step (st : State) (ev : Event) : State :=
  match ev with
  | EvFrame => onFrame st
  | EvImport parsed => onImport parsed st
  | _ => Fishbone.step NumberToString StringToNumber uid_at st ev
  end.

Definition run (st : State) (evs : list Event) : State :=
  fold_left step evs st.

End Runtime.

(** The values of a payload that the importer converts when it reaches
    them: of a block, of a category, of the payload. *)
Definition convertedBlock (sb : value) : list value :=
  [getp sb "id"; getp sb "title"; getp sb "t"]
  ++ match getp sb "bullets" with
     | VArr items => items
     | _ => []
     end.

Definition convertedCategory (sc : value) : list value :=
  [getp sc "id"; getp sc "label"]
  ++ match getp sc "blocks" with
     | VArr items => flat_map convertedBlock items
     | _ => []
     end.

Definition converted (obj : value) : list value :=
  flat_map
    (fun i => convertedCategory
                (payloadCategory (arrayOrEmpty (getp obj "categories")) i))
    (seq 0 6)
  ++ [getp obj "effectText"]
  ++ (if truthy (getp obj "effectPos") && typeof_object (getp obj "effectPos")
      then [getp (getp obj "effectPos") "dx"; getp (getp obj "effectPos") "dy"]
      else [])
  ++ (if truthy (getp obj "effectSize") && typeof_object (getp obj "effectSize")
      then [getp (getp obj "effectSize") "w"; getp (getp obj "effectSize") "h"]
      else []).


(** The events that raise no type error in an editor whose appearance
    holds no value that cannot be converted: all but the import of a
    payload with such a value among those the importer converts, or in
    its [appearance]. *)
Definition plain (props : list (string * value)) : bool :=
  forallb (fun kv => negb (throws (snd kv))) props.

Definition plainEvent (ev : Event) : bool :=
  match ev with
  | EvImport (Some obj) =>
      negb (existsb throws (converted obj))
      && plain (spread (or_else (getp obj "appearance") (VObj [])))
  | _ => true
  end.

(** [{"effectText":{"toString":null}}] and
    [{"appearance":{"boneThickness":{"toString":null}}}]: a text and a
    thickness that cannot be converted. *)
Definition payloadTextObject : value :=
  VObj [("effectText", VObj [("toString", VNull)])]%string.

Definition payloadThicknessObject : value :=
  VObj [("appearance",
         VObj [("boneThickness", VObj [("toString", VNull)])])]%string.

(** The editor run with the ids and the conversions of [Sample]. *)
Definition sample_step : State -> Event -> State :=
  step Sample.NumberToString Sample.StringToNumber Sample.uid_at.

Definition sample_run : State -> list Event -> State :=
  run Sample.NumberToString Sample.StringToNumber Sample.uid_at.

End Strict.

(** * Properties *)

Import Fishbone.

Local Open Scope Q_scope.

(** ** Numbers *)

(** Comparisons between rational constants, by computation. *)
Ltac qconst :=
  vm_compute; first [reflexivity | discriminate | (intro; discriminate)].

Lemma lt_Fin (p q : Q) : lt (Fin p) (Fin q) = true <-> p < q.
Proof.
  unfold lt. rewrite Qlt_alt. destruct (p ?= q); intuition congruence.
Qed.

Lemma lt_Fin_false (p q : Q) : lt (Fin p) (Fin q) = false <-> q <= p.
Proof.
  rewrite <- Bool.not_true_iff_false, lt_Fin. split.
  - apply Qnot_lt_le.
  - apply Qle_not_lt.
Qed.

Lemma Qeq_bool_false (p q : Q) : ~ p == q -> Qeq_bool p q = false.
Proof.
  intros Hne. destruct (Qeq_bool p q) eqn:E; [|reflexivity].
  apply Qeq_bool_iff in E. contradiction.
Qed.

Lemma div_Fin (p q : Q) : ~ q == 0 -> (Fin p / Fin q)%num = Fin (p / q).
Proof. intros Hq. unfold div. now rewrite Qeq_bool_false. Qed.

Lemma num_eq_refl (a : num) : a ≈ a.
Proof. destruct a; simpl; auto. reflexivity. Qed.

Lemma num_eq_sym (a b : num) : a ≈ b -> b ≈ a.
Proof. destruct a, b; simpl; auto. intros ->. reflexivity. Qed.

Lemma num_eq_trans (a b c : num) : a ≈ b -> b ≈ c -> a ≈ c.
Proof.
  destruct a, b, c; simpl; auto; try contradiction.
  intros -> ->. reflexivity.
Qed.

(** ** The point projector *)



Lemma projectT_Fin (px py ax ay bx by_ : Q) :
  epsilon <= (bx - ax) * (bx - ax) + (by_ - ay) * (by_ - ay) ->
  projectT (Point.mk px py) (Point.mk ax ay) (Point.mk bx by_)
  = Fin (((px - ax) * (bx - ax) + (py - ay) * (by_ - ay))
         / ((bx - ax) * (bx - ax) + (by_ - ay) * (by_ - ay))).
Proof.
  intros Hd. unfold projectT. cbn [Point.x Point.y sub mul add].
  apply lt_Fin_false in Hd. rewrite Hd.
  apply div_Fin. apply lt_Fin_false in Hd. unfold epsilon in Hd.
  intros E. rewrite E in Hd. apply Qle_not_lt in Hd. apply Hd. reflexivity.
Qed.

(** C1. In exact arithmetic, for a bone whose spine point A and edge
    point B are finite and at least [epsilon] apart (squared), [projectT]
    inverts [pointOnBone] on the line through A and B, hence on the
    segment, where [0 <= s <= 1]: the point
    [P = (ax + s (bx - ax), ay + s (by - ay))] is the bone point of [s], it
    projects to [s], and the bone point of its projection is [P]; the
    spine point projects to 0 and the edge point to 1. *)
Theorem C1_projectT_inverts_pointOnBone
    (ax ay bx by_ s : Q) (sd : Side) :
  let bone := Bone.mk ax ay bx by_ sd in
  let A := spinePoint bone in
  let B := edgePoint bone in
  let P := Point.mk (Fin (ax + s * (bx - ax))) (Fin (ay + s * (by_ - ay))) in
  epsilon <= (bx - ax) * (bx - ax) + (by_ - ay) * (by_ - ay) ->
  point_eq (pointOnBone bone (Fin s)) P
  /\ projectT P A B ≈ Fin s
  /\ point_eq (pointOnBone bone (projectT P A B)) P
  /\ projectT A A B ≈ Fin 0
  /\ projectT B A B ≈ Fin 1.
Proof.
  intros bone A B P Hd.
  assert (Hne : ~ (bx - ax) * (bx - ax) + (by_ - ay) * (by_ - ay) == 0).
  { intros E. rewrite E in Hd. unfold epsilon in Hd.
    apply Qle_not_lt in Hd. apply Hd. reflexivity. }
  unfold A, B, P, bone, spinePoint, edgePoint.
  cbn [Bone.xSpine Bone.ySpine Bone.xEdge Bone.yEdge].
  rewrite !projectT_Fin by exact Hd.
  repeat split; cbn; try reflexivity; field; exact Hne.
Qed.

(** ** The bone builder *)

Lemma midY_val : midY = Fin 360.
Proof. reflexivity. Qed.

Lemma yBot_val : yBot = Fin 650.
Proof. reflexivity. Qed.


(** A key that no call sets keeps its entry, and with keys that are
    pairwise different every call is found in the map. *)
Lemma fold_insert_notin (l : list (string * Bone)) (acc : gmap string Bone)
    (k : string) :
  ~ In k (List.map fst l) ->
  fold_left (fun acc kv => <[fst kv := snd kv]> acc) l acc !! k = acc !! k.
Proof.
  revert acc. induction l as [|[k' b'] l IH]; intros acc Hk; cbn; [reflexivity|].
  cbn in Hk. rewrite IH by tauto. cbn.
  apply lookup_insert_ne. intros ->. tauto.
Qed.

Lemma fold_insert_nodup (l : list (string * Bone)) (acc : gmap string Bone)
    (k : string) (b : Bone) :
  List.NoDup (List.map fst l) -> In (k, b) l ->
  fold_left (fun acc kv => <[fst kv := snd kv]> acc) l acc !! k = Some b.
Proof.
  revert acc. induction l as [|[k' b'] l IH]; intros acc Hnd Hin; cbn in *.
  - contradiction.
  - inversion Hnd as [|? ? Hk' Hl]; subst.
    destruct Hin as [E | Hin].
    + inversion E; subst. rewrite fold_insert_notin by exact Hk'.
      cbn. apply lookup_insert_eq.
    + now apply IH.
Qed.

Section BoneBuilder.

Variable NumberToString : num -> string.
Variable StringToNumber : string -> num.



(** Entry [j] of a [forEach] is the bone of category [j], anchored at
    anchor [j]. *)
Lemma boneSets_lookup cats i xs slant yEdge sd j :
  boneSets cats i xs slant yEdge sd !! j
  = (fun cat => (Category.id cat,
                 categoryBone (nth (i + j) xs NaN) slant yEdge sd))
    <$> cats !! j.
Proof.
  revert i j. induction cats as [|cat rest IH]; intros i [|j]; cbn;
    try reflexivity.
  - now rewrite Nat.add_0_r.
  - rewrite IH. now replace (S i + j)%nat with (i + S j)%nat by lia.
Qed.



End BoneBuilder.


(** ** Clamping *)

Lemma clamp_NaN (a b : num) : clamp NaN a b = NaN.
Proof. unfold clamp. destruct a, b; reflexivity. Qed.

Lemma clamp_inside (q lo hi : Q) :
  lo < q -> q < hi -> clamp (Fin q) (Fin lo) (Fin hi) = Fin q.
Proof.
  intros Hl Hh. unfold clamp, Math_min, Math_max.
  apply lt_Fin in Hl, Hh. now rewrite Hh, Hl.
Qed.

(** What [clamp] returns for a finite argument and bounds [lo < hi]: the
    argument if it lies strictly inside, the bound it passes otherwise. *)
Lemma clamp_Fin_cases (q lo hi : Q) :
  lo < hi ->
  (q <= lo /\ clamp (Fin q) (Fin lo) (Fin hi) = Fin lo)
  \/ (lo < q /\ q < hi /\ clamp (Fin q) (Fin lo) (Fin hi) = Fin q)
  \/ (hi <= q /\ clamp (Fin q) (Fin lo) (Fin hi) = Fin hi).
Proof.
  intros Hlh. unfold clamp, Math_min, Math_max.
  destruct (lt (Fin q) (Fin hi)) eqn:E1.
  - destruct (lt (Fin lo) (Fin q)) eqn:E2.
    + right. left. apply lt_Fin in E1, E2. auto.
    + left. apply lt_Fin_false in E2. auto.
  - right. right. apply lt_Fin_false in E1.
    apply lt_Fin in Hlh. rewrite Hlh. auto.
Qed.

(** Every number but [NaN] is clamped into the band. *)
Lemma clamp_in_range (a : num) (lo hi : Q) :
  lo < hi -> a <> NaN -> in_range lo hi (clamp a (Fin lo) (Fin hi)).
Proof.
  intros Hlh Ha. destruct a as [ | | |q].
  - contradiction.
  - unfold clamp. cbn. split; lra.
  - change (clamp PosInf (Fin lo) (Fin hi)) with (Math_max (Fin lo) (Fin hi)).
    unfold Math_max. apply lt_Fin in Hlh as E. rewrite E. cbn. split; lra.
  - destruct (clamp_Fin_cases q lo hi Hlh) as [(H1 & ->)|[(H1 & H2 & ->)|(H1 & ->)]];
      cbn; split; lra.
Qed.

Lemma tBand : tMin < tMax.
Proof. qconst. Qed.

(** [clamp] does not tell two fractions of the same rational apart. *)
Lemma clamp_num_eq (a b : num) (lo hi : Q) :
  lo < hi -> a ≈ b -> clamp a (Fin lo) (Fin hi) ≈ clamp b (Fin lo) (Fin hi).
Proof.
  intros Hlh Hab. destruct a as [ | | |p], b as [ | | |q]; cbn in Hab;
    try contradiction; try apply num_eq_refl.
  destruct (clamp_Fin_cases p lo hi Hlh) as [(H1 & ->)|[(H1 & H2 & ->)|(H1 & ->)]];
  destruct (clamp_Fin_cases q lo hi Hlh) as [(G1 & ->)|[(G1 & G2 & ->)|(G1 & ->)]];
    cbn; lra.
Qed.

Lemma add_num_eq (a b c d : num) : a ≈ b -> c ≈ d -> (a + c)%num ≈ (b + d)%num.
Proof.
  destruct a, b; cbn; try contradiction; destruct c, d; cbn;
    try contradiction; auto.
  intros -> ->. reflexivity.
Qed.

Lemma offset_or_zero_eq (a : num) : a <> NaN -> offset_or_zero a ≈ a.
Proof.
  intros Ha. unfold offset_or_zero. destruct a as [ | | |q]; cbn; auto.
  destruct (Qeq_bool q 0) eqn:E; cbn.
  - apply Qeq_bool_iff in E. now rewrite E.
  - reflexivity.
Qed.

(** ** Finding and assigning *)

Lemma find_update_first {A : Type} (p : A -> bool) (f : A -> A) (l : list A) :
  (forall a, p (f a) = p a) ->
  List.find p (update_first p f l) = option_map f (List.find p l).
Proof.
  intros Hp. induction l as [|a l IH]; cbn; [reflexivity|].
  destruct (p a) eqn:E; cbn.
  - now rewrite Hp, E.
  - now rewrite E.
Qed.

Lemma findBlock_assign_t (m : Model) (catId blockId : string) (v : num)
    (block : Block) :
  findBlock m catId blockId = Some block ->
  findBlock (assign_t m catId blockId v) catId blockId
  = Some (Block.set_t v block).
Proof.
  unfold findBlock, assign_t. cbn.
  rewrite find_update_first by reflexivity.
  destruct (List.find (has_cat_id catId) (Model.categories m)) as [cat|];
    [|discriminate].
  cbn. rewrite find_update_first by reflexivity.
  now intros ->.
Qed.

(** ** The drag controller *)

Lemma epsilon_nonzero (d : Q) : epsilon <= d -> ~ d == 0.
Proof.
  intros Hd E. rewrite E in Hd. apply Qle_not_lt in Hd. apply Hd. qconst.
Qed.

(** The projection of a point that coincides with a bone point. *)
Lemma projectT_of_bone_point (ax ay bx by_ s : Q) (sd : Side) (P : Point) :
  let bone := Bone.mk ax ay bx by_ sd in
  epsilon <= (bx - ax) * (bx - ax) + (by_ - ay) * (by_ - ay) ->
  point_eq P (pointOnBone bone (Fin s)) ->
  exists g : Q, projectT P (spinePoint bone) (edgePoint bone) = Fin g /\ g == s.
Proof.
  intros bone Hd [Hx Hy].
  assert (Hne := epsilon_nonzero _ Hd).
  destruct P as [[ | | |px] [ | | |py]]; cbn in Hx, Hy; try contradiction.
  unfold bone, spinePoint, edgePoint.
  cbn [Bone.xSpine Bone.ySpine Bone.xEdge Bone.yEdge].
  rewrite projectT_Fin by exact Hd.
  eexists. split; [reflexivity|].
  rewrite Hx, Hy. field. exact Hne.
Qed.

(** The svg point of a pointer over a wrapper of finite position and of
    finite size other than zero. *)
Lemma pointerToSvg_client (e : PointerEvent) (l t w h x y : Q) :
  ~ w == 0 -> ~ h == 0 ->
  PointerEvent.clientX e ≈ Fin (l + x / 1200 * w) ->
  PointerEvent.clientY e ≈ Fin (t + y / 720 * h) ->
  point_eq (pointerToSvg e (Rect.mk l t w h)) (Point.mk (Fin x) (Fin y)).
Proof.
  intros Hw Hh Hx Hy. unfold pointerToSvg, point_eq.
  cbn [Rect.left Rect.top Rect.width Rect.height Point.x Point.y].
  destruct (PointerEvent.clientX e) as [ | | |cx]; cbn in Hx; try contradiction.
  destruct (PointerEvent.clientY e) as [ | | |cy]; cbn in Hy; try contradiction.
  cbn [sub]. rewrite !div_Fin by assumption. cbn [mul num_eq]. unfold W, H.
  rewrite Hx, Hy. split; field; assumption.
Qed.

(** C4. [startDrag] stores [tOffset = currentT - grabT], with [grabT]
    the projection of the press point onto the bone and [currentT] the
    clamped stored [t] of the block.  Every [onDragMove] of a drag assigns
    to the block [clamp(projectT(pointer) + (tOffset || 0), 0.08, 0.92)]:
    this is [clamp(projectT(pointer) + tOffset, 0.08, 0.92)] for every
    offset but [NaN], and for the offset [NaN], which a block stored at
    [NaN] gives, it is [clamp(projectT(pointer), 0.08, 0.92)] where the
    other is [NaN].  In exact arithmetic, on a bone of finite ends at
    least [epsilon] apart and over wrappers of finite position and of
    finite size other than zero, a block stored at 0.4, pressed with the
    pointer over the bone point of 0.4 and moved over the bone point of
    0.6, is stored at 0.6. *)
Theorem C4_drag_is_offset_corrected
    (st : State) (catId blockId : string) (pointerId : nat)
    (block : Block) (bone : Bone) (e0 e1 : PointerEvent) (r0 r1 : Rect) :
  findBlock (model st) catId blockId = Some block ->
  catBones st !! catId = Some bone ->
  let grabT := projectT (pointerToSvg e0 r0) (spinePoint bone) (edgePoint bone) in
  let currentT := clamp (Block.t block) tMin tMax in
  let tOffset := (currentT - grabT)%num in
  let st1 := startDrag catId blockId pointerId e0 r0 st in
  let st2 := onDragMove e1 r1 st1 in
  drag st1 = Some (Drag.mk catId blockId pointerId tOffset)
  /\ (forall (s : State) (d : Drag) (b : Block) (bn : Bone)
             (e : PointerEvent) (r : Rect),
        drag s = Some d ->
        findBlock (model s) (Drag.catId d) (Drag.blockId d) = Some b ->
        catBones s !! Drag.catId d = Some bn ->
        let t' := projectT (pointerToSvg e r) (spinePoint bn) (edgePoint bn) in
        exists b',
          findBlock (model (onDragMove e r s)) (Drag.catId d) (Drag.blockId d)
          = Some b'
          /\ Block.t b' = clamp (t' + offset_or_zero (Drag.tOffset d))%num tMin tMax
          /\ (Drag.tOffset d <> NaN ->
              Block.t b' ≈ clamp (t' + Drag.tOffset d)%num tMin tMax)
          /\ (Drag.tOffset d = NaN ->
              Block.t b' ≈ clamp t' tMin tMax
              /\ clamp (t' + Drag.tOffset d)%num tMin tMax = NaN))
  /\ (Block.t block = NaN -> tOffset = NaN)
  /\ (forall (ax ay bx by_ : Q) (sd : Side) (l0 t0 w0 h0 l1 t1 w1 h1 : Q),
        bone = Bone.mk ax ay bx by_ sd ->
        epsilon <= (bx - ax) * (bx - ax) + (by_ - ay) * (by_ - ay) ->
        r0 = Rect.mk l0 t0 w0 h0 -> ~ w0 == 0 -> ~ h0 == 0 ->
        r1 = Rect.mk l1 t1 w1 h1 -> ~ w1 == 0 -> ~ h1 == 0 ->
        Block.t block ≈ Fin 0.4 ->
        PointerEvent.clientX e0
        ≈ Fin (l0 + (ax + 0.4 * (bx - ax)) / 1200 * w0) ->
        PointerEvent.clientY e0
        ≈ Fin (t0 + (ay + 0.4 * (by_ - ay)) / 720 * h0) ->
        PointerEvent.clientX e1
        ≈ Fin (l1 + (ax + 0.6 * (bx - ax)) / 1200 * w1) ->
        PointerEvent.clientY e1
        ≈ Fin (t1 + (ay + 0.6 * (by_ - ay)) / 720 * h1) ->
        exists b',
          findBlock (model st2) catId blockId = Some b'
          /\ Block.t b' ≈ Fin 0.6).
Proof.
  intros Hfind Hbone grabT currentT tOffset st1 st2.
  assert (Hst1 : st1 = mkState (model st) (selected st) (catBones st)
                         (Some (Drag.mk catId blockId pointerId tOffset))
                         (alerts st) (uidCount st)).
  { unfold st1, startDrag. now rewrite Hfind, Hbone. }
  assert (Hmove : forall (s : State) (d : Drag) (b : Block) (bn : Bone)
             (e : PointerEvent) (r : Rect),
        drag s = Some d ->
        findBlock (model s) (Drag.catId d) (Drag.blockId d) = Some b ->
        catBones s !! Drag.catId d = Some bn ->
        findBlock (model (onDragMove e r s)) (Drag.catId d) (Drag.blockId d)
        = Some (Block.set_t (dragT d bn e r) b)).
  { intros s d b bn e r Hd Hb Hbn. unfold onDragMove.
    rewrite Hd, Hb, Hbn. cbn [model]. now apply findBlock_assign_t. }
  split; [now rewrite Hst1|]. split; [|split].
  - intros s d b bn e r Hd Hb Hbn t'.
    eexists. split; [now apply (Hmove s d b bn e r)|].
    cbn [Block.t Block.set_t]. split; [reflexivity|]. split.
    + intros Hnan. unfold dragT. fold t'.
      apply clamp_num_eq; [exact tBand|].
      apply add_num_eq; [apply num_eq_refl|now apply offset_or_zero_eq].
    + intros Hnan. unfold dragT. fold t'. rewrite Hnan.
      cbn [offset_or_zero JSNum.truthy]. split.
      * apply clamp_num_eq; [exact tBand|].
        destruct t' as [ | | |q]; cbn; auto. ring.
      * destruct t'; reflexivity.
  - intros Hn. unfold tOffset, currentT. rewrite Hn.
    destruct grabT; reflexivity.
  - intros ax ay bx by_ sd l0 t0 w0 h0 l1 t1 w1 h1 -> Hd -> Hw0 Hh0 -> Hw1 Hh1
      Ht Hx0 Hy0 Hx1 Hy1.
    pose proof (pointerToSvg_client e0 l0 t0 w0 h0 _ _ Hw0 Hh0 Hx0 Hy0) as H0.
    pose proof (pointerToSvg_client e1 l1 t1 w1 h1 _ _ Hw1 Hh1 Hx1 Hy1) as H1.
    destruct (projectT_of_bone_point ax ay bx by_ 0.4 sd _ Hd H0) as (g0 & Eg0 & Hg0).
    destruct (projectT_of_bone_point ax ay bx by_ 0.6 sd _ Hd H1) as (g1 & Eg1 & Hg1).
    eexists. split.
    { unfold st2.
      apply (Hmove st1 (Drag.mk catId blockId pointerId tOffset) block
               (Bone.mk ax ay bx by_ sd));
        rewrite Hst1; cbn [model drag catBones Drag.catId Drag.blockId].
      - reflexivity.
      - exact Hfind.
      - exact Hbone. }
    cbn [Block.t Block.set_t]. unfold dragT. cbn [Drag.tOffset].
    rewrite Eg1. unfold tOffset, currentT, grabT. rewrite Eg0.
    destruct (Block.t block) as [ | | |q]; cbn in Ht; try contradiction.
    rewrite (clamp_inside q) by (rewrite Ht; qconst).
    cbn [sub]. unfold offset_or_zero, JSNum.truthy.
    assert (Ez : Qeq_bool (q - g0) 0 = true).
    { apply Qeq_bool_iff. rewrite Ht, Hg0. reflexivity. }
    rewrite Ez. cbn [negb add].
    rewrite clamp_inside by (rewrite Hg1; qconst).
    cbn. rewrite Hg1. reflexivity.
Qed.

(** ** The importer *)

Section Importer.

Variable NumberToString : num -> string.
Variable StringToNumber : string -> num.
Variable uid_at : nat -> string.

Let String_ := ToString NumberToString.
Let Number_ := ToNumber NumberToString StringToNumber.

Lemma importBlock_inv (sb : value) (n n' : nat) (b : Block) :
  importBlock NumberToString StringToNumber uid_at sb n = (Some b, n') ->
  nullish sb = false
  /\ exists id, b = importedBlock NumberToString StringToNumber sb id.
Proof.
  unfold importBlock, bind, lift, get, or_uid, gen, uid, ret.
  destruct (nullish sb); [discriminate|].
  destruct (truthy (getp sb "id")); cbn; intros E; inversion E; subst;
    (split; [reflexivity|eexists; reflexivity]).
Qed.


(** When [mapMi] returns, it returns one result per element, each the
    result of the call on that element with its index. *)
Lemma mapMi_lookup {A B : Type} (f : A -> nat -> M B) (l : list A)
    (i n n' : nat) (r : list B) :
  mapMi f l i n = (Some r, n') ->
  length r = length l
  /\ forall j b, r !! j = Some b ->
       exists a k k', l !! j = Some a /\ f a (i + j)%nat k = (Some b, k').
Proof.
  revert i n r. induction l as [|a l IH]; intros i n r; cbn.
  - unfold ret. intros E; inversion E. split; [reflexivity|].
    intros j b Hj. destruct j; discriminate.
  - unfold bind at 1. destruct (f a i n) as [[b|] n1] eqn:Ef; [|discriminate].
    unfold bind at 1.
    destruct (mapMi f l (S i) n1) as [[bs|] n2] eqn:Em; [|discriminate].
    unfold ret. intros E; inversion E; subst.
    apply IH in Em as [Hlen Hall]. split; [cbn; now rewrite Hlen|].
    intros [|j] b' Hj; cbn in Hj.
    + inversion Hj; subst. exists a, n, n1. rewrite Nat.add_0_r. auto.
    + destruct (Hall j b' Hj) as (a' & k & k' & Ha & Hf).
      exists a', k, k'. split; [exact Ha|].
      now replace (i + S j)%nat with (S i + j)%nat by lia.
Qed.

(** What an imported category is made of. *)
Lemma importCategory_inv (cats : list value) (dc : Category) (i n n' : nat)
    (c : Category) :
  importCategory NumberToString StringToNumber uid_at cats dc i n
  = (Some c, n') ->
  let sc := payloadCategory cats i in
  Category.side c = Category.side dc
  /\ Category.label c
     = String_ (or_else (getp sc "label") (VStr (Category.label dc)))
  /\ (truthy (or_else (getp sc "id") (VStr (Category.id dc))) = true ->
      Category.id c
      = String_ (or_else (getp sc "id") (VStr (Category.id dc))))
  /\ match getp sc "blocks" with
     | VArr items =>
         length (Category.blocks c) = length items
         /\ forall j b, Category.blocks c !! j = Some b ->
              exists sb id,
                items !! j = Some sb /\ nullish sb = false
                /\ b = importedBlock NumberToString StringToNumber sb id
     | _ =>
         exists id, Category.blocks c = [freshBlock (Some (Fin 0.3)) id]
     end.
Proof.
  intros Himp sc. revert Himp. unfold importCategory. fold sc.
  unfold bind at 1.
  destruct (or_uid uid_at (or_else (getp sc "id") (VStr (Category.id dc))) n)
    as [[idv|] n1] eqn:Eid.
  2:{ unfold or_uid, bind, gen, uid, ret in Eid.
      destruct (truthy _) in Eid; discriminate. }
  assert (Hid : truthy (or_else (getp sc "id") (VStr (Category.id dc))) = true ->
                idv = or_else (getp sc "id") (VStr (Category.id dc))).
  { intros Ht. unfold or_uid in Eid. rewrite Ht in Eid.
    unfold ret in Eid. congruence. }
  unfold bind at 1.
  destruct (getp sc "blocks") as [ | |bb|nn|ss|items|pp] eqn:Eb.
  6:{ destruct (mapM (importBlock NumberToString StringToNumber uid_at) items n1)
        as [[bs|] n2] eqn:Em; [|discriminate].
      unfold ret. intros E; inversion E; subst. cbn.
      repeat split; auto.
      { intros Ht. now rewrite Hid. }
      { unfold mapM in Em. apply mapMi_lookup in Em. tauto. }
      intros j b Hj. unfold mapM in Em. apply mapMi_lookup in Em as [_ Hall].
      destruct (Hall j b Hj) as (sb & k & k' & Hsb & Hf).
      apply importBlock_inv in Hf as [Hn [id ->]].
      exists sb, id. auto. }
  all: unfold bind, gen, mkBlock, gbind, uid, gret, ret; cbn;
    intros E; inversion E; subst; cbn;
    (repeat split; auto; [intros Ht; now rewrite Hid | eexists; reflexivity]).
Qed.


Lemma defaultModel_count (n : nat) :
  snd (defaultModel uid_at n) = (12 + n)%nat.
Proof. reflexivity. Qed.

Lemma defaultModel_sides (n : nat) :
  List.map Category.side (Model.categories (fst (defaultModel uid_at n)))
  = [top; top; top; bottom; bottom; bottom].
Proof. reflexivity. Qed.

(** A projection that every call keeps is kept by [mapMi]. *)
Lemma mapMi_map {A B C : Type} (f : A -> nat -> M B) (g : B -> C) (h : A -> C)
    (l : list A) (i n n' : nat) (r : list B) :
  (forall a j k b k', f a j k = (Some b, k') -> g b = h a) ->
  mapMi f l i n = (Some r, n') ->
  List.map g r = List.map h l.
Proof.
  intros Hf. revert i n r. induction l as [|a l IH]; intros i n r; cbn.
  - unfold ret. intros E; inversion E. reflexivity.
  - unfold bind at 1. destruct (f a i n) as [[b|] n1] eqn:Ef; [|discriminate].
    unfold bind at 1.
    destruct (mapMi f l (S i) n1) as [[bs|] n2] eqn:Em; [|discriminate].
    unfold ret. intros E; inversion E; subst. cbn.
    f_equal; eauto.
Qed.

(** What [importModel] returns when it returns. *)
Lemma importModel_inv (obj : value) (n n' : nat) (m : Model) :
  importModel NumberToString StringToNumber uid_at obj n = (Some m, n') ->
  nullish obj = false
  /\ mapMi (importCategory NumberToString StringToNumber uid_at
              (arrayOrEmpty (getp obj "categories")))
       (Model.categories (fst (defaultModel uid_at n))) 0 (12 + n)%nat
     = (Some (Model.categories m), n')
  /\ Model.effectText m
     = String_ (or_else (getp obj "effectText") (VStr defaultEffectText))
  /\ Model.appearance m
     = (defaultAppearance
        ++ spread (or_else (getp obj "appearance") (VObj [])))%list.
Proof.
  unfold importModel. unfold bind at 1. unfold gen at 1.
  pose proof (defaultModel_count n) as Hc.
  assert (Ht : Model.effectText (fst (defaultModel uid_at n)) = defaultEffectText)
    by reflexivity.
  assert (Ha : Model.appearance (fst (defaultModel uid_at n)) = defaultAppearance)
    by reflexivity.
  destruct (defaultModel uid_at n) as [def n0]. cbn [fst snd] in *. subst n0.
  unfold bind at 1. unfold lift, get.
  destruct (nullish obj); [discriminate|].
  unfold bind at 1.
  destruct (mapMi _ (Model.categories def) 0 (12 + n)%nat) as [[fixed|] n1] eqn:Em;
    [|discriminate].
  unfold ret. intros E; inversion E; subst m n1.
  cbn [Model.categories Model.effectText Model.appearance].
  rewrite Ht, Ha. auto.
Qed.

(** *** When the importer returns *)

Lemma or_uid_total (a : value) (k : nat) :
  exists v k', or_uid uid_at a k = (Some v, k').
Proof.
  unfold or_uid. destruct (truthy a); cbn; eauto.
Qed.

Lemma importBlock_total (sb : value) (k : nat) :
  nullish sb = false ->
  exists b k',
    importBlock NumberToString StringToNumber uid_at sb k = (Some b, k').
Proof.
  intros Hn. unfold importBlock, bind, lift, get. rewrite Hn.
  destruct (or_uid_total (getp sb "id") k) as (v & k' & ->).
  unfold ret. eauto.
Qed.

Lemma mapMi_total {A B : Type} (f : A -> nat -> M B) (l : list A) :
  Forall (fun a => forall j k, exists b k', f a j k = (Some b, k')) l ->
  forall i n, exists r n', mapMi f l i n = (Some r, n').
Proof.
  induction 1 as [|a l Ha _ IH]; intros i n; cbn.
  - unfold ret. eauto.
  - unfold bind at 1. destruct (Ha i n) as (b & n1 & ->).
    unfold bind at 1. destruct (IH (S i) n1) as (bs & n2 & ->).
    unfold ret. eauto.
Qed.

Lemma importCategory_total (cats : list value) (dc : Category) (i k : nat) :
  blocksReadable (payloadCategory cats i) ->
  exists c k',
    importCategory NumberToString StringToNumber uid_at cats dc i k
    = (Some c, k').
Proof.
  unfold blocksReadable, importCategory. intros Hb.
  unfold bind at 1.
  destruct (or_uid_total
              (or_else (getp (payloadCategory cats i) "id")
                 (VStr (Category.id dc))) k) as (v & k1 & ->).
  unfold bind at 1.
  destruct (getp (payloadCategory cats i) "blocks") as [ | |bb|nn|ss|items|pp].
  6:{ destruct (mapMi_total (fun a _ => importBlock NumberToString StringToNumber uid_at a) items) with (i := 0%nat) (n := k1)
        as (bs & k2 & E).
      { eapply Forall_impl; [exact Hb|]. cbn. intros sb Hsb j k0.
        now apply importBlock_total. }
      unfold mapM. rewrite E. unfold ret. eauto. }
  all: unfold bind, gen, mkBlock, gbind, uid, gret, ret; cbn; eauto.
Qed.

Lemma importModel_total (obj : value) (n : nat) :
  nullish obj = false ->
  (forall i, (i < 6)%nat ->
     blocksReadable (payloadCategory (arrayOrEmpty (getp obj "categories")) i)) ->
  exists m n',
    importModel NumberToString StringToNumber uid_at obj n = (Some m, n').
Proof.
  intros Hn Hb. unfold importModel. unfold bind at 1. unfold gen at 1.
  assert (Hlen : length (Model.categories (fst (defaultModel uid_at n))) = 6%nat)
    by reflexivity.
  destruct (defaultModel uid_at n) as [def n0]. cbn [fst] in Hlen.
  unfold bind at 1. unfold lift, get. rewrite Hn.
  unfold bind at 1.
  set (cats := arrayOrEmpty (getp obj "categories")) in *.
  assert (Hall : forall l i k, (i + length l <= 6)%nat ->
            exists r k', mapMi (importCategory NumberToString StringToNumber
                                  uid_at cats) l i k = (Some r, k')).
  { induction l as [|dc l IH]; intros i k Hi; cbn.
    - unfold ret. eauto.
    - cbn in Hi. unfold bind at 1.
      destruct (importCategory_total cats dc i k) as (c & k1 & ->).
      { apply Hb. lia. }
      unfold bind at 1. destruct (IH (S i) k1) as (r & k2 & ->); [lia|].
      unfold ret. eauto. }
  destruct (Hall (Model.categories def) 0%nat n0) as (fixed & n1 & ->); [lia|].
  unfold ret. eauto.
Qed.

(** The importer throws on a [null] or [undefined] payload, and on a
    [blocks] array with a [null] entry at one of the six positions. *)
Lemma importModel_nullish (obj : value) (n : nat) :
  nullish obj = true ->
  importModel NumberToString StringToNumber uid_at obj n
  = (None, (12 + n)%nat).
Proof.
  intros Hn. unfold importModel. unfold bind at 1. unfold gen at 1.
  pose proof (defaultModel_count n) as Hc.
  destruct (defaultModel uid_at n) as [def n0]. cbn [snd] in Hc. subst n0.
  unfold bind at 1. unfold lift, get. now rewrite Hn.
Qed.




Lemma importModel_category (obj : value) (n n' : nat) (m : Model) :
  importModel NumberToString StringToNumber uid_at obj n = (Some m, n') ->
  length (Model.categories m) = 6%nat
  /\ forall (i : nat) (c : Category),
       Model.categories m !! i = Some c ->
       exists dc k k',
         Model.categories (fst (defaultModel uid_at n)) !! i = Some dc
         /\ importCategory NumberToString StringToNumber uid_at
              (arrayOrEmpty (getp obj "categories")) dc i k
            = (Some c, k').
Proof.
  intros Himp. apply importModel_inv in Himp as (_ & Hmap & _).
  apply mapMi_lookup in Hmap as [Hlen Hall]. split; [exact Hlen|].
  intros i c Hi. destruct (Hall i c Hi) as (dc & k & k' & Hdc & Hf). eauto.
Qed.

(** The state after an import that returns, and after one that throws. *)
Lemma onImport_accepts (obj : value) (st : State) (m : Model) (n' : nat) :
  importModel NumberToString StringToNumber uid_at obj (uidCount st)
  = (Some m, n') ->
  onImport NumberToString StringToNumber uid_at (Some obj) st
  = mkState m Selected.none (catBones st) (drag st) (alerts st) n'.
Proof.
  intros E. unfold onImport, bind, lift. now rewrite E.
Qed.

Lemma onImport_rejects (obj : value) (st : State) (n' : nat) :
  importModel NumberToString StringToNumber uid_at obj (uidCount st)
  = (None, n') ->
  onImport NumberToString StringToNumber uid_at (Some obj) st
  = mkState (model st) (selected st) (catBones st) (drag st)
      (alerts st ++ [importNotice]) n'.
Proof.
  intros E. unfold onImport, bind, lift. now rewrite E.
Qed.

(** A payload of one category holding one block of which only [t] is
    given is accepted, and its [t] is stored as [clamp(Number(t ?? 0.3))]. *)
Lemma import_single_block (tv : value) (st : State) :
  let st' := onImport NumberToString StringToNumber uid_at
               (Some (payloadWithT tv)) st in
  alerts st' = alerts st
  /\ firstT (model st')
     = Some (clamp (Number_ (coalesce tv (VNum (Fin 0.3)))) tMin tMax).
Proof.
  destruct (importModel_total (payloadWithT tv) (uidCount st)) as (m & n' & E).
  { reflexivity. }
  { intros i Hi. unfold blocksReadable.
    destruct i as [|i]; cbn.
    - repeat constructor.
    - destruct i; cbn; exact I. }
  cbn zeta. rewrite (onImport_accepts _ _ _ _ E). cbn [alerts model].
  split; [reflexivity|].
  apply importModel_category in E as [Hlen Hcat].
  unfold firstT.
  destruct (Model.categories m) as [|c0 cs]; [discriminate|].
  destruct (Hcat 0%nat c0 eq_refl) as (dc & k & k' & _ & Hf).
  apply importCategory_inv in Hf as (_ & _ & _ & Hb). cbn in Hb.
  destruct Hb as [Hl Hb].
  destruct (Category.blocks c0) as [|b0 bs]; [discriminate|].
  destruct (Hb 0%nat b0 eq_refl) as (sb & id & Hsb & _ & ->).
  cbn in Hsb. inversion Hsb; subst sb. reflexivity.
Qed.

(** C6. An import whose block has a [t] that is not a finite number is
    not rejected (no notice, the model is replaced), and an infinite [t] is
    stored at the bound it passes; but a [t] that is not a number is not
    stored as a finite number of the band: [clamp] returns [NaN] for [NaN],
    so a [t] that is an object, or a text that [Number] does not read as a
    number, is stored as [NaN]. *)
Theorem C6_import_stores_NaN (st : State) :
  let import (tv : value) :=
    onImport NumberToString StringToNumber uid_at (Some (payloadWithT tv)) st in
  (alerts (import (VObj [])) = alerts st
   /\ firstT (model (import (VObj []))) = Some NaN)
  /\ (forall s : string,
        StringToNumber s = NaN ->
        alerts (import (VStr s)) = alerts st
        /\ firstT (model (import (VStr s))) = Some NaN)
  /\ ~ in_range tMin tMax NaN
  /\ is_finite NaN = false
  /\ firstT (model (import (VNum PosInf))) = Some (Fin tMax)
  /\ firstT (model (import (VNum NegInf))) = Some (Fin tMin).
Proof.
  intros import. unfold import.
  split; [|split; [|split; [|split; [|split]]]].
  - exact (import_single_block (VObj []) st).
  - intros s Hs.
    pose proof (import_single_block (VStr s) st) as H. cbn zeta in H.
    cbn [coalesce nullish] in H. unfold Number_ in H. cbn [ToNumber] in H.
    rewrite Hs in H. exact H.
  - intros [].
  - reflexivity.
  - exact (proj2 (import_single_block (VNum PosInf) st)).
  - exact (proj2 (import_single_block (VNum NegInf) st)).
Qed.

(** C3. A write of -5 stores 0.08 and a write of 5 stores 0.92, and
    [projectT] itself is not clamped (the point (0, 0) projects to 2 on the
    bone from (2, 0) to (1, 0)); but the stored [t] does not stay in the
    band after every sequence of operations: after the first frame and the
    import of [{"categories":[{"blocks":[{"t":{}}]}]}] the first block is
    stored at [NaN]. *)
Theorem C3_stored_t_leaves_band :
  clamp (Fin (-5)) tMin tMax = Fin 0.08
  /\ clamp (Fin 5) tMin tMax = Fin 0.92
  /\ projectT (Point.mk (Fin 0) (Fin 0)) (Point.mk (Fin 2) (Fin 0))
       (Point.mk (Fin 1) (Fin 0)) ≈ Fin 2
  /\ let st := run NumberToString StringToNumber uid_at (initial uid_at)
                 [EvFrame; EvImport (Some (payloadWithT (VObj [])))] in
     exists t, firstT (model st) = Some t /\ ~ in_range tMin tMax t.
Proof.
  split; [reflexivity|]. split; [reflexivity|]. split; [reflexivity|].
  cbn zeta. exists NaN. split; [|intros []].
  unfold run. cbn [fold_left step].
  apply import_single_block.
Qed.

End Importer.

(** ** The importer with the type errors *)

Lemma throws_truthy (v : value) :
  Strict.throws v = true -> truthy v = true /\ nullish v = false.
Proof. destruct v; cbn; intros H; try discriminate H; auto. Qed.

Lemma throws_or_else (a b : value) :
  Strict.throws b = false ->
  Strict.throws (or_else a b) = Strict.throws a.
Proof.
  intros Hb. unfold or_else. destruct (truthy a) eqn:E; [reflexivity|].
  rewrite Hb. destruct (Strict.throws a) eqn:T; [|reflexivity].
  apply throws_truthy in T as [T _]. congruence.
Qed.

Lemma throws_coalesce (a b : value) :
  Strict.throws b = false ->
  Strict.throws (coalesce a b) = Strict.throws a.
Proof.
  intros Hb. unfold coalesce. destruct (nullish a) eqn:E; [|reflexivity].
  rewrite Hb. destruct (Strict.throws a) eqn:T; [|reflexivity].
  apply throws_truthy in T as [_ T]. congruence.
Qed.

Lemma bind_run {A B : Type} (m : M A) (k : A -> M B) (n : nat) :
  bind m k n
  = match m n with
    | (Some a, n') => k a n'
    | (None, n') => (None, n')
    end.
Proof. reflexivity. Qed.

Lemma lift_run {A : Type} (o : option A) (n : nat) : lift o n = (o, n).
Proof. reflexivity. Qed.

Lemma ret_run {A : Type} (a : A) (n : nat) : ret a n = (Some a, n).
Proof. reflexivity. Qed.

(** [mapMi] on two callbacks that agree on the elements of the list, and
    on a callback that throws on one of them. *)
Lemma mapMi_agree {A B : Type} (f g : A -> nat -> M B) (l : list A) (i : nat) :
  (forall j a, l !! j = Some a -> forall n, f a (i + j)%nat n = g a (i + j)%nat n) ->
  forall n, mapMi f l i n = mapMi g l i n.
Proof.
  revert i. induction l as [|a l IH]; intros i H n; [reflexivity|].
  cbn [mapMi]. rewrite !bind_run.
  pose proof (H 0%nat a eq_refl n) as H0. rewrite Nat.add_0_r in H0.
  rewrite H0. destruct (g a i n) as [[b|] n1]; [|reflexivity].
  rewrite !bind_run. rewrite (IH (S i)); [reflexivity|].
  intros j a' Hj n0. replace (S i + j)%nat with (i + S j)%nat by lia.
  now apply (H (S j)).
Qed.

Lemma mapMi_throws_at {A B : Type} (f : A -> nat -> M B) (l : list A)
    (i j : nat) (a : A) :
  l !! j = Some a ->
  (forall n, exists n', f a (i + j)%nat n = (None, n')) ->
  forall n, exists n', mapMi f l i n = (None, n').
Proof.
  revert i j. induction l as [|x l IH]; intros i j Hj Hf n.
  - destruct j; discriminate.
  - cbn [mapMi]. rewrite bind_run.
    destruct (f x i n) as [[b|] n1] eqn:Ef; [|eauto].
    destruct j as [|j]; cbn in Hj.
    + injection Hj as ->. rewrite Nat.add_0_r in Hf.
      destruct (Hf n) as [n' E]. congruence.
    + rewrite bind_run.
      destruct (IH (S i) j Hj) with (n := n1) as [n2 ->]; [|eauto].
      intros n0. replace (S i + j)%nat with (i + S j)%nat by lia. apply Hf.
Qed.

Lemma existsb_lookup {A : Type} (p : A -> bool) (l : list A) :
  existsb p l = true -> exists j a, l !! j = Some a /\ p a = true.
Proof.
  induction l as [|x l IH]; cbn; [discriminate|].
  destruct (p x) eqn:E.
  - intros _. exists 0%nat, x. auto.
  - cbn. intros H. destruct (IH H) as (j & a & Hj & Ha).
    exists (S j), a. auto.
Qed.

Lemma existsb_false_lookup {A : Type} (p : A -> bool) (l : list A) (j : nat)
    (a : A) :
  existsb p l = false -> l !! j = Some a -> p a = false.
Proof.
  revert j. induction l as [|x l IH]; intros j H Hj; [destruct j; discriminate|].
  cbn in H. apply orb_false_iff in H as [Hx Hl].
  destruct j as [|j]; cbn in Hj; [congruence|eauto].
Qed.

Section StrictImporter.

Variable NumberToString : num -> string.
Variable StringToNumber : string -> num.
Variable uid_at : nat -> string.

Let String_ := JSValue.ToString NumberToString.
Let Number_ := JSValue.ToNumber NumberToString StringToNumber.
Let importBlock_ := importBlock NumberToString StringToNumber uid_at.
Let importCategory_ := importCategory NumberToString StringToNumber uid_at.
Let importModel_ := importModel NumberToString StringToNumber uid_at.
Let strictBlock := Strict.importBlock NumberToString StringToNumber uid_at.
Let strictCategory := Strict.importCategory NumberToString StringToNumber uid_at.
Let strictModel := Strict.importModel NumberToString StringToNumber uid_at.

Lemma strict_ToString (v : value) :
  Strict.throws v = false ->
  Strict.ToString NumberToString v = Some (String_ v).
Proof. unfold Strict.ToString. now intros ->. Qed.

Lemma strict_ToNumber (v : value) :
  Strict.throws v = false ->
  Strict.ToNumber NumberToString StringToNumber v = Some (Number_ v).
Proof. unfold Strict.ToNumber. now intros ->. Qed.

(** The conversion of the elements of an array. *)
Lemma mapMi_ToString (items : list value) (i n : nat) :
  existsb Strict.throws items = false ->
  mapMi (fun x _ => lift (Strict.ToString NumberToString x)) items i n
  = (Some (List.map String_ items), n).
Proof.
  revert i. induction items as [|x items IH]; intros i H; [reflexivity|].
  cbn in H. apply orb_false_iff in H as [Hx Hl].
  cbn [mapMi List.map]. rewrite bind_run, lift_run.
  rewrite (strict_ToString x Hx). rewrite bind_run, (IH (S i) Hl).
  reflexivity.
Qed.

Lemma mapMi_ToString_throws (items : list value) (i n : nat) :
  existsb Strict.throws items = true ->
  exists n',
    mapMi (fun x _ => lift (Strict.ToString NumberToString x)) items i n
    = (None, n').
Proof.
  intros H. apply existsb_lookup in H as (j & x & Hj & Hx).
  apply (mapMi_throws_at _ items i j x Hj).
  intros n0. exists n0. unfold lift, Strict.ToString. now rewrite Hx.
Qed.

(** The importer of a block converts the values of [convertedBlock]: if
    none throws it is the importer above, and if one throws it throws. *)
Lemma strict_importBlock_agrees (sb : value) (n : nat) :
  existsb Strict.throws (Strict.convertedBlock sb) = false ->
  strictBlock sb n = importBlock_ sb n.
Proof.
  unfold Strict.convertedBlock. cbn [existsb app].
  intros H. apply orb_false_iff in H as [Hid H].
  apply orb_false_iff in H as [Htitle H].
  apply orb_false_iff in H as [Ht Hb].
  unfold strictBlock, importBlock_, Strict.importBlock, importBlock.
  rewrite !bind_run, !lift_run. unfold get.
  destruct (nullish sb); [reflexivity|].
  rewrite !bind_run.
  assert (Hid' : forall v k, or_uid uid_at (getp sb "id") n = (Some v, k) ->
                             Strict.throws v = false).
  { unfold or_uid. destruct (truthy (getp sb "id")).
    - rewrite ret_run. intros v k E. injection E as <- _. exact Hid.
    - rewrite bind_run. unfold gen, uid. rewrite ret_run.
      intros v k E. injection E as <- _. reflexivity. }
  destruct (or_uid uid_at (getp sb "id") n) as [[v|] n1] eqn:Eo; [|reflexivity].
  rewrite bind_run, lift_run, (strict_ToString v (Hid' v n1 eq_refl)).
  rewrite bind_run, lift_run.
  rewrite strict_ToString by (now rewrite throws_or_else).
  rewrite bind_run.
  assert (Hbul :
            match getp sb "bullets" with
            | VArr items =>
                mapM (fun v => lift (Strict.ToString NumberToString v)) items
            | _ => ret [""%string]
            end n1
            = (Some (match getp sb "bullets" with
                     | VArr items => List.map String_ items
                     | _ => [""%string]
                     end), n1)).
  { destruct (getp sb "bullets"); try reflexivity.
    unfold mapM. now apply mapMi_ToString. }
  rewrite Hbul. rewrite bind_run, lift_run.
  rewrite strict_ToNumber by (now rewrite throws_coalesce).
  reflexivity.
Qed.

Lemma or_uid_throws (a : value) (n : nat) :
  exists v n', or_uid uid_at a n = (Some v, n')
               /\ Strict.throws v = Strict.throws a.
Proof.
  unfold or_uid. destruct (truthy a) eqn:E.
  - rewrite ret_run. eauto.
  - rewrite bind_run. unfold gen, uid. rewrite ret_run.
    do 2 eexists. split; [reflexivity|]. cbn.
    destruct (Strict.throws a) eqn:T; [|reflexivity].
    apply throws_truthy in T as [T _]. congruence.
Qed.

Lemma strict_importBlock_throws (sb : value) (n : nat) :
  existsb Strict.throws (Strict.convertedBlock sb) = true ->
  exists n', strictBlock sb n = (None, n').
Proof.
  unfold Strict.convertedBlock. cbn [existsb app]. intros H.
  unfold strictBlock, Strict.importBlock.
  rewrite bind_run, lift_run. unfold get.
  destruct (nullish sb); [eauto|].
  rewrite bind_run.
  destruct (or_uid_throws (getp sb "id") n) as (v & n1 & -> & Hv).
  rewrite bind_run, lift_run. unfold Strict.ToString at 1. rewrite Hv.
  destruct (Strict.throws (getp sb "id")); [eauto|].
  rewrite bind_run, lift_run. unfold Strict.ToString at 1.
  rewrite throws_or_else by reflexivity.
  destruct (Strict.throws (getp sb "title")); [eauto|].
  rewrite bind_run. cbn [orb] in H.
  destruct (getp sb "bullets") as [ | |bb|nn|ss|items|pp] eqn:Eb;
    try (cbn [existsb] in H; rewrite orb_false_r in H;
         rewrite ret_run, bind_run, lift_run; unfold Strict.ToNumber;
         rewrite throws_coalesce by reflexivity; rewrite H; eauto).
  unfold mapM. destruct (existsb Strict.throws items) eqn:Ei.
  - destruct (mapMi_ToString_throws items 0 n1 Ei) as [n2 ->]. eauto.
  - rewrite (mapMi_ToString items 0 n1 Ei). rewrite bind_run, lift_run.
    unfold Strict.ToNumber. rewrite throws_coalesce by reflexivity.
    rewrite orb_false_r in H. rewrite H. eauto.
Qed.

(** The importer of a category. *)
Lemma existsb_flat_map {A B : Type} (p : B -> bool) (g : A -> list B)
    (l : list A) :
  existsb p (flat_map g l) = existsb (fun a => existsb p (g a)) l.
Proof.
  induction l as [|a l IH]; [reflexivity|]. cbn.
  now rewrite existsb_app, IH.
Qed.

Lemma strict_importCategory_agrees (cats : list value) (dc : Category)
    (i n : nat) :
  existsb Strict.throws (Strict.convertedCategory (payloadCategory cats i))
  = false ->
  strictCategory cats dc i n = importCategory_ cats dc i n.
Proof.
  unfold Strict.convertedCategory. cbn [existsb app].
  intros H. apply orb_false_iff in H as [Hid H].
  apply orb_false_iff in H as [Hl Hb].
  unfold strictCategory, importCategory_, Strict.importCategory, importCategory.
  cbv zeta. rewrite !bind_run.
  destruct (or_uid_throws
              (or_else (getp (payloadCategory cats i) "id")
                 (VStr (Category.id dc))) n) as (v & n1 & -> & Hv).
  rewrite throws_or_else in Hv by reflexivity. rewrite Hid in Hv.
  rewrite bind_run, lift_run, (strict_ToString v Hv).
  rewrite bind_run, lift_run.
  rewrite strict_ToString by (now rewrite throws_or_else).
  rewrite !bind_run.
  destruct (getp (payloadCategory cats i) "blocks") as [ | |bb|nn|ss|items|pp];
    try reflexivity.
  unfold mapM.
  rewrite (mapMi_agree
             (fun a _ => Strict.importBlock NumberToString StringToNumber uid_at a)
             (fun a _ => importBlock NumberToString StringToNumber uid_at a)).
  - reflexivity.
  - intros j sb Hj n0. apply strict_importBlock_agrees.
    rewrite existsb_flat_map in Hb.
    exact (existsb_false_lookup _ _ j sb Hb Hj).
Qed.

Lemma strict_importCategory_throws (cats : list value) (dc : Category)
    (i n : nat) :
  existsb Strict.throws (Strict.convertedCategory (payloadCategory cats i))
  = true ->
  exists n', strictCategory cats dc i n = (None, n').
Proof.
  unfold Strict.convertedCategory. cbn [existsb app]. intros H.
  unfold strictCategory, Strict.importCategory. cbv zeta. rewrite bind_run.
  destruct (or_uid_throws
              (or_else (getp (payloadCategory cats i) "id")
                 (VStr (Category.id dc))) n) as (v & n1 & -> & Hv).
  rewrite throws_or_else in Hv by reflexivity.
  rewrite bind_run, lift_run. unfold Strict.ToString at 1. rewrite Hv.
  destruct (Strict.throws (getp (payloadCategory cats i) "id")); [eauto|].
  rewrite bind_run, lift_run. unfold Strict.ToString at 1.
  rewrite throws_or_else by reflexivity.
  destruct (Strict.throws (getp (payloadCategory cats i) "label")); [eauto|].
  rewrite bind_run. cbn [orb] in H.
  destruct (getp (payloadCategory cats i) "blocks") as [ | |bb|nn|ss|items|pp];
    try discriminate H.
  rewrite existsb_flat_map in H.
  apply existsb_lookup in H as (j & sb & Hj & Hsb).
  unfold mapM.
  destruct (mapMi_throws_at
              (fun a _ => Strict.importBlock NumberToString StringToNumber uid_at a)
              items 0 j sb Hj) with (n := n1) as [n2 ->]; [|eauto].
  intros n0. apply strict_importBlock_throws, Hsb.
Qed.

(** The importer of the model. *)
Lemma converted_categories (obj : value) (j : nat) :
  existsb Strict.throws (Strict.converted obj) = false ->
  (j < 6)%nat ->
  existsb Strict.throws
    (Strict.convertedCategory
       (payloadCategory (arrayOrEmpty (getp obj "categories")) j))
  = false.
Proof.
  unfold Strict.converted. rewrite existsb_app, existsb_flat_map.
  intros H Hj. apply orb_false_iff in H as [H _].
  apply (existsb_false_lookup _ _ j j H).
  rewrite lookup_seq_lt by exact Hj. reflexivity.
Qed.

Lemma strict_importModel_agrees (obj : value) (n : nat) :
  existsb Strict.throws (Strict.converted obj) = false ->
  strictModel obj n = importModel_ obj n.
Proof.
  intros H. pose proof (converted_categories obj) as Hcat.
  specialize (fun j => Hcat j H).
  unfold Strict.converted in H. rewrite !existsb_app in H.
  apply orb_false_iff in H as [_ H]. apply orb_false_iff in H as [Htext H].
  apply orb_false_iff in H as [Hpos Hsize].
  cbn [existsb] in Htext. rewrite orb_false_r in Htext.
  unfold strictModel, importModel_, Strict.importModel, importModel.
  rewrite !bind_run. unfold gen.
  assert (Hlen : length (Model.categories (fst (defaultModel uid_at n))) = 6%nat)
    by reflexivity.
  destruct (defaultModel uid_at n) as [def n0]. cbn [fst] in Hlen.
  rewrite !bind_run, !lift_run. unfold get.
  destruct (nullish obj); [reflexivity|]. cbv zeta.
  rewrite !bind_run.
  rewrite (mapMi_agree
             (Strict.importCategory NumberToString StringToNumber uid_at
                (arrayOrEmpty (getp obj "categories")))
             (importCategory NumberToString StringToNumber uid_at
                (arrayOrEmpty (getp obj "categories")))).
  2:{ intros j dc Hj n1. cbn [Nat.add]. apply strict_importCategory_agrees.
      apply Hcat. apply lookup_lt_Some in Hj. lia. }
  destruct (mapMi _ (Model.categories def) 0 n0) as [[fixed|] n1];
    [|reflexivity].
  rewrite bind_run, lift_run.
  rewrite strict_ToString by (now rewrite throws_or_else).
  rewrite bind_run.
  destruct (truthy (getp obj "effectPos") && typeof_object (getp obj "effectPos")).
  - cbn [existsb] in Hpos. rewrite orb_false_r in Hpos.
    apply orb_false_iff in Hpos as [Hdx Hdy].
    rewrite !bind_run, !lift_run.
    rewrite strict_ToNumber by (now rewrite throws_or_else).
    rewrite !bind_run, !lift_run.
    rewrite strict_ToNumber by (now rewrite throws_or_else).
    rewrite ret_run, bind_run.
    destruct (truthy (getp obj "effectSize")
              && typeof_object (getp obj "effectSize")).
    + cbn [existsb] in Hsize. rewrite orb_false_r in Hsize.
      apply orb_false_iff in Hsize as [Hw Hh].
      rewrite !bind_run, !lift_run.
      rewrite strict_ToNumber by (now rewrite throws_or_else).
      rewrite !bind_run, !lift_run.
      rewrite strict_ToNumber by (now rewrite throws_or_else).
      reflexivity.
    + reflexivity.
  - rewrite ret_run, bind_run.
    destruct (truthy (getp obj "effectSize")
              && typeof_object (getp obj "effectSize")).
    + cbn [existsb] in Hsize. rewrite orb_false_r in Hsize.
      apply orb_false_iff in Hsize as [Hw Hh].
      rewrite !bind_run, !lift_run.
      rewrite strict_ToNumber by (now rewrite throws_or_else).
      rewrite !bind_run, !lift_run.
      rewrite strict_ToNumber by (now rewrite throws_or_else).
      reflexivity.
    + reflexivity.
Qed.

Lemma strict_importModel_throws (obj : value) (n : nat) :
  existsb Strict.throws (Strict.converted obj) = true ->
  exists n', strictModel obj n = (None, n').
Proof.
  intros H.
  unfold strictModel, Strict.importModel.
  rewrite bind_run. unfold gen.
  assert (Hlen : length (Model.categories (fst (defaultModel uid_at n))) = 6%nat)
    by reflexivity.
  destruct (defaultModel uid_at n) as [def n0]. cbn [fst] in Hlen.
  rewrite bind_run, lift_run. unfold get.
  destruct (nullish obj); [eauto|]. cbv zeta.
  rewrite bind_run.
  unfold Strict.converted in H. rewrite existsb_app, existsb_flat_map in H.
  apply orb_true_iff in H as [H|H].
  { apply existsb_lookup in H as (j & i & Hj & Hi).
    assert (Hlt : (j < 6)%nat)
      by (apply lookup_lt_Some in Hj; now rewrite length_seq in Hj).
    rewrite lookup_seq_lt in Hj by exact Hlt. injection Hj as <-.
    destruct (lookup_lt_is_Some_2 (Model.categories def) j) as [dc Hdc];
      [lia|].
    destruct (mapMi_throws_at
                (Strict.importCategory NumberToString StringToNumber uid_at
                   (arrayOrEmpty (getp obj "categories")))
                (Model.categories def) 0 j dc Hdc) with (n := n0) as [n1 ->];
      [|eauto].
    intros n1. apply strict_importCategory_throws, Hi. }
  destruct (mapMi _ (Model.categories def) 0 n0) as [[fixed|] n1]; [|eauto].
  rewrite bind_run, lift_run. unfold Strict.ToString at 1.
  rewrite throws_or_else by reflexivity.
  rewrite !existsb_app in H. cbn [existsb] in H.
  destruct (Strict.throws (getp obj "effectText")); [eauto|].
  cbn [orb] in H. rewrite bind_run.
  destruct (truthy (getp obj "effectPos") && typeof_object (getp obj "effectPos")).
  - rewrite bind_run, lift_run. unfold Strict.ToNumber at 1.
    rewrite throws_or_else by reflexivity. cbn [existsb] in H.
    destruct (Strict.throws (getp (getp obj "effectPos") "dx")); [eauto|].
    rewrite bind_run, lift_run. unfold Strict.ToNumber at 1.
    rewrite throws_or_else by reflexivity.
    destruct (Strict.throws (getp (getp obj "effectPos") "dy")); [eauto|].
    cbn [orb] in H. rewrite ret_run, bind_run.
    destruct (truthy (getp obj "effectSize")
              && typeof_object (getp obj "effectSize")); [|discriminate H].
    rewrite bind_run, lift_run. unfold Strict.ToNumber at 1.
    rewrite throws_or_else by reflexivity. cbn [existsb] in H.
    destruct (Strict.throws (getp (getp obj "effectSize") "w")); [eauto|].
    rewrite bind_run, lift_run. unfold Strict.ToNumber at 1.
    rewrite throws_or_else by reflexivity.
    destruct (Strict.throws (getp (getp obj "effectSize") "h")); [eauto|].
    discriminate H.
  - cbn [existsb orb] in H. rewrite ret_run, bind_run.
    destruct (truthy (getp obj "effectSize")
              && typeof_object (getp obj "effectSize")); [|discriminate H].
    rewrite bind_run, lift_run. unfold Strict.ToNumber at 1.
    rewrite throws_or_else by reflexivity. cbn [existsb] in H.
    destruct (Strict.throws (getp (getp obj "effectSize") "w")); [eauto|].
    rewrite bind_run, lift_run. unfold Strict.ToNumber at 1.
    rewrite throws_or_else by reflexivity.
    destruct (Strict.throws (getp (getp obj "effectSize") "h")); [eauto|].
    discriminate H.
Qed.

(** The two importers return the same model, and the one with the type
    errors returns exactly for the payloads that are [readable]. *)
Lemma strict_importModel_iff (obj : value) (n n' : nat) (m : Model) :
  strictModel obj n = (Some m, n')
  <-> importModel_ obj n = (Some m, n')
      /\ existsb Strict.throws (Strict.converted obj) = false.
Proof.
  destruct (existsb Strict.throws (Strict.converted obj)) eqn:E.
  - destruct (strict_importModel_throws obj n E) as [k Hk]. rewrite Hk.
    split; [discriminate|]. intros [_ H]. discriminate H.
  - rewrite (strict_importModel_agrees obj n E). tauto.
Qed.




(** *** What an accepted payload is imported as *)

Lemma importBlock_id (sb : value) (n n' : nat) (b : Block) :
  importBlock_ sb n = (Some b, n') ->
  truthy (getp sb "id") = true ->
  Block.id b = String_ (getp sb "id").
Proof.
  unfold importBlock_, importBlock. rewrite bind_run, lift_run. unfold get.
  destruct (nullish sb); [discriminate|].
  rewrite bind_run. unfold or_uid. intros E Ht. rewrite Ht in E.
  rewrite ret_run, ret_run in E. now inversion E.
Qed.

(** The blocks of an imported category, one per entry of the array. *)
Lemma importCategory_blocks (cats : list value) (dc : Category) (i n n' : nat)
    (c : Category) (items : list value) :
  importCategory_ cats dc i n = (Some c, n') ->
  getp (payloadCategory cats i) "blocks" = VArr items ->
  forall j b, Category.blocks c !! j = Some b ->
    exists sb k k', items !! j = Some sb /\ importBlock_ sb k = (Some b, k').
Proof.
  unfold importCategory_, importCategory. cbv zeta. intros E Hb.
  rewrite Hb in E. rewrite bind_run in E.
  destruct (or_uid uid_at _ n) as [[idv|] n1]; [|discriminate E].
  rewrite bind_run in E.
  destruct (mapM (importBlock NumberToString StringToNumber uid_at) items n1)
    as [[bs|] n2] eqn:Em; [|discriminate E].
  rewrite ret_run in E. inversion E; subst c n'. cbn [Category.blocks].
  intros j b Hj. unfold mapM in Em. apply mapMi_lookup in Em as [_ Hall].
  destruct (Hall j b Hj) as (sb & k & k' & Hsb & Hf). eauto.
Qed.

Lemma Forall2_ToString (items : list value) :
  existsb Strict.throws items = false ->
  Forall2 (fun x s => Strict.ToString NumberToString x = Some s)
    items (List.map String_ items).
Proof.
  induction items as [|x items IH]; cbn; intros H; [constructor|].
  apply orb_false_iff in H as [Hx Hl].
  constructor; [now apply strict_ToString|now apply IH].
Qed.

(** What a payload of plain texts and numbers is converted to. *)
Lemma Forall2_ToString_texts (ss l : list string) :
  Forall2 (fun x s => Strict.ToString NumberToString x = Some s)
    (List.map VStr ss) l ->
  l = ss.
Proof.
  revert l. induction ss as [|s ss IH]; intros l H; inversion H; subst;
    [reflexivity|].
  cbn in H2. injection H2 as <-. f_equal. now apply IH.
Qed.

(** The fields of an imported block are the conversions of the fields of
    its entry, with the defaults of the source. *)
Lemma strict_block_fields (sb : value) (n n' : nat) (b : Block) :
  importBlock_ sb n = (Some b, n') ->
  existsb Strict.throws (Strict.convertedBlock sb) = false ->
  Strict.ToString NumberToString (or_else (getp sb "title") (VStr ""))
  = Some (Block.title b)
  /\ match getp sb "bullets" with
     | VArr bs =>
         Forall2 (fun x s => Strict.ToString NumberToString x = Some s)
           bs (Block.bullets b)
     | _ => Block.bullets b = [""%string]
     end
  /\ (exists t : num,
        Strict.ToNumber NumberToString StringToNumber
          (coalesce (getp sb "t") (VNum (Fin 0.3))) = Some t
        /\ Block.t b = clamp t tMin tMax)
  /\ (truthy (getp sb "id") = true ->
      Strict.ToString NumberToString (getp sb "id") = Some (Block.id b))
  /\ Block.w b = None.
Proof.
  intros E H. pose proof (importBlock_id sb n n' b E) as Hid.
  apply importBlock_inv in E as [_ [id ->]].
  unfold Strict.convertedBlock in H. rewrite existsb_app in H.
  apply orb_false_iff in H as [H Hbs]. cbn [existsb] in H.
  rewrite orb_false_r in H.
  apply orb_false_iff in H as [Hi H]. apply orb_false_iff in H as [Ht Hn].
  cbn [importedBlock Block.title Block.bullets Block.t Block.w Block.id] in *.
  split; [|split; [|split; [|split]]].
  - apply strict_ToString. now rewrite throws_or_else.
  - destruct (getp sb "bullets"); try reflexivity.
    now apply Forall2_ToString.
  - eexists. split; [|reflexivity].
    apply strict_ToNumber. now rewrite throws_coalesce.
  - intros Hy. rewrite (Hid Hy). now apply strict_ToString.
  - reflexivity.
Qed.

(** C5. A model that the importer returns has six categories with the
    sides of the default model, three [top] then three [bottom]: the side
    written in the payload is never read.  The category at position [i]
    takes from entry [i] of the payload its label, [String(sc.label ||
    dc.label)], its id and, when the entry has a [blocks] array, one block
    per element, whose title, bullets, [t] and id are the conversions of
    those of the element: [String(sb.title || "")], the texts of
    [sb.bullets] or one empty bullet, [clamp(Number(sb.t ?? 0.3))] and
    [String(sb.id)].  So labels, titles, bullets, ids and fractions of the
    band that the payload writes as plain texts and numbers are kept as
    they are.  A position that the payload does not reach (positions 4
    and 5 of a payload of four categories) keeps the id, the side and the
    label of the default model; its block is not the default one: it is a
    new empty block at [t = 0.3]. *)
Theorem C5_import_fixes_six_categories
    (obj : value) (n n' : nat) (m : Model) :
  Strict.importModel NumberToString StringToNumber uid_at obj n
  = (Some m, n') ->
  let cats := arrayOrEmpty (getp obj "categories") in
  let def := fst (defaultModel uid_at n) in
  List.map Category.side (Model.categories m)
  = [top; top; top; bottom; bottom; bottom]
  /\ (forall (i : nat) (c : Category),
        Model.categories m !! i = Some c ->
        let sc := payloadCategory cats i in
        exists dc,
          Model.categories def !! i = Some dc
          /\ Category.side c = Category.side dc
          /\ Strict.ToString NumberToString
               (or_else (getp sc "label") (VStr (Category.label dc)))
             = Some (Category.label c)
          /\ (truthy (or_else (getp sc "id") (VStr (Category.id dc))) = true ->
              Strict.ToString NumberToString
                (or_else (getp sc "id") (VStr (Category.id dc)))
              = Some (Category.id c))
          /\ match getp sc "blocks" with
             | VArr items =>
                 length (Category.blocks c) = length items
                 /\ forall j b, Category.blocks c !! j = Some b ->
                      exists sb,
                        items !! j = Some sb
                        /\ Strict.ToString NumberToString
                             (or_else (getp sb "title") (VStr ""))
                           = Some (Block.title b)
                        /\ match getp sb "bullets" with
                           | VArr bs =>
                               Forall2
                                 (fun x s =>
                                    Strict.ToString NumberToString x = Some s)
                                 bs (Block.bullets b)
                           | _ => Block.bullets b = [""%string]
                           end
                        /\ (exists t : num,
                              Strict.ToNumber NumberToString StringToNumber
                                (coalesce (getp sb "t") (VNum (Fin 0.3)))
                              = Some t
                              /\ Block.t b = clamp t tMin tMax)
                        /\ (truthy (getp sb "id") = true ->
                            Strict.ToString NumberToString (getp sb "id")
                            = Some (Block.id b))
                        /\ Block.w b = None
             | _ =>
                 exists id,
                   Category.blocks c
                   = [Block.mk id "" [""%string] (Fin 0.3) None]
             end)
  /\ (forall (i : nat) (c : Category) (props : list (string * value)),
        Model.categories m !! i = Some c ->
        cats !! i = Some (VObj props) ->
        (forall l : string,
           lookup_prop "label" props = VStr l -> l <> ""%string ->
           Category.label c = l)
        /\ (forall s : string,
              lookup_prop "id" props = VStr s -> s <> ""%string ->
              Category.id c = s)
        /\ (forall (items : list value) (j : nat) (b : Block)
                   (fields : list (string * value)),
              lookup_prop "blocks" props = VArr items ->
              Category.blocks c !! j = Some b ->
              items !! j = Some (VObj fields) ->
              (forall s : string,
                 lookup_prop "title" fields = VStr s -> Block.title b = s)
              /\ (forall ss : list string,
                    lookup_prop "bullets" fields = VArr (List.map VStr ss) ->
                    Block.bullets b = ss)
              /\ (forall q : Q,
                    lookup_prop "t" fields = VNum (Fin q) ->
                    tMin < q -> q < tMax -> Block.t b = Fin q)
              /\ (forall s : string,
                    lookup_prop "id" fields = VStr s -> s <> ""%string ->
                    Block.id b = s)))
  /\ (forall (i : nat) (c : Category),
        Model.categories m !! i = Some c ->
        (length cats <= i)%nat ->
        exists dc id,
          Model.categories def !! i = Some dc
          /\ Category.side c = Category.side dc
          /\ Category.label c = Category.label dc
          /\ (Category.id dc <> ""%string -> Category.id c = Category.id dc)
          /\ Category.blocks c
             = [Block.mk id "" [""%string] (Fin 0.3) None]).
Proof.
  intros Himp cats def.
  apply strict_importModel_iff in Himp as [Himp Hconv].
  pose proof (converted_categories obj) as Hsafe.
  specialize (fun j => Hsafe j Hconv). fold cats in Hsafe.
  pose proof (importModel_category _ _ _ _ _ _ _ Himp) as [Hlen Hcat].
  fold cats def in Hcat.
  assert (Hpos : forall (i : nat) (c : Category),
             Model.categories m !! i = Some c ->
             let sc := payloadCategory cats i in
             exists dc,
               Model.categories def !! i = Some dc
               /\ Category.side c = Category.side dc
               /\ Strict.ToString NumberToString
                    (or_else (getp sc "label") (VStr (Category.label dc)))
                  = Some (Category.label c)
               /\ (truthy (or_else (getp sc "id") (VStr (Category.id dc))) = true ->
                   Strict.ToString NumberToString
                     (or_else (getp sc "id") (VStr (Category.id dc)))
                   = Some (Category.id c))
               /\ match getp sc "blocks" with
                  | VArr items =>
                      length (Category.blocks c) = length items
                      /\ forall j b, Category.blocks c !! j = Some b ->
                           exists sb,
                             items !! j = Some sb
                             /\ Strict.ToString NumberToString
                                  (or_else (getp sb "title") (VStr ""))
                                = Some (Block.title b)
                             /\ match getp sb "bullets" with
                                | VArr bs =>
                                    Forall2
                                      (fun x s =>
                                         Strict.ToString NumberToString x = Some s)
                                      bs (Block.bullets b)
                                | _ => Block.bullets b = [""%string]
                                end
                             /\ (exists t : num,
                                   Strict.ToNumber NumberToString StringToNumber
                                     (coalesce (getp sb "t") (VNum (Fin 0.3)))
                                   = Some t
                                   /\ Block.t b = clamp t tMin tMax)
                             /\ (truthy (getp sb "id") = true ->
                                 Strict.ToString NumberToString (getp sb "id")
                                 = Some (Block.id b))
                             /\ Block.w b = None
                  | _ =>
                      exists id,
                        Category.blocks c
                        = [Block.mk id "" [""%string] (Fin 0.3) None]
                  end).
  { intros i c Hi sc.
    assert (Hlt : (i < 6)%nat) by (apply lookup_lt_Some in Hi; lia).
    specialize (Hsafe i Hlt). fold sc in Hsafe.
    destruct (Hcat i c Hi) as (dc & k & k' & Hdc & Hf).
    pose proof (importCategory_blocks cats dc i k k' c) as Hblocks.
    specialize (fun items => Hblocks items Hf). fold sc in Hblocks.
    apply importCategory_inv in Hf as (Hs & Hl & Hid & Hb).
    fold sc in Hl, Hid, Hb.
    unfold Strict.convertedCategory in Hsafe. rewrite existsb_app in Hsafe.
    apply orb_false_iff in Hsafe as [Hsafe Hitems].
    cbn [existsb] in Hsafe. rewrite orb_false_r in Hsafe.
    apply orb_false_iff in Hsafe as [Hsid Hslabel].
    exists dc. split; [exact Hdc|]. split; [exact Hs|]. split.
    { rewrite Hl. apply strict_ToString. now rewrite throws_or_else. }
    split.
    { intros Ht. rewrite (Hid Ht). apply strict_ToString.
      now rewrite throws_or_else. }
    destruct (getp sc "blocks") as [ | |bb|nn|ss|items|pp] eqn:Eb;
      try exact Hb.
    destruct Hb as [Hlenb _]. split; [exact Hlenb|].
    intros j b Hj.
    destruct (Hblocks items eq_refl j b Hj) as (sb & k0 & k1 & Hsb & Hfb).
    exists sb. split; [exact Hsb|].
    apply (strict_block_fields sb k0 k1 b Hfb).
    rewrite existsb_flat_map in Hitems.
    exact (existsb_false_lookup _ _ j sb Hitems Hsb). }
  split; [|split; [exact Hpos|split]].
  - apply importModel_inv in Himp as (_ & Hmap & _).
    rewrite <- (defaultModel_sides uid_at n).
    eapply mapMi_map; [|exact Hmap].
    intros a j k b k' Hf. now apply importCategory_inv in Hf.
  - intros i c props Hi Hp.
    destruct (Hpos i c Hi) as (dc & Hdc & _ & Hl & Hid & Hb).
    unfold payloadCategory, index in Hl, Hid, Hb.
    rewrite (nth_lookup_Some _ _ _ _ Hp) in Hl, Hid, Hb.
    cbn [or_else JSValue.truthy getp] in Hl, Hid, Hb.
    split; [|split].
    + intros l El Hne. apply String.eqb_neq in Hne. rewrite El in Hl.
      unfold or_else, JSValue.truthy in Hl. rewrite Hne in Hl.
      cbn in Hl. congruence.
    + intros s Es Hne. apply String.eqb_neq in Hne. rewrite Es in Hid.
      assert (Ht : truthy (VStr s) = true) by (cbn; now rewrite Hne).
      unfold or_else in Hid. rewrite Ht in Hid.
      specialize (Hid Ht). cbn in Hid. congruence.
    + intros items j b fields Eb Hj Hsb. rewrite Eb in Hb.
      destruct Hb as [_ Hb].
      destruct (Hb j b Hj) as (sb & Hsb' & Htitle & Hbul & (t & Ht & Hbt) & Hbid & _).
      rewrite Hsb in Hsb'. injection Hsb' as <-.
      cbn [getp] in Htitle, Hbul, Ht, Hbid.
      split; [|split; [|split]].
      * intros s Es. rewrite Es in Htitle.
        unfold or_else, JSValue.truthy in Htitle.
        destruct (String.eqb_spec s ""); cbn in Htitle; congruence.
      * intros ss Es. rewrite Es in Hbul.
        now apply Forall2_ToString_texts in Hbul.
      * intros q Eq Hlo Hhi. rewrite Eq in Ht. cbn in Ht.
        injection Ht as <-. rewrite Hbt. now apply clamp_inside.
      * intros s Es Hne. apply String.eqb_neq in Hne. rewrite Es in Hbid.
        cbn [JSValue.truthy] in Hbid. rewrite Hne in Hbid.
        specialize (Hbid eq_refl). cbn in Hbid. congruence.
  - intros i c Hi Hlenc.
    destruct (Hpos i c Hi) as (dc & Hdc & Hs & Hl & Hid & Hb).
    unfold payloadCategory, index in Hl, Hid, Hb.
    rewrite nth_overflow in Hl, Hid, Hb by exact Hlenc.
    cbn in Hl, Hid, Hb. destruct Hb as [id Hb].
    exists dc, id. split; [exact Hdc|]. split; [exact Hs|].
    split; [congruence|]. split; [|exact Hb].
    intros Hne. apply String.eqb_neq in Hne.
    assert (Ht : truthy (VStr (Category.id dc)) = true)
      by (cbn; now rewrite Hne).
    unfold or_else in Hid. cbn [JSValue.truthy] in Hid.
    specialize (Hid Ht). cbn in Hid. congruence.
Qed.

(** *** The import, accepted and rejected *)

(** [applyAppearance] converts the values of the same keys as
    [syncControlsFromModel]: it throws when that one does. *)
Lemma appearanceTexts_sizes (m : Model) :
  existsb Strict.throws (Strict.appearanceTexts Strict.styleSizes m)
  = existsb Strict.throws (Strict.appearanceTexts Strict.controlSizes m).
Proof.
  unfold Strict.appearanceTexts, Strict.styleSizes, Strict.controlSizes.
  cbn [List.map existsb fst snd].
  now rewrite !throws_coalesce by reflexivity.
Qed.

Lemma strict_onImport_accepts (obj : value) (st : State) (m : Model)
    (n' : nat) :
  strictModel obj (uidCount st) = (Some m, n') ->
  Strict.onImport NumberToString StringToNumber uid_at (Some obj) st
  = mkState m Selected.none (catBones st) (drag st)
      (if existsb Strict.throws (Strict.appearanceTexts Strict.controlSizes m)
       then alerts st ++ [importNotice] else alerts st)
      n'.
Proof.
  intros E. unfold Strict.onImport. rewrite bind_run, lift_run.
  unfold strictModel in E. rewrite E.
  unfold Strict.syncControlsFromModel, Strict.applyAppearance.
  rewrite appearanceTexts_sizes.
  now destruct (existsb Strict.throws
                  (Strict.appearanceTexts Strict.controlSizes m)).
Qed.

Lemma strict_onImport_rejects (obj : value) (st : State) (n' : nat) :
  strictModel obj (uidCount st) = (None, n') ->
  Strict.onImport NumberToString StringToNumber uid_at (Some obj) st
  = mkState (model st) (selected st) (catBones st) (drag st)
      (alerts st ++ [importNotice]) n'.
Proof.
  intros E. unfold Strict.onImport. rewrite bind_run, lift_run.
  unfold strictModel in E. now rewrite E.
Qed.


End StrictImporter.

(** ** Invariants of the model along the events *)

Lemma Forall_update_first {A : Type} (Q : A -> Prop) (p : A -> bool)
    (f : A -> A) (l : list A) :
  (forall a, Q a -> Q (f a)) -> Forall Q l -> Forall Q (update_first p f l).
Proof.
  intros Hf. induction 1 as [|a l Ha Hl IH]; cbn; [constructor|].
  destruct (p a); constructor; auto.
Qed.

Lemma Forall_alter_pres {A : Type} (Q : A -> Prop) (f : A -> A) (i : nat)
    (l : list A) :
  (forall a, Q a -> Q (f a)) -> Forall Q l -> Forall Q (alter f i l).
Proof.
  intros Hf H. revert i. induction H as [|a l Ha Hl IH]; intros [|i]; cbn;
    constructor; auto.
Qed.

Lemma map_update_first {A B : Type} (g : A -> B) (p : A -> bool) (f : A -> A)
    (l : list A) :
  (forall a, g (f a) = g a) ->
  List.map g (update_first p f l) = List.map g l.
Proof.
  intros Hf. induction l as [|a l IH]; cbn; [reflexivity|].
  destruct (p a); cbn; now rewrite ?Hf, ?IH.
Qed.

Lemma map_alter_pres {A B : Type} (g : A -> B) (f : A -> A) (i : nat)
    (l : list A) :
  (forall a, g (f a) = g a) -> List.map g (alter f i l) = List.map g l.
Proof.
  intros Hf. revert i. induction l as [|a l IH]; intros [|i]; cbn;
    now rewrite ?Hf, ?IH.
Qed.

Lemma Forall_filter_pres {A : Type} (Q : A -> Prop) (p : A -> bool)
    (l : list A) :
  Forall Q l -> Forall Q (List.filter p l).
Proof.
  induction 1 as [|a l Ha Hl IH]; cbn; [constructor|].
  destruct (p a); auto.
Qed.

Lemma deleteBullet_nonempty (i : nat) (bullets : list string) :
  deleteBullet i bullets <> [].
Proof.
  unfold deleteBullet. destruct (delete i bullets) as [|s l]; cbn; discriminate.
Qed.

Lemma clamp_tClamped (a : num) (b : Block) :
  tClamped (Block.set_t (clamp a tMin tMax) b).
Proof.
  unfold tClamped. cbn [Block.t Block.set_t]. destruct a as [ | | |q].
  - left. apply clamp_NaN.
  - right. apply clamp_in_range; [exact tBand|discriminate].
  - right. apply clamp_in_range; [exact tBand|discriminate].
  - right. apply clamp_in_range; [exact tBand|discriminate].
Qed.

Ltac break_match :=
  repeat match goal with
    | |- context [match ?x with _ => _ end] => destruct x eqn:?
    end.

(** The handlers unfolded down to the list operations on the model. *)
Ltac unfold_handlers :=
  unfold onFrame, onBlockMouseDown, onHandlePointerDown, startDrag, select,
    onDragMove, onDragEnd, onAddHeading, onAddBullet, onDeleteHeading,
    onDeleteBullet, onEditTitle, onEditBullet, onEditLabel, onBlockResize,
    onAppearanceInput, onReset, with_model, alter_block, alter_cat, assign_t;
  cbn [defaultModel gbind gmapi gret mkCategory mkBlock uid classicCategories];
  break_match;
  cbn [model Model.categories Model.set_categories Model.set_appearance].

(** A property of the blocks of every category is kept by a change of the
    categories as soon as the leaves of the change keep it; [leaf] solves
    the leaves: a block changed in place, or a block added. *)
Ltac blocks_kept leaf :=
  lazymatch goal with
  | |- Forall _ (Category.blocks _) => assumption
  | |- Forall _ (update_first _ _ (Category.blocks _)) =>
      apply Forall_update_first; [intros ? ?; leaf | assumption]
  | |- Forall _ (alter _ _ (Category.blocks _)) =>
      apply Forall_alter_pres; [intros ? ?; leaf | assumption]
  | |- Forall _ (List.filter _ (Category.blocks _)) =>
      apply Forall_filter_pres; assumption
  | |- Forall _ (Category.blocks _ ++ [_]) =>
      apply Forall_app; split; [assumption | constructor; [leaf | constructor]]
  end.

Ltac cats_kept leaf :=
  lazymatch goal with
  | |- Forall _ (update_first _ _ _) =>
      apply Forall_update_first;
      [intros ? ?;
       cbn [Category.blocks Category.set_blocks Category.set_label];
       blocks_kept leaf
      | assumption]
  | |- Forall _ (alter _ _ _) =>
      apply Forall_alter_pres;
      [intros ? ?;
       cbn [Category.blocks Category.set_blocks Category.set_label];
       blocks_kept leaf
      | assumption]
  | |- Forall _ (Model.categories (model _)) => assumption
  end.

Lemma update_first_nonempty {A : Type} (p : A -> bool) (f : A -> A)
    (l : list A) :
  l <> [] -> update_first p f l <> [].
Proof. destruct l; cbn; [congruence|]. destruct (p a); discriminate. Qed.

Lemma alter_nonempty {A : Type} (f : A -> A) (i : nat) (l : list A) :
  l <> [] -> alter f i l <> [].
Proof. destruct l, i; cbn; congruence. Qed.

Lemma insert_nonempty {A : Type} (i : nat) (x : A) (l : list A) :
  l <> [] -> <[i := x]> l <> [].
Proof. destruct l, i; cbn; intros H; congruence. Qed.

Section Invariants.

Variable NumberToString : num -> string.
Variable StringToNumber : string -> num.
Variable uid_at : nat -> string.

Let step_ := step NumberToString StringToNumber uid_at.

(** Every event but an import keeps a bullet in every block. *)
Lemma step_bullets (st : State) (ev : Event) :
  is_import ev = false ->
  eachBlock hasBullet (model st) -> eachBlock hasBullet (model (step_ st ev)).
Proof.
  unfold eachBlock, eachCategory, hasBullet.
  destruct ev; cbn [is_import]; intros Hi H; try discriminate Hi;
    unfold step_; cbn [step]; unfold_handlers; try exact H;
    try (cats_kept ltac:(cbn; first [assumption | discriminate
                                | apply deleteBullet_nonempty
                                | now apply insert_nonempty
                                | (intros E; now apply app_eq_nil in E as [_ ?])])).
  repeat constructor; discriminate.
Qed.

(** Every event but an import and the deletion of a heading keeps a block
    in every category. *)
Lemma step_blocks (st : State) (ev : Event) :
  is_import ev = false -> is_delete_heading ev = false ->
  eachCategory hasBlock (model st) -> eachCategory hasBlock (model (step_ st ev)).
Proof.
  unfold eachCategory, hasBlock.
  destruct ev; cbn [is_import is_delete_heading]; intros Hi Hd H;
    try discriminate Hi; try discriminate Hd;
    unfold step_; cbn [step]; unfold_handlers; try exact H;
    try (first [apply Forall_update_first | apply Forall_alter_pres];
         [intros ? ?; cbn [Category.blocks Category.set_blocks Category.set_label];
          try assumption;
          first [ now apply update_first_nonempty
                | now apply alter_nonempty
                | (intros E; now apply app_eq_nil in E as [_ ?]) ]
         | assumption]).
  repeat constructor; discriminate.
Qed.

(** Every event but an import stores what [clamp] returns. *)
Lemma step_tClamped (st : State) (ev : Event) :
  is_import ev = false ->
  eachBlock tClamped (model st) -> eachBlock tClamped (model (step_ st ev)).
Proof.
  unfold eachBlock, eachCategory.
  destruct ev; cbn [is_import]; intros Hi H; try discriminate Hi;
    unfold step_; cbn [step]; unfold_handlers; try exact H;
    try (cats_kept ltac:(first [ assumption
                               | apply clamp_tClamped
                               | apply (clamp_tClamped _ (Block.mk _ _ _ NaN _)) ])).
  repeat match goal with
         | |- Forall _ _ => cbn [Category.blocks]; constructor
         end.
  all: unfold tClamped, freshBlock; cbn [Block.t]; right;
    (apply clamp_in_range; [exact tBand|discriminate]).
Qed.

(** Every event but an import keeps the six sides. *)
Lemma step_sides_no_import (st : State) (ev : Event) :
  is_import ev = false ->
  sidesFixed (model st) -> sidesFixed (model (step_ st ev)).
Proof.
  unfold sidesFixed.
  destruct ev; cbn [is_import]; intros Hi H; try discriminate Hi;
    unfold step_; cbn [step]; unfold_handlers; try exact H;
    try (rewrite map_update_first by reflexivity; exact H);
    try (rewrite map_alter_pres by reflexivity; exact H).
  reflexivity.
Qed.

(** *** The importer and the invariants *)

Lemma importedBlock_tClamped (sb : value) (id : string) :
  tClamped (importedBlock NumberToString StringToNumber sb id).
Proof. apply (clamp_tClamped _ (Block.mk id ""%string [] NaN None)). Qed.

Lemma importModel_tClamped (obj : value) (n n' : nat) (m : Model) :
  importModel NumberToString StringToNumber uid_at obj n = (Some m, n') ->
  eachBlock tClamped m.
Proof.
  intros E. apply importModel_category in E as [_ Hcat].
  unfold eachBlock, eachCategory. apply Forall_lookup. intros i c Hi.
  destruct (Hcat i c Hi) as (dc & k & k' & _ & Hf).
  apply importCategory_inv in Hf as (_ & _ & _ & Hb).
  cbn zeta in Hb.
  destruct (getp (payloadCategory (arrayOrEmpty (getp obj "categories")) i)
              "blocks") as [ | | ? | ? | ? | items | ?];
    try (destruct Hb as [id Hb]; rewrite Hb; constructor; [|constructor];
         apply (clamp_tClamped _ (Block.mk id ""%string [] NaN None))).
  destruct Hb as [_ Hb]. apply Forall_lookup. intros j b Hj.
  destruct (Hb j b Hj) as (sb & id & _ & _ & ->).
  apply importedBlock_tClamped.
Qed.

Lemma importModel_sides (obj : value) (n n' : nat) (m : Model) :
  importModel NumberToString StringToNumber uid_at obj n = (Some m, n') ->
  sidesFixed m.
Proof.
  intros E. apply importModel_inv in E as (_ & Hmap & _).
  unfold sidesFixed, sixSides. rewrite <- (defaultModel_sides uid_at n).
  eapply mapMi_map; [|exact Hmap].
  intros a j k b k' Hf. now apply importCategory_inv in Hf.
Qed.

(** A property that the importer establishes and every other event keeps
    holds after every sequence of events. *)
Lemma run_invariant (Inv : Model -> Prop) :
  Inv (model (initial uid_at)) ->
  (forall st ev, is_import ev = false -> Inv (model st) -> Inv (model (step_ st ev))) ->
  (forall obj n n' m,
      importModel NumberToString StringToNumber uid_at obj n = (Some m, n') ->
      Inv m) ->
  forall evs, Inv (model (run NumberToString StringToNumber uid_at
                            (initial uid_at) evs)).
Proof.
  intros H0 Hstep Himp evs.
  assert (Hgen : forall st, Inv (model st) ->
            Inv (model (run NumberToString StringToNumber uid_at st evs))).
  { induction evs as [|ev evs IH]; intros st Hst; cbn; [exact Hst|].
    apply IH. destruct (is_import ev) eqn:Ei.
    - destruct ev; try discriminate Ei. cbn [step].
      destruct parsed as [obj|]; [|exact Hst].
      destruct (importModel NumberToString StringToNumber uid_at obj
                  (uidCount st)) as [[m|] n'] eqn:E.
      + rewrite (onImport_accepts _ _ _ _ _ _ _ E). cbn. eapply Himp, E.
      + rewrite (onImport_rejects _ _ _ _ _ _ E). exact Hst.
    - now apply Hstep. }
  apply Hgen, H0.
Qed.

(** After every sequence of events the model has its six categories,
    three [top] then three [bottom], and every stored [t] is what [clamp]
    returned: a number of the band, or [NaN]. *)
Lemma run_sides (evs : list Event) :
  sidesFixed (model (run NumberToString StringToNumber uid_at
                       (initial uid_at) evs)).
Proof.
  apply run_invariant.
  - reflexivity.
  - apply step_sides_no_import.
  - apply importModel_sides.
Qed.

Lemma run_tClamped (evs : list Event) :
  eachBlock tClamped (model (run NumberToString StringToNumber uid_at
                               (initial uid_at) evs)).
Proof.
  apply run_invariant.
  - unfold eachBlock, eachCategory. cbn.
    repeat match goal with
           | |- Forall _ _ => cbn [Category.blocks]; constructor
           end.
    all: unfold tClamped, freshBlock; cbn [Block.t]; right;
      (apply clamp_in_range; [exact tBand|discriminate]).
  - apply step_tClamped.
  - apply importModel_tClamped.
Qed.

End Invariants.

(** ** Headings and bullets *)



Section Headings.

Variable NumberToString : num -> string.
Variable StringToNumber : string -> num.
Variable uid_at : nat -> string.

Let step_ := step NumberToString StringToNumber uid_at.

(** C8. Every event but an import keeps at least one bullet in every
    block, and every event but an import and the deletion of a heading
    keeps at least one block in every category; the default model has
    both.  The deletion of a heading removes it also when it is the last of
    its category, which is left with no block.  An import gives one fresh
    block to a category whose entry has no [blocks] array, and one empty
    bullet to a block whose entry has no [bullets] array. *)
Theorem C8_structure_kept_by_design (st : State) (ev : Event) :
  (is_import ev = false ->
   eachBlock hasBullet (model st) -> eachBlock hasBullet (model (step_ st ev)))
  /\ (is_import ev = false -> is_delete_heading ev = false ->
      eachCategory hasBlock (model st) ->
      eachCategory hasBlock (model (step_ st ev)))
  /\ (eachCategory hasBlock (model (initial uid_at))
      /\ eachBlock hasBullet (model (initial uid_at)))
  /\ (forall (ci : nat) (cat : Category) (block : Block),
        Model.categories (model st) !! ci = Some cat ->
        Category.blocks cat = [block] ->
        exists cat',
          Model.categories (model (onDeleteHeading ci 0 true st)) !! ci
          = Some cat'
          /\ Category.blocks cat' = [])
  /\ (forall (obj : value) (m : Model) (n' : nat) (i : nat) (c : Category),
        importModel NumberToString StringToNumber uid_at obj (uidCount st)
        = (Some m, n') ->
        Model.categories m !! i = Some c ->
        let sc := payloadCategory (arrayOrEmpty (getp obj "categories")) i in
        (isArray (getp sc "blocks") = false ->
         exists id, Category.blocks c = [freshBlock (Some (Fin 0.3)) id])
        /\ (forall (items : list value) (j : nat) (b : Block),
              getp sc "blocks" = VArr items ->
              Category.blocks c !! j = Some b ->
              exists sb,
                items !! j = Some sb
                /\ (isArray (getp sb "bullets") = false ->
                    Block.bullets b = [""%string]))).
Proof.
  split; [apply step_bullets|]. split; [apply step_blocks|].
  split; [|split].
  - split.
    + unfold eachCategory, hasBlock. cbn. repeat constructor; discriminate.
    + unfold eachBlock, eachCategory, hasBullet. cbn.
      repeat constructor; discriminate.
  - intros ci cat block Hci Hb. unfold onDeleteHeading, alter_cat.
    rewrite Hci, Hb. cbn [lookup list_lookup negb model Model.categories
                          Model.set_categories].
    rewrite list_lookup_alter_eq, Hci. cbn. eexists. split; [reflexivity|].
    cbn. rewrite Hb. cbn. now rewrite String.eqb_refl.
  - intros obj m n' i c E Hi sc.
    apply importModel_category in E as [_ Hcat].
    destruct (Hcat i c Hi) as (dc & k & k' & _ & Hf).
    apply importCategory_inv in Hf as (_ & _ & _ & Hb). fold sc in Hb.
    split.
    + intros Harr. destruct (getp sc "blocks"); try exact Hb. discriminate.
    + intros items j b Eb Hj. rewrite Eb in Hb. destruct Hb as [_ Hb].
      destruct (Hb j b Hj) as (sb & id & Hsb & _ & ->).
      exists sb. split; [exact Hsb|].
      intros Harr. cbn. destruct (getp sb "bullets"); try reflexivity.
      discriminate.
Qed.


End Headings.

(** ** Spine anchors and the bones of a side *)

Lemma of_nat_Fin (n : nat) : of_nat n = Fin (inject_Z (Z.of_nat n)).
Proof. reflexivity. Qed.

Lemma inject_nat_lt (i j : nat) :
  (i < j)%nat -> inject_Z (Z.of_nat i) < inject_Z (Z.of_nat j).
Proof. intros H. rewrite <- Zlt_Qlt. lia. Qed.

(** The anchors of [n >= 2] categories on a finite band. *)
Lemma spineAnchors_Fin (n : nat) (a b : Q) :
  (2 <= n)%nat ->
  spineAnchors n (Fin a) (Fin b)
  = List.map
      (fun i => Fin (a + inject_Z (Z.of_nat i)
                         * ((b - a) / (inject_Z (Z.of_nat n) - 1))))
      (seq 0 n).
Proof.
  intros Hn. unfold spineAnchors.
  destruct (Nat.leb_spec n 1); [lia|].
  rewrite of_nat_Fin. cbn [sub].
  rewrite div_Fin; [reflexivity|].
  pose proof (inject_nat_lt 1 n ltac:(lia)) as Hlt.
  change (inject_Z (Z.of_nat 1)) with 1 in Hlt. lra.
Qed.

Lemma nth_map_seq {A : Type} (f : nat -> A) (d : A) (s n i : nat) :
  (i < n)%nat -> nth i (List.map f (seq s n)) d = f (s + i)%nat.
Proof.
  revert s i. induction n as [|n IH]; intros s i Hi; [lia|].
  destruct i as [|i]; cbn.
  - now rewrite Nat.add_0_r.
  - rewrite IH by lia. f_equal. lia.
Qed.

Lemma spineAnchors_lookup (n : nat) (a b : Q) (i : nat) :
  (2 <= n)%nat -> (i < n)%nat ->
  nth i (spineAnchors n (Fin a) (Fin b)) NaN
  = Fin (a + inject_Z (Z.of_nat i) * ((b - a) / (inject_Z (Z.of_nat n) - 1))).
Proof.
  intros Hn Hi. rewrite spineAnchors_Fin by exact Hn.
  now rewrite nth_map_seq by exact Hi.
Qed.

(** Two anchors of a band that is not reduced to a point differ. *)
Lemma anchors_differ (n : nat) (a b : Q) (i j : nat) :
  ~ a == b -> (i < j)%nat -> (j < n)%nat ->
  ~ a + inject_Z (Z.of_nat i) * ((b - a) / (inject_Z (Z.of_nat n) - 1))
    == a + inject_Z (Z.of_nat j) * ((b - a) / (inject_Z (Z.of_nat n) - 1)).
Proof.
  intros Hab Hij Hjn E.
  pose proof (inject_nat_lt i j Hij) as Hlt.
  pose proof (inject_nat_lt 1 n ltac:(lia)) as Hn.
  change (inject_Z (Z.of_nat 1)) with 1 in Hn.
  set (qi := inject_Z (Z.of_nat i)) in *.
  set (qj := inject_Z (Z.of_nat j)) in *.
  set (qn := inject_Z (Z.of_nat n)) in *.
  assert (Hs : ~ (b - a) / (qn - 1) == 0).
  { intros Hz. apply Hab.
    assert (Hd : (b - a) == (b - a) / (qn - 1) * (qn - 1)) by (field; lra).
    rewrite Hz in Hd. lra. }
  apply Hs.
  assert (Hm : (qj - qi) * ((b - a) / (qn - 1)) == 0) by lra.
  apply Qmult_integral in Hm as [Hm | Hm]; [lra | exact Hm].
Qed.

(** The edge abscissa of a bone is a finite number, monotone in the
    anchor. *)
Lemma xEdge_mono (xi xj sl : Q) :
  xi <= xj ->
  exists ei ej : Q,
    clamp (Fin xi - Fin sl)%num (Fin 90) (Fin W - Fin 40)%num = Fin ei
    /\ clamp (Fin xj - Fin sl)%num (Fin 90) (Fin W - Fin 40)%num = Fin ej
    /\ ei <= ej.
Proof.
  intros Hle. cbn [sub].
  assert (Hb : 90 < W - 40) by qconst.
  destruct (clamp_Fin_cases (xi - sl) 90 (W - 40) Hb)
    as [(H1 & ->)|[(H1 & H2 & ->)|(H1 & ->)]];
  destruct (clamp_Fin_cases (xj - sl) 90 (W - 40) Hb)
    as [(G1 & ->)|[(G1 & G2 & ->)|(G1 & ->)]];
    do 2 eexists; (split; [reflexivity|split; [reflexivity|]]); lra.
Qed.

(** Two bones of a side anchored at different finite points have no
    common point but, when both edges are clamped to the same abscissa,
    their common edge point. *)
Lemma bones_meet_at_tip_only (xi xj sl yE : Q) (sd : Side) (P : Point) :
  xi < xj -> ~ yE == 360 ->
  let bi := categoryBone (Fin xi) (Fin sl) (Fin yE) sd in
  let bj := categoryBone (Fin xj) (Fin sl) (Fin yE) sd in
  on_bone P bi -> on_bone P bj ->
  point_eq P (edgePoint bi) /\ point_eq P (edgePoint bj).
Proof.
  intros Hlt Hy bi bj (s & Hs0 & Hs1 & Hix & Hiy) (s' & Hs0' & Hs1' & Hjx & Hjy).
  destruct (xEdge_mono xi xj sl ltac:(lra)) as (ei & ej & Ei & Ej & Hle).
  unfold bi, bj, categoryBone, pointOnBone, edgePoint, point_eq in *.
  cbn [Bone.xSpine Bone.ySpine Bone.xEdge Bone.yEdge Point.x Point.y] in *.
  rewrite Ei in *. rewrite Ej in *. rewrite midY_val in *.
  destruct P as [[ | | |px] [ | | |py]]; cbn in Hix, Hiy, Hjx, Hjy;
    try contradiction.
  cbn.
  assert (Hss : s == s').
  { assert (Hm : (s - s') * (yE - 360) == 0) by lra.
    apply Qmult_integral in Hm as [Hm | Hm]; [lra | ].
    exfalso. apply Hy. lra. }
  rewrite <- Hss in Hjx, Hjy.
  assert (Hsum : (1 - s) * (xj - xi) + s * (ej - ei) == 0) by lra.
  assert (H1 : 0 <= (1 - s) * (xj - xi)) by (apply Qmult_le_0_compat; lra).
  assert (H2 : 0 <= s * (ej - ei)) by (apply Qmult_le_0_compat; lra).
  assert (Hz1 : (1 - s) * (xj - xi) == 0) by lra.
  assert (Hz2 : s * (ej - ei) == 0) by lra.
  apply Qmult_integral in Hz1 as [Hz1 | Hz1]; [|lra].
  assert (Hs : s == 1) by lra.
  rewrite Hs in Hz2, Hix, Hiy, Hjx, Hjy.
  repeat split; lra.
Qed.

Section Bones.

Variable NumberToString : num -> string.
Variable StringToNumber : string -> num.

Let sideBoneSets_ := sideBoneSets NumberToString StringToNumber.
Let anchorsOf_ := anchorsOf NumberToString StringToNumber.
Let slantOf_ := slantOf NumberToString StringToNumber.
Let arrowW_ := arrowW NumberToString StringToNumber.

(** On a band that is not reduced to a point, with a finite slant, two
    bones of a side have no common point but a common edge point. *)
Lemma side_bones_meet_at_tip_only (m : Model) (w sl : Q) (sd : Side)
    (i j : nat) (ki kj : string) (bi bj : Bone) (P : Point) :
  arrowW_ m = Fin w -> ~ w == 870 -> slantOf_ m = Fin sl ->
  i <> j ->
  sideBoneSets_ m sd !! i = Some (ki, bi) ->
  sideBoneSets_ m sd !! j = Some (kj, bj) ->
  on_bone P bi -> on_bone P bj ->
  point_eq P (edgePoint bi) /\ point_eq P (edgePoint bj)
  /\ Bone.xEdge bi ≈ Bone.xEdge bj.
Proof.
  intros Hw Hw870 Hsl Hij Hi Hj HPi HPj.
  unfold sideBoneSets_, sideBoneSets in Hi, Hj.
  rewrite boneSets_lookup in Hi, Hj. cbn [Nat.add] in Hi, Hj.
  unfold slantOf_ in Hsl. unfold arrowW_ in Hw.
  unfold anchorsOf, spineEnd in Hi, Hj. rewrite Hsl, Hw in Hi, Hj.
  destruct (catsBySide m sd !! i) as [ci|] eqn:Eci; [|discriminate].
  destruct (catsBySide m sd !! j) as [cj|] eqn:Ecj; [|discriminate].
  apply lookup_lt_Some in Eci, Ecj.
  cbn [fmap option_fmap option_map] in Hi, Hj.
  inversion Hi; subst ki bi. inversion Hj; subst kj bj.
  clear Hi Hj.
  set (n := length (catsBySide m sd)) in *.
  change (spineStart + Fin 140)%num with (Fin (160 + 140)) in *.
  change (Fin W - Fin w - Fin 30)%num with (Fin (W - w - 30)) in *.
  assert (Hn : (2 <= n)%nat) by lia.
  rewrite (spineAnchors_lookup n _ _ i) in HPi by assumption.
  rewrite (spineAnchors_lookup n _ _ j) in HPj by assumption.
  rewrite (spineAnchors_lookup n _ _ i), (spineAnchors_lookup n _ _ j)
    by assumption.
  assert (Hab : ~ 160 + 140 == W - w - 30).
  { intros E. apply Hw870. unfold W in E. lra. }
  assert (Hy : exists yE : Q, yEdgeOf sd = Fin yE /\ ~ yE == 360).
  { destruct sd; [exists 70 | exists (H - 70)]; split; try reflexivity; qconst. }
  destruct Hy as (yE & EyE & HyE). rewrite EyE in *.
  set (step := (W - w - 30 - (160 + 140)) / (inject_Z (Z.of_nat n) - 1)) in *.
  set (xi := 160 + 140 + inject_Z (Z.of_nat i) * step) in *.
  set (xj := 160 + 140 + inject_Z (Z.of_nat j) * step) in *.
  assert (Hne : ~ xi == xj).
  { destruct (Nat.lt_total i j) as [Hlt | [-> | Hlt]]; [|contradiction|].
    - now apply anchors_differ.
    - intros E. apply (anchors_differ n _ _ j i Hab Hlt); [assumption|].
      symmetry. exact E. }
  assert (Hmeet : point_eq P (edgePoint (categoryBone (Fin xi) (Fin sl) (Fin yE) sd))
                  /\ point_eq P (edgePoint (categoryBone (Fin xj) (Fin sl) (Fin yE) sd))).
  { destruct (Q_dec xi xj) as [[Hlt | Hgt] | E]; [| |contradiction].
    - now apply bones_meet_at_tip_only.
    - apply and_comm. now apply bones_meet_at_tip_only. }
  destruct Hmeet as [Hpi Hpj]. split; [exact Hpi|]. split; [exact Hpj|].
  destruct Hpi as [Hxi _], Hpj as [Hxj _]. cbn [edgePoint Point.x] in Hxi, Hxj.
  eapply num_eq_trans; [apply num_eq_sym; exact Hxi | exact Hxj].
Qed.

(** C9. On a finite band the [n >= 2] anchors run from the start of the
    band to its end in equal steps, a single anchor is the middle of the
    band, and [drawStaticBones] gives anchor [j] to category [j] of the
    side, in the declared order.  The bones are computed from the model
    alone.  For a finite arrow width other than 870 (a band not reduced to
    a point) and a finite slant, the bones of two categories of a side
    have no common point, except that two bones whose edge is clamped to
    the same abscissa meet at that common edge point; with the default
    arrow width and slant and three categories on the side they have no
    common point at all.  When the ids of the categories differ, the bone
    of each category is the one found in [catBones]. *)
Theorem C9_even_anchors_bones_meet_at_tip_only (m : Model) :
  (forall (n : nat) (a b : Q),
      (2 <= n)%nat ->
      let step := (b - a) / (inject_Z (Z.of_nat n) - 1) in
      length (spineAnchors n (Fin a) (Fin b)) = n
      /\ (forall i, (i < n)%nat ->
            nth i (spineAnchors n (Fin a) (Fin b)) NaN
            = Fin (a + inject_Z (Z.of_nat i) * step))
      /\ nth 0 (spineAnchors n (Fin a) (Fin b)) NaN ≈ Fin a
      /\ nth (n - 1) (spineAnchors n (Fin a) (Fin b)) NaN ≈ Fin b)
  /\ (forall (n : nat) (a b : Q),
        (n <= 1)%nat -> spineAnchors n (Fin a) (Fin b) = [Fin ((a + b) / 2)])
  /\ (forall (sd : Side) (j : nat) (cat : Category),
        catsBySide m sd !! j = Some cat ->
        sideBoneSets_ m sd !! j
        = Some (Category.id cat,
                categoryBone (nth j (anchorsOf_ m sd) NaN) (slantOf_ m)
                  (yEdgeOf sd) sd))
  /\ (forall (w sl : Q) (sd : Side) (i j : nat) (ki kj : string)
             (bi bj : Bone) (P : Point),
        arrowW_ m = Fin w -> ~ w == 870 -> slantOf_ m = Fin sl ->
        i <> j ->
        sideBoneSets_ m sd !! i = Some (ki, bi) ->
        sideBoneSets_ m sd !! j = Some (kj, bj) ->
        on_bone P bi -> on_bone P bj ->
        point_eq P (edgePoint bi) /\ point_eq P (edgePoint bj)
        /\ Bone.xEdge bi ≈ Bone.xEdge bj)
  /\ (forall (sd : Side) (j : nat) (cat : Category),
        List.NoDup
          (List.map fst (allBoneSets NumberToString StringToNumber m)) ->
        catsBySide m sd !! j = Some cat ->
        drawStaticBones NumberToString StringToNumber m !! Category.id cat
        = Some (categoryBone (nth j (anchorsOf_ m sd) NaN) (slantOf_ m)
                  (yEdgeOf sd) sd))
  /\ (forall (sd : Side) (i j : nat) (ki kj : string) (bi bj : Bone)
             (P : Point),
        arrowW_ m = Fin 140 -> slantOf_ m = Fin (120 + 120) ->
        length (catsBySide m sd) = 3%nat ->
        i <> j ->
        sideBoneSets_ m sd !! i = Some (ki, bi) ->
        sideBoneSets_ m sd !! j = Some (kj, bj) ->
        on_bone P bi -> ~ on_bone P bj).
Proof.
  split; [|split; [|split; [|split; [|split]]]].
  - intros n a b Hn step. split; [|split; [|split]].
    + rewrite spineAnchors_Fin by exact Hn.
      now rewrite length_map, length_seq.
    + intros i Hi. now apply spineAnchors_lookup.
    + rewrite spineAnchors_lookup by lia. cbn. ring.
    + rewrite spineAnchors_lookup by lia. unfold num_eq.
      assert (E : inject_Z (Z.of_nat (n - 1)) == inject_Z (Z.of_nat n) - 1).
      { replace (Z.of_nat (n - 1)) with (Z.of_nat n + -1)%Z by lia.
        rewrite inject_Z_plus. reflexivity. }
      rewrite E.
      pose proof (inject_nat_lt 1 n ltac:(lia)) as Hlt.
      change (inject_Z (Z.of_nat 1)) with 1 in Hlt.
      field. lra.
  - intros n a b Hn. unfold spineAnchors.
    destruct (Nat.leb_spec n 1); [|lia]. cbn. reflexivity.
  - intros sd j cat Hj. unfold sideBoneSets_, sideBoneSets.
    rewrite boneSets_lookup, Hj. reflexivity.
  - intros w sl sd i j ki kj bi bj P. apply side_bones_meet_at_tip_only.
  - intros sd j cat Hnd Hj. unfold drawStaticBones.
    apply fold_insert_nodup; [exact Hnd|].
    assert (Hin : In (Category.id cat,
                      categoryBone (nth j (anchorsOf_ m sd) NaN) (slantOf_ m)
                        (yEdgeOf sd) sd)
                    (sideBoneSets NumberToString StringToNumber m sd)).
    { apply list_elem_of_In. apply (list_elem_of_lookup_2 _ j).
      unfold sideBoneSets. rewrite boneSets_lookup, Hj. reflexivity. }
    unfold allBoneSets. apply in_app_iff. destruct sd; auto.
  - intros sd i j ki kj bi bj P Hw Hsl Hlen Hij Hi Hj HPi HPj.
    assert (Hw870 : ~ 140 == 870) by qconst.
    destruct (side_bones_meet_at_tip_only m 140 (120 + 120) sd i j ki kj bi bj P
                Hw Hw870 Hsl Hij Hi Hj HPi HPj) as (_ & _ & Hx).
    unfold sideBoneSets_, sideBoneSets in Hi, Hj.
    rewrite boneSets_lookup in Hi, Hj. cbn [Nat.add] in Hi, Hj.
    unfold slantOf_ in Hsl. unfold arrowW_ in Hw.
    unfold anchorsOf, spineEnd in Hi, Hj. rewrite Hsl, Hw, Hlen in Hi, Hj.
    destruct (catsBySide m sd !! i) as [ci|] eqn:Eci; [|discriminate].
    destruct (catsBySide m sd !! j) as [cj|] eqn:Ecj; [|discriminate].
    apply lookup_lt_Some in Eci, Ecj. rewrite Hlen in Eci, Ecj.
    cbn [fmap option_fmap option_map] in Hi, Hj.
    inversion Hi; subst ki bi. inversion Hj; subst kj bj. clear Hi Hj.
    destruct i as [|[|[|i]]]; try lia;
      destruct j as [|[|[|j]]]; try lia; try contradiction;
      revert Hx; qconst.
Qed.

End Bones.

(** * The properties on concrete inputs *)

Import Examples.

(** On the upper left bone of the default diagram, from (300, 360) to
    (90, 70), the point of parameter 1/4 is (247.5, 287.5): it projects to
    1/4 and back to itself, the spine end to 0 and the edge end to 1. *)
Lemma C1_witness :
  let P := Point.mk (Fin (300 + 0.25 * (90 - 300)))
             (Fin (360 + 0.25 * (70 - 360))) in
  point_eq P (Point.mk (Fin 247.5) (Fin 287.5))
  /\ point_eq (pointOnBone bone0 (Fin 0.25)) P
  /\ projectT P (spinePoint bone0) (edgePoint bone0) ≈ Fin 0.25
  /\ point_eq
       (pointOnBone bone0 (projectT P (spinePoint bone0) (edgePoint bone0))) P
  /\ projectT (spinePoint bone0) (spinePoint bone0) (edgePoint bone0) ≈ Fin 0
  /\ projectT (edgePoint bone0) (spinePoint bone0) (edgePoint bone0) ≈ Fin 1.
Proof.
  cbn zeta. split; [split; qconst|].
  apply (C1_projectT_inverts_pointOnBone 300 360 90 70 0.25 top).
  qconst.
Defined.

(** In the binary64 arithmetic of the processor the identities of C1 are
    not exact, and fail for a bone that [drawStaticBones] builds: the
    bone point of 0.26 on the upper left bone of the default diagram
    projects to 0.25999999999999995; and on the bone from (-1e200, 360) to
    (90, 70), the third upper bone for [arrowWidth = 1e200], whose squared
    length is not below [1e-6], the edge point projects to [NaN], not to
    1. *)
Lemma C1_counterexample :
  F64.builtBone0 = F64.bone0
  /\ F64.builtOverflowBone = F64.overflowBone
  /\ PrimFloat.eqb
    (F64.projectT (F64.pointOnBone F64.bone0 F64.t026)
       (F64.spinePoint F64.bone0) (F64.edgePoint F64.bone0))
    F64.t026 = false
  /\ PrimFloat.ltb
       (F64.denom (F64.spinePoint F64.overflowBone)
          (F64.edgePoint F64.overflowBone))
       F64.epsilon = false
  /\ PrimFloat.is_nan
       (F64.projectT (F64.edgePoint F64.overflowBone)
          (F64.spinePoint F64.overflowBone) (F64.edgePoint F64.overflowBone))
     = true.
Proof. repeat split; vm_compute; reflexivity. Qed.

(** On the six bones of the default diagram the doubles stay within
    [2^-50] of the identity, for the bone points of the fractions
    [k / 100]. *)
Example round_trip_in_doubles_runs :
  forallb
    (fun bone =>
       forallb
         (fun t =>
            F64.close
              (F64.projectT (F64.pointOnBone bone t) (F64.spinePoint bone)
                 (F64.edgePoint bone))
              t)
         F64.hundredths)
    F64.defaultBones
  = true.
Proof. vm_compute. reflexivity. Qed.

(** A block stored at 0.4 on the upper left bone of the default
    diagram, under a wrapper of 600 by 360 pixels at (10, 20): pressed at
    the pixel (118, 142), over the bone point (216, 244) of 0.4, and moved
    to the pixel (97, 113), over the bone point (174, 186) of 0.6, it is
    stored at 0.6. *)
Lemma C4_witness :
  let wrapRect := Rect.mk (Fin 10) (Fin 20) (Fin 600) (Fin 360) in
  exists b',
    findBlock
      (model (onDragMove (PointerEvent.mk (Fin 97) (Fin 113) 1) wrapRect
                (startDrag "id12" "id24" 1
                   (PointerEvent.mk (Fin 118) (Fin 142) 1) wrapRect
                   stored04)))
      "id12" "id24" = Some b'
    /\ Block.t b' ≈ Fin 0.6.
Proof.
  cbn zeta.
  refine (proj2 (proj2 (proj2
            (C4_drag_is_offset_corrected stored04 "id12" "id24" 1
               (Block.mk "id24" "" [""%string] (Fin 0.4) None)
               (Bone.mk (Fin (600 # 2)) (Fin 360) (Fin 90) (Fin 70) top)
               (PointerEvent.mk (Fin 118) (Fin 142) 1)
               (PointerEvent.mk (Fin 97) (Fin 113) 1)
               (Rect.mk (Fin 10) (Fin 20) (Fin 600) (Fin 360))
               (Rect.mk (Fin 10) (Fin 20) (Fin 600) (Fin 360))
               _ _)))
            (600 # 2) 360 90 70 top 10 20 600 360 10 20 600 360
            _ _ _ _ _ _ _ _ _ _ _ _ _).
  - vm_compute. reflexivity.
  - vm_compute. reflexivity.
  - reflexivity.
  - qconst.
  - reflexivity.
  - qconst.
  - qconst.
  - reflexivity.
  - qconst.
  - qconst.
  - qconst.
  - qconst.
  - qconst.
  - qconst.
  - qconst.
Defined.

(** Two drags that do not store what C4 says.  After the import of
    [{"categories":[{"blocks":[{"t":{}}]}]}] the first block is stored at
    [NaN]; pressed at (216, 244) it gets the offset [NaN], and moved to
    (174, 186) it is stored at 0.6, the clamped projection of the pointer,
    where [clamp(projectT(pointer) + tOffset, 0.08, 0.92)] is [NaN].  And in
    the binary64 arithmetic of the processor, on the bone from (665, 360)
    to (424, 650), the lower middle bone for [boneSlant = 121], a block
    stored at 0.4, pressed at the bone point of 0.4 and moved to the bone
    point of 0.6, both mapped to themselves by the wrapper, is stored at
    0.6000000000000001, the double next above 0.6. *)
Lemma C4_counterexample :
  (let st1 :=
     Strict.sample_run Sample.initial
       [EvImport (Some (payloadWithT (VObj []))); EvFrame;
        EvPointerDown 0 0 (pointerAt 216 244) unitRect] in
   let e1 := pointerAt 174 186 in
   let st2 := Strict.sample_step st1 (EvPointerMove e1 unitRect) in
   firstT (model st1) = Some NaN
   /\ drag st1 = Some (Drag.mk "id12" "id24" 1 NaN)
   /\ exists (bone : Bone) (q : Q),
        catBones st1 !! "id12"%string = Some bone
        /\ point_eq (spinePoint bone) (spinePoint bone0)
        /\ point_eq (edgePoint bone) (edgePoint bone0)
        /\ firstT (model st2) = Some (Fin q) /\ q == 0.6
        /\ clamp (projectT (pointerToSvg e1 unitRect) (spinePoint bone)
                    (edgePoint bone) + NaN)%num tMin tMax
           = NaN)
  /\ (let p0 := F64.pointOnBone F64.slantBone F64.t04 in
      let p1 := F64.pointOnBone F64.slantBone F64.t06 in
      F64.builtSlantBone = F64.slantBone
      /\ F64.pointerToSvg (F64.x p0) (F64.y p0) F64.unitRect = p0
      /\ F64.pointerToSvg (F64.x p1) (F64.y p1) F64.unitRect = p1
      /\ PrimFloat.eqb (F64.dragged F64.slantBone F64.t04 p0 p1) F64.t06
         = false
      /\ PrimFloat.eqb (F64.dragged F64.slantBone F64.t04 p0 p1)
           (PrimFloat.next_up F64.t06)
         = true).
Proof.
  split; cbn zeta.
  - split; [reflexivity|]. split; [vm_compute; reflexivity|].
    eexists _, _. split; [vm_compute; reflexivity|].
    split; [split; qconst|]. split; [split; qconst|].
    split; [vm_compute; reflexivity|]. split; [qconst|reflexivity].
  - repeat split; vm_compute; reflexivity.
Qed.

(** The payload of four categories is imported as six: the labels, the
    titles and the fractions that it gives are kept, its [side] is not
    read, and the two last positions keep the default labels. *)
Lemma C5_witness :
  exists m n',
    Strict.importModel Sample.NumberToString Sample.StringToNumber
      Sample.uid_at payloadFour 0%nat = (Some m, n')
    /\ List.map Category.side (Model.categories m) = sixSides
    /\ List.map Category.label (Model.categories m)
       = ["Staff"; "Process"; "Tools"; "Parts"; "Measurement"; "Environment"]%string
    /\ List.map (fun c => List.map Block.title (Category.blocks c))
         (Model.categories m)
       = [[""]; ["Late"; "Lost"]; [""]; [""]; [""]; [""]]%string
    /\ List.map (fun c => List.map Block.bullets (Category.blocks c))
         (Model.categories m)
       = [[[""]]; [[""]; [""]]; [[""]]; [[""]]; [[""]]; [[""]]]%string
    /\ List.map (fun c => List.map Block.t (Category.blocks c))
         (Model.categories m)
       = [[Fin 0.3]; [Fin 0.5; Fin 0.7]; [Fin 0.3]; [Fin 0.3]; [Fin 0.3];
          [Fin 0.3]].
Proof.
  destruct (Strict.importModel Sample.NumberToString Sample.StringToNumber
              Sample.uid_at payloadFour 0%nat) as [[m|] n'] eqn:E.
  - exists m, n'. split; [reflexivity|]. split.
    + exact (proj1 (C5_import_fixes_six_categories _ _ _ _ _ _ _ E)).
    + vm_compute in E. inversion E. repeat split; reflexivity.
  - vm_compute in E. discriminate E.
Defined.

(** The two last categories of the import of the payload of four do not
    come from the default model as a whole: position 4 has the id and the
    label of the default model, but its block is a new one stored at 0.3,
    where the block of the default model is stored at 0.36. *)
Lemma C5_counterexample :
  exists (m : Model) (n' : nat) (c dc : Category),
    Strict.importModel Sample.NumberToString Sample.StringToNumber
      Sample.uid_at payloadFour 0%nat = (Some m, n')
    /\ length (arrayOrEmpty (getp payloadFour "categories")) = 4%nat
    /\ Model.categories m !! 4%nat = Some c
    /\ Model.categories (fst (defaultModel Sample.uid_at 0%nat)) !! 4%nat = Some dc
    /\ Category.id c = Category.id dc
    /\ Category.label c = Category.label dc
    /\ List.map Block.t (Category.blocks dc) = [Fin 0.36]
    /\ List.map Block.t (Category.blocks c) = [Fin 0.3]
    /\ Category.blocks c <> Category.blocks dc.
Proof.
  eexists _, _, _, _.
  split; [vm_compute; reflexivity|]. split; [reflexivity|].
  split; [reflexivity|]. split; [reflexivity|].
  split; [reflexivity|]. split; [reflexivity|].
  split; [reflexivity|]. split; [reflexivity|].
  intros E. apply (f_equal (List.map Block.t)) in E. discriminate E.
Qed.


(** Deleting the only heading of the first category leaves it with no
    block; importing a category whose [blocks] array is empty gives it no
    block, and importing a block whose [bullets] array is empty gives it no
    bullet. *)
Lemma C8_counterexample :
  eachCategory hasBlock (model Sample.ready)
  /\ ~ eachCategory hasBlock
         (model (Sample.step Sample.ready (EvDeleteHeading 0 0 true)))
  /\ ~ eachCategory hasBlock
         (model (Sample.step Sample.ready (EvImport (Some payloadNoBlocks))))
  /\ ~ eachBlock hasBullet
         (model (Sample.step Sample.ready (EvImport (Some payloadNoBullets)))).
Proof.
  split; [|split; [|split]].
  - unfold eachCategory, hasBlock. vm_compute. repeat constructor; discriminate.
  - intros H. apply Forall_inv in H. apply H. reflexivity.
  - intros H. apply Forall_inv in H. apply H. reflexivity.
  - intros H. apply Forall_inv in H. apply Forall_inv in H. apply H. reflexivity.
Qed.

(** With an arrow of width 870 the band is reduced to the abscissa 300
    and the bones of the first two upper categories are one and the same
    segment; with a slant of 480 the edges of these two bones are both
    clamped to the abscissa 90 and the bones meet at (90, 70). *)
Lemma C9_counterexample :
  (let st := withAppearance "arrowWidth" 870 in
   exists (c1 c2 : Category) (b1 b2 : Bone) (P : Point),
     Model.categories (model st) !! 0%nat = Some c1
     /\ Model.categories (model st) !! 1%nat = Some c2
     /\ Category.side c1 = Category.side c2
     /\ Category.id c1 <> Category.id c2
     /\ catBones st !! Category.id c1 = Some b1
     /\ catBones st !! Category.id c2 = Some b2
     /\ b1 = b2
     /\ on_bone P b1 /\ on_bone P b2
     /\ ~ point_eq P (edgePoint b1))
  /\ (let st := withAppearance "boneSlant" 480 in
      exists (c1 c2 : Category) (b1 b2 : Bone) (P : Point),
        Model.categories (model st) !! 0%nat = Some c1
        /\ Model.categories (model st) !! 1%nat = Some c2
        /\ Category.side c1 = Category.side c2
        /\ Category.id c1 <> Category.id c2
        /\ catBones st !! Category.id c1 = Some b1
        /\ catBones st !! Category.id c2 = Some b2
        /\ on_bone P b1 /\ on_bone P b2).
Proof.
  split; cbn zeta.
  - eexists _, _, _, _, (Point.mk (Fin 300) (Fin 360)).
    split; [vm_compute; reflexivity|]. split; [vm_compute; reflexivity|].
    split; [reflexivity|]. split; [discriminate|].
    split; [vm_compute; reflexivity|]. split; [vm_compute; reflexivity|].
    split; [reflexivity|].
    assert (Hon : on_bone (Point.mk (Fin 300) (Fin 360))
                    (Bone.mk (Fin (600 # 2)) (Fin 360) (Fin 90) (Fin 70) top)).
    { exists 0. repeat split; qconst. }
    split; [exact Hon|]. split; [exact Hon|].
    intros [Hx _]. revert Hx. qconst.
  - eexists _, _, _, _, (Point.mk (Fin 90) (Fin 70)).
    split; [vm_compute; reflexivity|]. split; [vm_compute; reflexivity|].
    split; [reflexivity|]. split; [discriminate|].
    split; [vm_compute; reflexivity|]. split; [vm_compute; reflexivity|].
    split; exists 1; repeat split; qconst.
Qed.

(** ** The editor run on the examples *)

(** The drag from 0.4 to 0.6 by running the handlers: press on the grab
    handle at (216, 244), move to (174, 186), release. *)
Example drag_04_to_06_runs :
  exists q : Q,
    firstT (model (Sample.run stored04
                     [EvPointerDown 0 0 (pointerAt 216 244) unitRect;
                      EvPointerMove (pointerAt 174 186) unitRect;
                      EvPointerUp]))
    = Some (Fin q)
    /\ q == 0.6.
Proof. eexists. split; [vm_compute; reflexivity | qconst]. Qed.

(** A pointer dragged far beyond the edge end stores the upper bound. *)
Example drag_beyond_edge_runs :
  firstT (model (Sample.run stored04
                   [EvPointerDown 0 0 (pointerAt 216 244) unitRect;
                    EvPointerMove (pointerAt 0 0) unitRect]))
  = Some (Fin 0.92).
Proof. reflexivity. Qed.

(** An infinite [t] (the JSON number [1e999]) is stored at the upper
    bound; a [t] that is a text without a numeral is stored as [NaN]. *)
Example import_infinite_t_runs :
  firstT (model (Sample.run Sample.ready
                   [EvImport (Some (payloadWithT (VNum PosInf)))]))
  = Some (Fin 0.92).
Proof. reflexivity. Qed.

Example import_text_t_runs :
  firstT (model (Sample.run Sample.ready
                   [EvImport (Some (payloadWithT (VStr "abc")))]))
  = Some NaN.
Proof. reflexivity. Qed.

(** The anchors of the default diagram: 300, 665 and 1030. *)
Example default_anchors_run :
  Forall2 num_eq
    (anchorsOf Sample.NumberToString Sample.StringToNumber
       (model Sample.ready) top)
    [Fin 300; Fin 665; Fin 1030].
Proof. repeat constructor; qconst. Qed.

(** A text that does not parse and the payload [null] are both answered
    with the notice. *)
Example rejected_imports_run :
  alerts (Sample.run Sample.ready [EvImport None; EvImport (Some VNull)])
  = [importNotice; importNotice].
Proof. reflexivity. Qed.

(** * Further properties of the editor *)

Import Layout.

(** ** Clamping, in general *)

(** For a finite argument and finite bounds [clamp] returns a finite
    number, never below the lower bound, and not above the upper bound
    unless the bounds are crossed, in which case it is the lower bound. *)
Lemma clamp_Fin_bounds (q lo hi : Q) :
  exists r : Q,
    clamp (Fin q) (Fin lo) (Fin hi) = Fin r
    /\ lo <= r
    /\ (lo <= hi -> r <= hi)
    /\ (hi < lo -> r = lo)
    /\ (lo <= q -> q <= hi -> r == q).
Proof.
  unfold clamp, Math_min, Math_max.
  destruct (lt (Fin q) (Fin hi)) eqn:E1.
  - apply lt_Fin in E1. destruct (lt (Fin lo) (Fin q)) eqn:E2.
    + apply lt_Fin in E2. exists q.
      repeat split; try reflexivity; try (intros; lra); intros; exfalso; lra.
    + apply lt_Fin_false in E2. exists lo.
      repeat split; try reflexivity; try (intros; lra); intros; exfalso; lra.
  - apply lt_Fin_false in E1. destruct (lt (Fin lo) (Fin hi)) eqn:E2.
    + apply lt_Fin in E2. exists hi.
      repeat split; try reflexivity; try (intros; lra); intros; exfalso; lra.
    + apply lt_Fin_false in E2. exists lo.
      repeat split; try reflexivity; try (intros; lra); intros; exfalso; lra.
Qed.

(** Clamping twice is clamping once. *)
Lemma clamp_idempotent (a : num) (lo hi : Q) :
  lo < hi ->
  clamp (clamp a (Fin lo) (Fin hi)) (Fin lo) (Fin hi)
  = clamp a (Fin lo) (Fin hi).
Proof.
  intros Hlh. apply lt_Fin in Hlh as E.
  assert (En : lt (Fin lo) (Fin lo) = false) by (apply lt_Fin_false; lra).
  assert (Eh : lt (Fin hi) (Fin hi) = false) by (apply lt_Fin_false; lra).
  assert (Ehl : lt (Fin hi) (Fin lo) = false) by (apply lt_Fin_false; lra).
  assert (Hlo : clamp (Fin lo) (Fin lo) (Fin hi) = Fin lo).
  { unfold clamp, Math_min, Math_max. now rewrite E, En. }
  assert (Hhi : clamp (Fin hi) (Fin lo) (Fin hi) = Fin hi).
  { unfold clamp, Math_min, Math_max. now rewrite Eh, E. }
  destruct a as [ | | |q].
  - reflexivity.
  - change (clamp NegInf (Fin lo) (Fin hi)) with (Fin lo). exact Hlo.
  - change (clamp PosInf (Fin lo) (Fin hi)) with (Math_max (Fin lo) (Fin hi)).
    unfold Math_max. rewrite E. exact Hhi.
  - destruct (clamp_Fin_cases q lo hi Hlh)
      as [(H1 & ->)|[(H1 & H2 & Ec)|(H1 & ->)]]; auto.
    rewrite Ec. exact Ec.
Qed.

Lemma tClamped_read (b : Block) : tClamped b -> readT b ≈ Block.t b.
Proof.
  unfold tClamped, readT. intros [-> | Hin]; [reflexivity|].
  destruct (Block.t b) as [ | | |q]; try contradiction. cbn in Hin.
  destruct (clamp_Fin_bounds q tMin tMax) as (r & -> & _ & _ & _ & Hr).
  cbn. apply Hr; tauto.
Qed.

Section Reachable.

Variable NumberToString : num -> string.
Variable StringToNumber : string -> num.
Variable uid_at : nat -> string.

Let run_ := run NumberToString StringToNumber uid_at.

(** X1. After every sequence of events the model has exactly six
    categories: three [top], then three [bottom]. *)
Theorem X1_always_six_categories (evs : list Event) :
  length (Model.categories (model (run_ (initial uid_at) evs))) = 6%nat
  /\ List.map Category.side (Model.categories (model (run_ (initial uid_at) evs)))
     = [top; top; top; bottom; bottom; bottom]
  /\ length (catsBySide (model (run_ (initial uid_at) evs)) top) = 3%nat
  /\ length (catsBySide (model (run_ (initial uid_at) evs)) bottom) = 3%nat.
Proof.
  pose proof (run_sides NumberToString StringToNumber uid_at evs) as Hs.
  unfold sidesFixed, sixSides in Hs. fold run_ in Hs.
  set (cats := Model.categories (model (run_ (initial uid_at) evs))) in *.
  assert (Hlen : length cats = 6%nat).
  { rewrite <- (length_map Category.side), Hs. reflexivity. }
  split; [exact Hlen|]. split; [exact Hs|].
  unfold catsBySide. fold cats.
  destruct cats as [|c0 [|c1 [|c2 [|c3 [|c4 [|c5 [|]]]]]]]; try discriminate Hlen.
  cbn in Hs. injection Hs as H0 H1 H2 H3 H4 H5.
  cbn [List.filter length]. rewrite H0, H1, H2, H3, H4, H5. cbn. split; reflexivity.
Qed.

(** X2. After every sequence of events every stored [t] is a number of
    the band or [NaN], and the clamp that [drawRibs] and [positionBlocks]
    apply when they read it leaves it as it is: a block is drawn where it
    is stored. *)
Theorem X2_read_clamp_is_identity (evs : list Event) :
  eachBlock
    (fun b => readT b ≈ Block.t b
              /\ (Block.t b <> NaN -> in_range tMin tMax (Block.t b)))
    (model (run_ (initial uid_at) evs)).
Proof.
  pose proof (run_tClamped NumberToString StringToNumber uid_at evs) as H.
  unfold eachBlock, eachCategory in *. fold run_ in H.
  eapply Forall_impl; [exact H|]. cbn. intros c Hc.
  eapply Forall_impl; [exact Hc|]. cbn. intros b Hb. split.
  - now apply tClamped_read.
  - intros Hn. destruct Hb as [E | Hin]; [contradiction|exact Hin].
Qed.

End Reachable.

(** ** Where blocks and ribs are put *)

(** Between finite bounds [clamp] returns [NaN] (for [NaN] only) or a
    finite number, never below the lower bound, and not above the upper
    bound unless the bounds are crossed, in which case it is the lower
    bound. *)
Lemma clamp_finite_bounds (v : num) (lo hi : Q) :
  clamp v (Fin lo) (Fin hi) = NaN
  \/ exists r : Q,
       clamp v (Fin lo) (Fin hi) = Fin r
       /\ lo <= r /\ (lo <= hi -> r <= hi) /\ (hi < lo -> r == lo).
Proof.
  destruct v as [ | | |q].
  - left. reflexivity.
  - right. exists lo. split; [reflexivity|].
    repeat split; try (intros; lra).
  - right. change (clamp PosInf (Fin lo) (Fin hi)) with (Math_max (Fin lo) (Fin hi)).
    unfold Math_max. destruct (lt (Fin lo) (Fin hi)) eqn:E.
    + apply lt_Fin in E. exists hi. repeat split; try (intros; lra).
    + apply lt_Fin_false in E. exists lo. repeat split; try (intros; lra).
  - right. destruct (clamp_Fin_bounds q lo hi) as (r & -> & H1 & H2 & H3 & _).
    exists r. repeat split; auto. intros H. rewrite (H3 H). reflexivity.
Qed.

(** The upper bound of the [left] of a block is never below the lower
    one: it is [width - 8 - blockW] for a block that fits between the
    margins, and 8 otherwise. *)
Lemma left_bound (bw w : Q) :
  exists hi : Q,
    (Fin w - Fin 8 - Math_min (Fin bw) (Fin w - Fin 16))%num = Fin hi
    /\ (bw <= w - 16 -> hi == w - 8 - bw)
    /\ (w - 16 < bw -> hi == 8).
Proof.
  cbn [sub]. unfold Math_min. destruct (lt (Fin (w - 16)) (Fin bw)) eqn:E.
  - apply lt_Fin in E. eexists. split; [reflexivity|]. split; intros; lra.
  - apply lt_Fin_false in E. eexists. split; [reflexivity|]. split; intros; lra.
Qed.

(** A finite [left]: it is at least 8, and for a block of finite width
    it leaves the right margin free, or is 8 when the block does not
    fit. *)
Lemma placeLeft_Fin (xPx ribLen blockW : num) (w l : Q) :
  placeLeft xPx ribLen blockW (Fin w) = Fin l ->
  8 <= l
  /\ forall bw : Q,
       blockW = Fin bw ->
       (bw <= w - 16 -> l + bw <= w - 8) /\ (w - 16 < bw -> l == 8).
Proof.
  unfold placeLeft. generalize (xPx - ribLen)%num. intros a Hl.
  destruct blockW as [ | | |bw].
  - exfalso. destruct a; cbn in Hl; discriminate.
  - exfalso. destruct a; cbn in Hl; discriminate.
  - change (Fin w - Fin 8 - Math_min PosInf (Fin w - Fin 16))%num
      with (Fin (w - 8 - (w - 16))) in Hl.
    match type of Hl with clamp ?v _ (Fin ?hi) = _ =>
      destruct (clamp_finite_bounds v 8 hi) as [E|(r & E & H1 & _)] end;
      rewrite E in Hl; [discriminate|].
    injection Hl as <-. split; [exact H1|]. intros bw Hbw. discriminate.
  - destruct (left_bound bw w) as (hi & Ehi & Hfit & Hnot).
    rewrite Ehi in Hl.
    match type of Hl with clamp ?v _ _ = _ =>
      destruct (clamp_finite_bounds v 8 hi) as [E|(r & E & H1 & H2 & H3)] end;
      rewrite E in Hl; [discriminate|].
    injection Hl as <-. split; [exact H1|].
    intros bw' Hbw'. injection Hbw' as <-.
    split; intros Hc.
    + specialize (Hfit Hc). assert (r <= hi) by (apply H2; lra). lra.
    + specialize (Hnot Hc).
      destruct (Qlt_le_dec hi 8) as [Hlt|Hge]; [apply H3, Hlt|].
      assert (r <= hi) by (apply H2, Hge). lra.
Qed.

Section Placement.

Variable NumberToString : num -> string.
Variable StringToNumber : string -> num.

Let positionBlock_ := positionBlock NumberToString StringToNumber.
Let blockW_ := blockW NumberToString StringToNumber.
Let ribLen_ := ribLen NumberToString StringToNumber.
Let drawRibs_ := drawRibs NumberToString StringToNumber.

(** X5. On a wrapper of finite size [positionBlocks] never writes a
    [top] or a finite [left] below 8 pixels.  The [top] is at most
    [height - 120], and it is 8 on a wrapper lower than 128 pixels.  A
    block of finite width that fits between the two margins of 8 pixels
    ends at least 8 pixels before the right edge; one that does not fit is
    put at [left = 8]. *)
Theorem X5_blocks_stay_inside_margins
    (st : State) (wrapRect : Rect) (catId blockId : string)
    (left top_ : num) (w h : Q) :
  positionBlock_ st wrapRect catId blockId = Some (left, top_) ->
  Rect.width wrapRect = Fin w ->
  Rect.height wrapRect = Fin h ->
  (top_ = NaN
   \/ exists r : Q,
        top_ = Fin r /\ 8 <= r
        /\ (128 <= h -> r <= h - 120) /\ (h < 128 -> r == 8))
  /\ forall l : Q,
       left = Fin l ->
       8 <= l
       /\ forall (block : Block) (bw : Q),
            findBlock (model st) catId blockId = Some block ->
            blockW_ (model st) block = Fin bw ->
            (bw <= w - 16 -> l + bw <= w - 8)
            /\ (w - 16 < bw -> l == 8).
Proof.
  unfold positionBlock_, positionBlock, blockW_. intros Hp Hw Hh.
  destruct (findBlock (model st) catId blockId) as [block|] eqn:Hf;
    [|discriminate].
  destruct (catBones st !! catId) as [bone|]; [|discriminate].
  cbv zeta in Hp. injection Hp as Hl Ht. rewrite Hw in Hl. rewrite Hh in Ht.
  split.
  - unfold placeTop in Ht. cbn [sub] in Ht. rewrite <- Ht.
    match goal with |- context [clamp ?v (Fin 8) (Fin ?hi)] =>
      destruct (clamp_finite_bounds v 8 hi) as [E|(r & E & H1 & H2 & H3)] end.
    + left. exact E.
    + right. exists r. split; [exact E|]. split; [exact H1|].
      split; intros; [apply H2|apply H3]; lra.
  - intros l El. rewrite El in Hl.
    destruct (placeLeft_Fin _ _ _ _ _ Hl) as [H8 Hfit]. split; [exact H8|].
    intros block' bw Hb' Hbw. injection Hb' as <-. apply Hfit, Hbw.
Qed.

(** X6. Every rib that [drawRibs] adds belongs to a block of the model
    whose category has a bone.  It is horizontal, [ribLength] long, and
    ends 6 units left of the point of the bone at a parameter between 0.08
    and 0.92, whatever number (but [NaN]) is stored as [t] of the
    block. *)
Theorem X6_ribs_attach_inside_band (st : State) (L : Line) :
  In L (drawRibs_ st) ->
  exists (cat : Category) (block : Block) (bone : Bone),
    In cat (Model.categories (model st))
    /\ In block (Category.blocks cat)
    /\ catBones st !! Category.id cat = Some bone
    /\ Line.y1 L = Line.y2 L
    /\ Line.x1 L = (Line.x2 L - ribLen_ (model st))%num
    /\ (Block.t block <> NaN ->
        exists q : Q,
          tMin <= q /\ q <= tMax
          /\ Line.x2 L = (Point.x (pointOnBone bone (Fin q)) - Fin 6)%num
          /\ Line.y1 L = Point.y (pointOnBone bone (Fin q))).
Proof.
  unfold drawRibs_, drawRibs. intros HL.
  apply in_flat_map in HL as (cat & Hcat & HL).
  destruct (catBones st !! Category.id cat) as [bone|] eqn:Hb; [|destruct HL].
  apply in_map_iff in HL as (block & <- & Hblock).
  exists cat, block, bone. repeat split; auto.
  intros Hn. unfold ribOf, readT. cbv zeta. cbn [Line.x2 Line.y1].
  assert (Hr := clamp_in_range (Block.t block) tMin tMax ltac:(qconst) Hn).
  destruct (clamp (Block.t block) (Fin tMin) (Fin tMax)) as [ | | |q];
    try contradiction.
  exists q. destruct Hr. repeat split; assumption.
Qed.

End Placement.

Lemma X5_witness :
  exists l t : Q,
    positionBlock Sample.NumberToString Sample.StringToNumber Sample.ready
      Examples.unitRect "id0" "id1" = Some (Fin l, Fin t)
    /\ 8 <= l.
Proof.
  eexists _, _. split; [vm_compute; reflexivity|].
  eapply (X5_blocks_stay_inside_margins Sample.NumberToString
            Sample.StringToNumber Sample.ready Examples.unitRect
            "id0" "id1" _ _ 1200 720);
    [vm_compute; reflexivity|reflexivity|reflexivity|reflexivity].
Defined.

Lemma X6_witness :
  exists L : Line,
    In L (drawRibs Sample.NumberToString Sample.StringToNumber Sample.ready)
    /\ Line.y1 L = Line.y2 L.
Proof.
  eexists. split; [left; reflexivity|].
  destruct (X6_ribs_attach_inside_band Sample.NumberToString
              Sample.StringToNumber Sample.ready _ (or_introl eq_refl))
    as (c & b & bn & _ & _ & _ & H & _).
  exact H.
Defined.

(** ** Dragging a block *)

Import Traces.

Lemma set_blocks_set_blocks (x y : list Block) (c : Category) :
  Category.set_blocks x (Category.set_blocks y c) = Category.set_blocks x c.
Proof. reflexivity. Qed.

Lemma set_t_set_t (v v' : num) (b : Block) :
  Block.set_t v (Block.set_t v' b) = Block.set_t v b.
Proof. reflexivity. Qed.


Lemma set_blocks_same (c : Category) :
  Category.set_blocks (Category.blocks c) c = c.
Proof. destruct c; reflexivity. Qed.

Lemma set_categories_same (m : Model) :
  Model.set_categories (Model.categories m) m = m.
Proof. destruct m; reflexivity. Qed.

Lemma alter_same {A : Type} (f : A -> A) (l : list A) (i : nat) :
  (forall x, l !! i = Some x -> f x = x) -> alter f i l = l.
Proof.
  intros Hf. rewrite (list_alter_ext f id l l i Hf eq_refl).
  apply list_alter_id. reflexivity.
Qed.

(** An assignment of [t] is not seen once the positions are forgotten. *)
Lemma forgetT_assign_t (m : Model) (catId blockId : string) (v : num) :
  forgetT (assign_t m catId blockId v) = forgetT m.
Proof.
  unfold forgetT, assign_t, Model.set_categories. cbn. f_equal.
  apply map_update_first. intros c. destruct c as [i sd lbl bs].
  unfold Category.set_blocks. cbn [Category.id Category.side Category.label Category.blocks].
  f_equal. apply map_update_first. reflexivity.
Qed.

(** In a list without two elements of the same key, the first element of
    a key is the element of that key. *)
Lemma update_first_alter {A : Type} (g : A -> string) (f : A -> A)
    (l : list A) (i : nat) (a : A) :
  List.NoDup (List.map g l) -> l !! i = Some a ->
  update_first (fun x => String.eqb (g x) (g a)) f l = alter f i l.
Proof.
  revert i. induction l as [|x l IH]; intros i Hnd Hi; [reflexivity|].
  cbn in Hnd. apply List.NoDup_cons_iff in Hnd as [Hx Hnd].
  destruct i as [|i]; cbn in Hi.
  - injection Hi as ->. cbn. now rewrite String.eqb_refl.
  - cbn. destruct (String.eqb (g x) (g a)) eqn:E.
    + exfalso. apply String.eqb_eq in E. apply Hx. rewrite E.
      apply in_map. apply list_elem_of_lookup_2 in Hi.
      now apply list_elem_of_In.
    + f_equal. now apply IH.
Qed.

Lemma find_nodup {A : Type} (g : A -> string) (l : list A) (i : nat) (a : A) :
  List.NoDup (List.map g l) -> l !! i = Some a ->
  List.find (fun x => String.eqb (g x) (g a)) l = Some a.
Proof.
  revert i. induction l as [|x l IH]; intros i Hnd Hi; [discriminate|].
  cbn in Hnd. apply List.NoDup_cons_iff in Hnd as [Hx Hnd].
  destruct i as [|i]; cbn in Hi.
  - injection Hi as ->. cbn. now rewrite String.eqb_refl.
  - cbn. destruct (String.eqb (g x) (g a)) eqn:E.
    + exfalso. apply String.eqb_eq in E. apply Hx. rewrite E.
      apply in_map. apply list_elem_of_lookup_2 in Hi.
      now apply list_elem_of_In.
    + now apply (IH i).
Qed.

(** With distinct ids, the block found by its two ids is the block at its
    two positions, and so is the block assigned to. *)
Lemma findBlock_at (m : Model) (ci bi : nat) (cat : Category) (block : Block) :
  idsDistinct m ->
  Model.categories m !! ci = Some cat -> Category.blocks cat !! bi = Some block ->
  findBlock m (Category.id cat) (Block.id block) = Some block.
Proof.
  intros [Hc Hb] Hci Hbi. unfold findBlock, has_cat_id, has_block_id.
  rewrite (find_nodup Category.id _ ci cat Hc Hci).
  apply (find_nodup Block.id _ bi block); [|exact Hbi].
  exact (Forall_lookup_1 _ _ _ _ Hb Hci).
Qed.



(** X7. The pointer events of a drag write nothing but [t]: a press on a
    grab handle leaves the model and the bones as they are, and a move
    leaves everything but the [t] of blocks as it is. *)
Theorem X7_pointer_events_write_only_t
    (st : State) (ci bi : nat) (e : PointerEvent) (wrapRect : Rect) :
  (model (onHandlePointerDown ci bi e wrapRect st) = model st
   /\ catBones (onHandlePointerDown ci bi e wrapRect st) = catBones st)
  /\ (forgetT (model (onDragMove e wrapRect st)) = forgetT (model st)
      /\ selected (onDragMove e wrapRect st) = selected st
      /\ catBones (onDragMove e wrapRect st) = catBones st
      /\ drag (onDragMove e wrapRect st) = drag st
      /\ alerts (onDragMove e wrapRect st) = alerts st
      /\ uidCount (onDragMove e wrapRect st) = uidCount st)
  /\ model (onDragEnd st) = model st.
Proof.
  split; [|split].
  - unfold onHandlePointerDown, startDrag, select.
    break_match; cbn; auto.
  - unfold onDragMove. break_match; cbn; repeat split; auto.
    apply forgetT_assign_t.
  - reflexivity.
Qed.

Section Dragging.

Variable NumberToString : num -> string.
Variable StringToNumber : string -> num.
Variable uid_at : nat -> string.

Let run_ := run NumberToString StringToNumber uid_at.



End Dragging.

(** Distinct literal strings. *)
Ltac nodup_strings :=
  repeat (apply List.NoDup_cons;
          [let H := fresh "H" in
           cbn; intros H; repeat (destruct H as [H|H]; [discriminate H|]);
           exact H|]);
  apply List.NoDup_nil.

Lemma sample_ids_distinct : idsDistinct (model Sample.ready).
Proof.
  split.
  - vm_compute. nodup_strings.
  - vm_compute. repeat (constructor; [nodup_strings|]). constructor.
Qed.


(** ** Moves without a drag *)

Section PointerTraces.

Variable NumberToString : num -> string.
Variable StringToNumber : string -> num.
Variable uid_at : nat -> string.

Let step_ := step NumberToString StringToNumber uid_at.
Let run_ := run NumberToString StringToNumber uid_at.

(** Only a press on a grab handle starts a drag. *)
Lemma step_starts_no_drag (st : State) (ev : Event) :
  is_pointer_down ev = false -> drag st = None -> drag (step_ st ev) = None.
Proof.
  destruct ev; cbn [is_pointer_down]; intros Hp Hd; try discriminate Hp;
    unfold step_; cbn [step]; unfold_handlers; cbn [drag];
    try exact Hd; try reflexivity; try congruence.
  all: unfold onImport; break_match; cbn [drag]; exact Hd.
Qed.

(** X9. As long as no grab handle is pressed, pointer moves are ignored:
    from a state without drag, a sequence of events without a press on a
    handle leads to the state it leads to once its pointer moves are left
    out. *)
Theorem X9_moves_without_press_are_ignored (st : State) (evs : list Event) :
  drag st = None ->
  Forall (fun ev => is_pointer_down ev = false) evs ->
  run_ st evs = run_ st (List.filter (fun ev => negb (is_pointer_move ev)) evs).
Proof.
  unfold run_, run. revert st.
  induction evs as [|ev evs IH]; intros st Hd Hall; [reflexivity|].
  apply Forall_cons_1 in Hall as [Hev Hall].
  cbn [fold_left List.filter].
  destruct (is_pointer_move ev) eqn:Em; cbn [negb].
  - destruct ev; try discriminate Em. cbn [step].
    unfold onDragMove. rewrite Hd. apply IH; assumption.
  - cbn [fold_left]. apply IH; [|exact Hall].
    apply step_starts_no_drag; assumption.
Qed.

End PointerTraces.

Lemma X9_witness :
  Sample.run Sample.initial
    [EvPointerMove (Examples.pointerAt 150 150) Examples.unitRect; EvFrame]
  = Sample.run Sample.initial [EvFrame].
Proof.
  apply (X9_moves_without_press_are_ignored Sample.NumberToString
           Sample.StringToNumber Sample.uid_at Sample.initial
           [EvPointerMove (Examples.pointerAt 150 150) Examples.unitRect;
            EvFrame]).
  - reflexivity.
  - repeat constructor.
Defined.

(** ** When the bones are current *)

Lemma boneSets_ids (cats cats' : list Category) (i : nat) (xs : list num)
    (slant yEdge : num) (sd : Side) :
  List.map Category.id cats = List.map Category.id cats' ->
  boneSets cats i xs slant yEdge sd = boneSets cats' i xs slant yEdge sd.
Proof.
  revert cats' i. induction cats as [|c cats IH]; intros [|c' cats'] i H;
    try discriminate H; [reflexivity|].
  cbn in H. injection H as Hc H. cbn. rewrite Hc. f_equal. now apply IH.
Qed.

Lemma frames_filter (cats cats' : list Category) (sd : Side) :
  List.map (fun c => (Category.id c, Category.side c)) cats
  = List.map (fun c => (Category.id c, Category.side c)) cats' ->
  List.map Category.id
    (List.filter (fun c => Side_eqb (Category.side c) sd) cats)
  = List.map Category.id
      (List.filter (fun c => Side_eqb (Category.side c) sd) cats').
Proof.
  revert cats'. induction cats as [|c cats IH]; intros [|c' cats'] H;
    try discriminate H; [reflexivity|].
  cbn in H. injection H as Hi Hs H. cbn. rewrite Hs.
  destruct (Side_eqb (Category.side c') sd); cbn; [rewrite Hi; f_equal|];
    now apply IH.
Qed.



Section CurrentBones.

Variable NumberToString : num -> string.
Variable StringToNumber : string -> num.
Variable uid_at : nat -> string.

Let step_ := step NumberToString StringToNumber uid_at.
Let run_ := run NumberToString StringToNumber uid_at.
Let drawStaticBones_ := drawStaticBones NumberToString StringToNumber.
Let onFrame_ := onFrame NumberToString StringToNumber.

(** [drawStaticBones] reads the appearance and the [id] and [side] of
    the categories, and nothing else. *)
Lemma drawStaticBones_skeleton (m m' : Model) :
  skeleton m = skeleton m' -> drawStaticBones_ m = drawStaticBones_ m'.
Proof.
  unfold skeleton. intros H. injection H as Ha Hc.
  unfold drawStaticBones_, drawStaticBones. f_equal.
  unfold allBoneSets.
  assert (Hs : forall sd,
             sideBoneSets NumberToString StringToNumber m sd
             = sideBoneSets NumberToString StringToNumber m' sd).
  { intros sd. unfold sideBoneSets, anchorsOf, slantOf, spineEnd, arrowW,
      catsBySide.
    rewrite Ha.
    rewrite <- (length_map Category.id (List.filter _ (Model.categories m))).
    rewrite <- (length_map Category.id (List.filter _ (Model.categories m'))).
    rewrite (frames_filter _ _ sd Hc).
    apply boneSets_ids, frames_filter, Hc. }
  now rewrite !Hs.
Qed.

(** No event but an import, a reset and an input of the appearance panel
    changes the appearance, or the [id] or [side] of a category. *)
Lemma step_skeleton (st : State) (ev : Event) :
  redraws ev = false -> skeleton (model (step_ st ev)) = skeleton (model st).
Proof.
  unfold skeleton.
  destruct ev; cbn [redraws]; intros Hr; try discriminate Hr;
    unfold step_; cbn [step]; unfold_handlers; try reflexivity;
    cbn [Model.appearance Model.set_categories Model.categories];
    f_equal;
    try (rewrite map_update_first by reflexivity; reflexivity);
    try (rewrite map_alter_pres by reflexivity; reflexivity).
Qed.

(** X10. Once a frame has drawn the bones, they stay those that
    [drawStaticBones] would draw for the model, through every event that
    is not an import, a reset or an input of the appearance panel: a
    drag, an added or deleted heading or bullet, a typed text or a resized
    block never leaves a bone out of date. *)
Theorem X10_bones_stay_current (st : State) (evs : list Event) :
  Forall (fun ev => redraws ev = false) evs ->
  catBones (run_ (onFrame_ st) evs)
  = drawStaticBones_ (model (run_ (onFrame_ st) evs)).
Proof.
  intros Hall. unfold run_, run.
  assert (Hgen : forall s,
             catBones s = drawStaticBones_ (model s) ->
             catBones (fold_left (step NumberToString StringToNumber uid_at) evs s)
             = drawStaticBones_
                 (model (fold_left (step NumberToString StringToNumber uid_at)
                           evs s))).
  { induction evs as [|ev evs IH]; intros s Hs; [exact Hs|].
    apply Forall_cons_1 in Hall as [Hev Hall]. cbn [fold_left].
    apply IH; [exact Hall|].
    pose proof (drawStaticBones_skeleton _ _ (step_skeleton s ev Hev)) as E.
    unfold step_ in E. rewrite E.
    rewrite <- Hs. clear IH Hall E.
    destruct ev; cbn [redraws] in Hev; try discriminate Hev;
      cbn [step]; unfold_handlers; try reflexivity;
      cbn [catBones]; symmetry; exact Hs. }
  apply Hgen. reflexivity.
Qed.


End CurrentBones.

Lemma X10_witness :
  catBones (Sample.run Sample.ready [EvAddHeading; EvEditLabel 0 "Staff"])
  = drawStaticBones Sample.NumberToString Sample.StringToNumber
      (model (Sample.run Sample.ready [EvAddHeading; EvEditLabel 0 "Staff"])).
Proof.
  apply (X10_bones_stay_current Sample.NumberToString Sample.StringToNumber
           Sample.uid_at Sample.initial [EvAddHeading; EvEditLabel 0 "Staff"]).
  repeat constructor.
Defined.


(** After the import of [{"appearance":{"boneThickness":{"toString":null}}}]
    a frame leaves no bone, and a press on the first grab handle starts no
    drag. *)
Example frame_without_bones_runs :
  let st := Strict.sample_run Sample.initial
              [EvFrame; EvImport (Some Strict.payloadThicknessObject); EvFrame;
               EvPointerDown 0 0 (Examples.pointerAt 195 215)
                 Examples.unitRect] in
  catBones (Strict.sample_run Sample.initial [EvFrame]) <> ∅
  /\ catBones st = ∅ /\ drag st = None.
Proof.
  cbn zeta. split; [|split].
  - intros E.
    apply (f_equal (fun bones => bones !! "id0"%string)) in E.
    vm_compute in E. discriminate E.
  - reflexivity.
  - reflexivity.
Qed.

(** ** Headings and bullets, added and deleted *)

Lemma filter_nodup_delete {A : Type} (g : A -> string) (l : list A) (i : nat)
    (a : A) :
  List.NoDup (List.map g l) -> l !! i = Some a ->
  List.filter (fun x => negb (String.eqb (g x) (g a))) l = delete i l.
Proof.
  revert i. induction l as [|x l IH]; intros i Hnd Hi; [discriminate|].
  cbn in Hnd. apply List.NoDup_cons_iff in Hnd as [Hx Hnd].
  destruct i as [|i]; cbn in Hi.
  - injection Hi as ->. cbn. rewrite String.eqb_refl. cbn.
    clear IH Hnd. induction l as [|y l IH]; [reflexivity|].
    cbn. destruct (String.eqb (g y) (g a)) eqn:E.
    + exfalso. apply String.eqb_eq in E. apply Hx. left. exact E.
    + cbn. f_equal. apply IH. intros H. apply Hx. right. exact H.
  - cbn. destruct (String.eqb (g x) (g a)) eqn:E.
    + exfalso. apply String.eqb_eq in E. apply Hx. rewrite E.
      apply in_map. apply list_elem_of_lookup_2 in Hi.
      now apply list_elem_of_In.
    + cbn. f_equal. now apply IH.
Qed.

Lemma filter_fresh {A : Type} (g : A -> string) (l : list A) (k : string) :
  ~ In k (List.map g l) ->
  List.filter (fun x => negb (String.eqb (g x) k)) l = l.
Proof.
  induction l as [|x l IH]; intros Hk; [reflexivity|].
  cbn. destruct (String.eqb (g x) k) eqn:E.
  - exfalso. apply String.eqb_eq in E. apply Hk. left. exact E.
  - cbn. f_equal. apply IH. intros H. apply Hk. right. exact H.
Qed.

Lemma filter_removes {A : Type} (g : A -> string) (l : list A) (k : string) :
  ~ In k (List.map g (List.filter (fun x => negb (String.eqb (g x) k)) l)).
Proof.
  intros H. apply in_map_iff in H as (x & Hx & Hin).
  apply filter_In in Hin as [_ Hin]. subst k.
  now rewrite String.eqb_refl in Hin.
Qed.

Lemma delete_last {A : Type} (l : list A) (a : A) :
  delete (length l) (l ++ [a]) = l.
Proof.
  induction l as [|x l IH]; [reflexivity|]. cbn. f_equal. exact IH.
Qed.

(** X12. The deletion of a heading, once confirmed, takes out of the
    category every block that has the [id] of the block of the button, and
    nothing else; where the ids of the blocks of the category are distinct
    this is the block at that place alone.  The other categories are left
    as they are, and a deletion not confirmed changes nothing. *)
Theorem X12_delete_heading_removes_that_block
    (st : State) (ci bi : nat) (cat : Category) (block : Block) :
  Model.categories (model st) !! ci = Some cat ->
  Category.blocks cat !! bi = Some block ->
  let st' := onDeleteHeading ci bi true st in
  (exists cat' : Category,
     Model.categories (model st') !! ci = Some cat'
     /\ ~ In (Block.id block) (List.map Block.id (Category.blocks cat'))
     /\ (forall b : Block,
           Block.id b <> Block.id block ->
           In b (Category.blocks cat) -> In b (Category.blocks cat'))
     /\ (List.NoDup (List.map Block.id (Category.blocks cat)) ->
         Category.blocks cat' = delete bi (Category.blocks cat)))
  /\ (forall j : nat,
        j <> ci ->
        Model.categories (model st') !! j = Model.categories (model st) !! j)
  /\ onDeleteHeading ci bi false st = st.
Proof.
  intros Hci Hbi st'. unfold st', onDeleteHeading. rewrite Hci, Hbi.
  cbn [negb model alter_cat]. unfold alter_cat.
  cbn [Model.categories Model.set_categories]. split; [|split].
  - eexists. split; [rewrite list_lookup_alter_eq, Hci; reflexivity|].
    cbn [Category.blocks Category.set_blocks]. split; [|split].
    + apply (filter_removes Block.id).
    + intros b Hb Hin. apply filter_In. split; [exact Hin|].
      apply negb_true_iff, String.eqb_neq, Hb.
    + intros Hnd. apply (filter_nodup_delete Block.id _ bi block Hnd Hbi).
  - intros j Hj. apply list_lookup_alter_ne. congruence.
  - reflexivity.
Qed.

Section AddDelete.

Variable uid_at : nat -> string.

(** X13. A heading added and then deleted leaves the model as it was:
    where the ids of the categories are distinct and the id drawn for the
    new block is not the id of a block of the selected category, the new
    block is the last of that category, and its deletion gives back the
    model and leaves nothing selected. *)
Theorem X13_added_heading_deleted_again
    (st : State) (ci : nat) (cat : Category) :
  Model.categories (model st) !! ci = Some cat ->
  Selected.catId (selected st) = Some (Category.id cat) ->
  Category.id cat <> ""%string ->
  List.NoDup (List.map Category.id (Model.categories (model st))) ->
  ~ In (uid_at (uidCount st)) (List.map Block.id (Category.blocks cat)) ->
  let added := onAddHeading uid_at st in
  (exists cat' nb,
     Model.categories (model added) !! ci = Some cat'
     /\ Category.blocks cat' = Category.blocks cat ++ [nb]
     /\ Block.id nb = uid_at (uidCount st)
     /\ selected added = Selected.mk (Some (Category.id cat)) (Some (Block.id nb)))
  /\ model (onDeleteHeading ci (length (Category.blocks cat)) true added)
     = model st
  /\ selected (onDeleteHeading ci (length (Category.blocks cat)) true added)
     = Selected.none.
Proof.
  intros Hci Hsel Hne Hnd Hfresh added.
  assert (Ha : exists nb,
             Block.id nb = uid_at (uidCount st)
             /\ added
                = mkState
                    (alter_cat
                       (fun c => Category.set_blocks (Category.blocks c ++ [nb]) c)
                       ci (model st))
                    (Selected.mk (Some (Category.id cat)) (Some (Block.id nb)))
                    (catBones st) (drag st) (alerts st) (S (uidCount st))).
  { unfold added, onAddHeading. rewrite Hsel. cbn [sel_truthy].
    apply String.eqb_neq in Hne. rewrite Hne. cbn [negb].
    change (default ""%string (Some (Category.id cat))) with (Category.id cat).
    unfold has_cat_id at 1.
    rewrite (find_nodup Category.id _ ci cat Hnd Hci). cbv zeta.
    unfold has_cat_id.
    rewrite (update_first_alter Category.id _ _ ci cat Hnd Hci).
    eexists. split; [|reflexivity]. reflexivity. }
  destruct Ha as (nb & Hid & Ha). rewrite Ha.
  assert (Hci' : Model.categories
                   (alter_cat
                      (fun c => Category.set_blocks (Category.blocks c ++ [nb]) c)
                      ci (model st)) !! ci
                 = Some (Category.set_blocks (Category.blocks cat ++ [nb]) cat)).
  { unfold alter_cat. cbn [Model.categories Model.set_categories].
    rewrite list_lookup_alter_eq, Hci. reflexivity. }
  split; [|split].
  - exists (Category.set_blocks (Category.blocks cat ++ [nb]) cat), nb.
    cbn [model selected]. auto.
  - unfold onDeleteHeading. cbn [model]. rewrite Hci'.
    cbn [Category.blocks Category.set_blocks].
    rewrite lookup_app_r by lia. rewrite Nat.sub_diag. cbn [lookup list_lookup].
    cbn [negb model]. unfold alter_cat.
    cbn [Model.categories Model.set_categories]. unfold Model.set_categories.
    cbn [Model.version Model.effectText Model.effectPos Model.effectSize
         Model.appearance Model.categories].
    rewrite list_alter_alter_eq, alter_same; [destruct (model st); reflexivity|].
    intros c Hc. rewrite Hci in Hc. injection Hc as <-. cbn.
    unfold Category.set_blocks.
    cbn [Category.id Category.side Category.label Category.blocks].
    rewrite List.filter_app. cbn [List.filter]. rewrite String.eqb_refl.
    cbn [negb]. rewrite app_nil_r, Hid.
    rewrite (filter_fresh Block.id _ _ Hfresh). destruct cat; reflexivity.
  - unfold onDeleteHeading. cbn [model]. rewrite Hci'.
    cbn [Category.blocks Category.set_blocks].
    rewrite lookup_app_r by lia. rewrite Nat.sub_diag. cbn [lookup list_lookup].
    cbn [negb selected Selected.blockId sel_is]. now rewrite String.eqb_refl.
Qed.

End AddDelete.

(** X14. A bullet added and then deleted leaves the model as it was:
    where the ids are distinct and the selected block has a bullet already,
    the new bullet is the last of the block, and its deletion gives back
    the model.  For a block without bullet the model is not given back: an
    empty bullet is left. *)
Theorem X14_added_bullet_deleted_again
    (st : State) (ci bi : nat) (cat : Category) (block : Block) :
  Model.categories (model st) !! ci = Some cat ->
  Category.blocks cat !! bi = Some block ->
  selected st = Selected.mk (Some (Category.id cat)) (Some (Block.id block)) ->
  Category.id cat <> ""%string -> Block.id block <> ""%string ->
  idsDistinct (model st) ->
  let added := onAddBullet st in
  let deleted := onDeleteBullet ci bi (length (Block.bullets block)) added in
  model added
  = alter_block
      (fun b => Block.set_bullets (Block.bullets b ++ ["New bullet…"%string]) b)
      ci bi (model st)
  /\ (Block.bullets block <> [] -> model deleted = model st)
  /\ (Block.bullets block = [] ->
      model deleted
      = alter_block (Block.set_bullets [""%string]) ci bi (model st)).
Proof.
  intros Hci Hbi Hsel Hnc Hnb Hd added deleted.
  assert (Ha : added
               = with_model
                   (alter_block
                      (fun b => Block.set_bullets
                                  (Block.bullets b ++ ["New bullet…"%string]) b)
                      ci bi (model st)) st).
  { unfold added, onAddBullet. rewrite Hsel.
    cbn [Selected.catId Selected.blockId sel_truthy].
    apply String.eqb_neq in Hnc, Hnb. rewrite Hnc, Hnb. cbn [negb andb].
    change (default ""%string (Some ?x)) with x.
    rewrite (findBlock_at _ ci bi cat block Hd Hci Hbi).
    f_equal. destruct Hd as [Hdc Hdb].
    unfold alter_block, alter_cat, has_cat_id, has_block_id. f_equal.
    rewrite (update_first_alter Category.id _ _ ci cat Hdc Hci).
    apply list_alter_ext; [|reflexivity]. intros c Hc.
    rewrite Hci in Hc. injection Hc as <-. f_equal.
    apply (update_first_alter Block.id _ _ bi block); [|exact Hbi].
    exact (Forall_lookup_1 _ _ _ _ Hdb Hci). }
  split; [rewrite Ha; reflexivity|].
  assert (Hdel : model deleted
                 = alter_block
                     (Block.set_bullets
                        (deleteBullet (length (Block.bullets block))
                           (Block.bullets block ++ ["New bullet…"%string])))
                     ci bi (model st)).
  { unfold deleted, onDeleteBullet. rewrite Ha.
    unfold with_model, alter_block, alter_cat.
    cbn [model Model.categories Model.set_categories].
    rewrite list_lookup_alter_eq, Hci. cbn [fmap option_fmap option_map].
    cbn [Category.blocks Category.set_blocks].
    rewrite list_lookup_alter_eq, Hbi. cbn [fmap option_fmap option_map].
    cbn [Block.bullets Block.set_bullets].
    rewrite lookup_app_r by lia. rewrite Nat.sub_diag. cbn [lookup list_lookup].
    cbn [model]. unfold Model.set_categories.
    cbn [Model.version Model.effectText Model.effectPos Model.effectSize
         Model.appearance Model.categories].
    f_equal. rewrite list_alter_alter_eq.
    apply list_alter_ext; [|reflexivity]. intros c Hc.
    rewrite Hci in Hc. injection Hc as <-. cbn.
    unfold Category.set_blocks.
    cbn [Category.id Category.side Category.label Category.blocks]. f_equal.
    rewrite list_alter_alter_eq.
    apply list_alter_ext; [|reflexivity]. intros b Hb.
    rewrite Hbi in Hb. injection Hb as <-. reflexivity. }
  rewrite Hdel. unfold deleteBullet. rewrite delete_last. split.
  - intros Hne. destruct (Block.bullets block) as [|x l] eqn:E; [congruence|].
    cbn [length Nat.eqb]. unfold alter_block, alter_cat.
    rewrite alter_same; [apply set_categories_same|].
    intros c Hc. rewrite Hci in Hc. injection Hc as <-.
    rewrite alter_same; [apply set_blocks_same|].
    intros b Hb. rewrite Hbi in Hb. injection Hb as <-.
    rewrite <- E. destruct block; reflexivity.
  - intros ->. reflexivity.
Qed.

Lemma X12_witness :
  exists cat' : Category,
    Model.categories (model (onDeleteHeading 0 0 true Sample.ready)) !! 0%nat
    = Some cat'
    /\ Category.blocks cat' = [].
Proof.
  pose proof (fun c b => X12_delete_heading_removes_that_block Sample.ready 0 0 c b)
    as H.
  edestruct H as ((cat' & Hc & _ & _ & Hd) & _).
  - vm_compute. reflexivity.
  - vm_compute. reflexivity.
  - exists cat'. split; [exact Hc|].
    rewrite Hd; [reflexivity|vm_compute; nodup_strings].
Defined.

Lemma X13_witness :
  model
    (onDeleteHeading 0 1 true
       (onAddHeading Sample.uid_at (Sample.run Sample.ready [EvSelect 0 0])))
  = model (Sample.run Sample.ready [EvSelect 0 0]).
Proof.
  pose proof
    (fun c => X13_added_heading_deleted_again Sample.uid_at
                (Sample.run Sample.ready [EvSelect 0 0]) 0 c) as H.
  edestruct H as (_ & Hm & _).
  - vm_compute. reflexivity.
  - vm_compute. reflexivity.
  - vm_compute. discriminate.
  - vm_compute. nodup_strings.
  - vm_compute. intros [E|[]]. discriminate E.
  - exact Hm.
Defined.

Lemma X14_witness :
  model
    (onDeleteBullet 0 0 1
       (onAddBullet (Sample.run Sample.ready [EvSelect 0 0])))
  = model (Sample.run Sample.ready [EvSelect 0 0]).
Proof.
  pose proof
    (fun c b => X14_added_bullet_deleted_again
                  (Sample.run Sample.ready [EvSelect 0 0]) 0 0 c b) as H.
  edestruct H as (_ & Hm & _).
  - vm_compute. reflexivity.
  - vm_compute. reflexivity.
  - vm_compute. reflexivity.
  - vm_compute. discriminate.
  - vm_compute. discriminate.
  - exact sample_ids_distinct.
  - apply Hm. vm_compute. discriminate.
Defined.

(** ** The effect box *)

Lemma round_integer (z : Z) : Math_round (Fin (inject_Z z)) ≈ Fin (inject_Z z).
Proof.
  cbn [Math_round num_eq]. assert (H : Qfloor (inject_Z z + 0.5) = z).
  { apply Z.le_antisymm.
    - apply Z.lt_succ_r. replace (Z.succ z) with (z + 1)%Z by lia.
      rewrite Zlt_Qlt. eapply Qle_lt_trans; [apply Qfloor_le|].
      rewrite inject_Z_plus. change (inject_Z 1) with 1%Q. lra.
    - rewrite <- (Qfloor_Z z) at 1. apply Qfloor_resp_le. lra. }
  rewrite H. reflexivity.
Qed.

(** What the observer of a size stores: [NaN], or a whole number between
    the bounds, which a second clamp and a second rounding leave as it
    is. *)
Lemma observed_size (v : num) (zlo zhi : Z) :
  (zlo < zhi)%Z ->
  let lo := inject_Z zlo in
  let hi := inject_Z zhi in
  let s := clamp (Math_round v) (Fin lo) (Fin hi) in
  clamp s (Fin lo) (Fin hi) = s
  /\ clamp (Math_round s) (Fin lo) (Fin hi) ≈ s
  /\ (v <> NaN -> in_range lo hi s).
Proof.
  intros Hz lo hi s.
  assert (Hlh : lo < hi) by (unfold lo, hi; rewrite <- Zlt_Qlt; exact Hz).
  assert (Hid : clamp s (Fin lo) (Fin hi) = s)
    by (apply clamp_idempotent, Hlh).
  split; [exact Hid|]. split.
  - assert (Hs : Math_round s ≈ s).
    { unfold s. destruct v as [ | | |q].
      - cbn. exact I.
      - change (clamp (Math_round NegInf) (Fin lo) (Fin hi)) with (Fin lo).
        apply round_integer.
      - change (clamp (Math_round PosInf) (Fin lo) (Fin hi))
          with (Math_max (Fin lo) (Fin hi)).
        unfold Math_max. apply lt_Fin in Hlh as ->. apply round_integer.
      - cbn [Math_round].
        destruct (clamp_Fin_cases (inject_Z (Qfloor (q + 0.5))) lo hi Hlh)
          as [(_ & ->)|[(_ & _ & ->)|(_ & ->)]]; apply round_integer. }
    rewrite <- Hid at 2. apply clamp_num_eq; assumption.
  - intros Hv. unfold s. apply clamp_in_range; [exact Hlh|].
    destruct v; cbn; congruence.
Qed.

(** X17. While the effect box is dragged its offset is the offset at the
    press plus the way of the pointer since the press: it depends on the
    last position of the pointer only, not on the path, and nothing else
    of the model is written.  Once the button is released, moves are
    ignored. *)
Theorem X17_effect_box_follows_pointer
    (m : Model) (x0 y0 x y : num) (path after : list (num * num)) :
  let move := fun s p => EffectBox.onEffectMove (fst p) (snd p) s in
  let st :=
    fold_left move (path ++ [(x, y)]) (EffectBox.onEffectDown x0 y0 (m, None)) in
  fst st
  = EffectBox.set_effectPos
      (EffectPos.mk (EffectPos.dx (Model.effectPos m) + (x - x0))%num
                    (EffectPos.dy (Model.effectPos m) + (y - y0))%num) m
  /\ fold_left move after (EffectBox.onEffectUp st) = EffectBox.onEffectUp st.
Proof.
  intros move st. split.
  - unfold st. rewrite fold_left_app. cbn [fold_left].
    set (ds := {| EffectDragState.startX := x0; EffectDragState.startY := y0;
                  EffectDragState.startDx := EffectPos.dx (Model.effectPos m);
                  EffectDragState.startDy := EffectPos.dy (Model.effectPos m) |}).
    assert (Hinv : forall (l : list (num * num)) (m1 : Model),
               EffectBox.set_effectPos (Model.effectPos m) m1 = m ->
               exists m2,
                 fold_left move l (m1, Some ds) = (m2, Some ds)
                 /\ EffectBox.set_effectPos (Model.effectPos m) m2 = m).
    { induction l as [|p l IH]; intros m1 H1; [eauto|].
      cbn [fold_left]. unfold move at 2, EffectBox.onEffectMove.
      cbn [fst snd]. apply IH. clear - H1.
      unfold EffectBox.set_effectPos in *. destruct m1, m. cbn in *.
      congruence. }
    destruct (Hinv path m) as (m2 & E & H2); [destruct m as [? ? [] ? ? ?]; reflexivity|].
    unfold EffectBox.onEffectDown. cbn [fst]. fold ds. rewrite E.
    unfold move, EffectBox.onEffectMove. cbn [fst snd].
    cbn [EffectDragState.startX EffectDragState.startY EffectDragState.startDx
         EffectDragState.startDy ds].
    match goal with |- EffectBox.set_effectPos ?P _ = _ => generalize P end.
    intros P. clear - H2. unfold EffectBox.set_effectPos in *.
    destruct m2, m. cbn in *. congruence.
  - unfold EffectBox.onEffectUp. generalize (fst st). intros m1.
    induction after as [|p l IH]; [reflexivity|]. cbn [fold_left]. exact IH.
Qed.

(** X18. The size that the observer of the effect text stores is [NaN]
    or a whole number of the bounds, 120 to 800 for the width and 70 to
    700 for the height; [applyAppearance] writes it back unchanged, and
    the observer, called for the size written, stores it again: the two do
    not drive each other. *)
Theorem X18_effect_size_is_stable (width height : num) (m : Model) :
  let m' := EffectBox.onEffectResize width height m in
  let applied := appliedEffectSize m' in
  let m'' := EffectBox.onEffectResize (fst applied) (snd applied) m' in
  applied
  = (EffectSize.w (Model.effectSize m'), EffectSize.h (Model.effectSize m'))
  /\ (width <> NaN -> in_range 120 800 (fst applied))
  /\ (height <> NaN -> in_range 70 700 (snd applied))
  /\ EffectSize.w (Model.effectSize m'') ≈ EffectSize.w (Model.effectSize m')
  /\ EffectSize.h (Model.effectSize m'') ≈ EffectSize.h (Model.effectSize m')
  /\ Model.categories m'' = Model.categories m.
Proof.
  intros m' applied m''.
  destruct (observed_size width 120 800 ltac:(lia)) as (W1 & W2 & W3).
  destruct (observed_size height 70 700 ltac:(lia)) as (H1 & H2 & H3).
  assert (Ea : applied
               = (EffectSize.w (Model.effectSize m'),
                  EffectSize.h (Model.effectSize m'))).
  { unfold applied, appliedEffectSize, m', EffectBox.onEffectResize,
      EffectBox.set_effectSize.
    cbn [Model.effectSize EffectSize.w EffectSize.h].
    f_equal; [exact W1|exact H1]. }
  split; [exact Ea|]. unfold m''. rewrite Ea. cbn [fst snd].
  unfold m', EffectBox.onEffectResize, EffectBox.set_effectSize.
  cbn [Model.effectSize EffectSize.w EffectSize.h Model.categories].
  repeat split; auto.
Qed.

(** ** The appearance after an import *)

Lemma find_app_split {A : Type} (p : A -> bool) (l1 l2 : list A) :
  List.find p (l1 ++ l2)
  = match List.find p l1 with
    | Some a => Some a
    | None => List.find p l2
    end.
Proof.
  induction l1 as [|a l1 IH]; [reflexivity|]. cbn.
  destruct (p a); [reflexivity|exact IH].
Qed.

Lemma find_key_none (k : string) (props : list (string * value)) :
  ~ In k (List.map fst props) ->
  List.find (fun kv => String.eqb k (fst kv)) props = None.
Proof.
  induction props as [|[k' v] props IH]; intros Hk; [reflexivity|].
  cbn. destruct (String.eqb k k') eqn:E.
  - exfalso. apply String.eqb_eq in E. apply Hk. left. symmetry. exact E.
  - apply IH. intros H. apply Hk. right. exact H.
Qed.

Lemma find_key_some (k : string) (props : list (string * value)) :
  In k (List.map fst props) ->
  exists kv, List.find (fun kv => String.eqb k (fst kv)) props = Some kv.
Proof.
  induction props as [|[k' v] props IH]; intros Hk; [destruct Hk|].
  cbn. destruct (String.eqb k k') eqn:E; [eauto|].
  apply IH. destruct Hk as [Hk|Hk]; [|exact Hk].
  cbn in Hk. subst k'. now rewrite String.eqb_refl in E.
Qed.

(** The latest write of a key wins: a key written in the second part of
    the writes is read there, any other key in the first part. *)
Lemma lookup_prop_app (k : string) (a b : list (string * value)) :
  (In k (List.map fst b) -> lookup_prop k (a ++ b) = lookup_prop k b)
  /\ (~ In k (List.map fst b) -> lookup_prop k (a ++ b) = lookup_prop k a).
Proof.
  unfold lookup_prop. rewrite rev_app_distr, find_app_split. split; intros Hk.
  - destruct (find_key_some k (rev b)) as [kv ->]; [|reflexivity].
    rewrite map_rev. apply in_rev. rewrite rev_involutive. exact Hk.
  - rewrite find_key_none; [reflexivity|].
    rewrite map_rev. intros H. apply Hk. apply in_rev. exact H.
Qed.

Section ImportedAppearance.

Variable NumberToString : num -> string.
Variable StringToNumber : string -> num.
Variable uid_at : nat -> string.

Let importModel_ := importModel NumberToString StringToNumber uid_at.

(** X15. An import merges the appearance of the payload over the default
    one: a key that the payload gives is read as the payload gives it (be
    it [null]), every other key as in the default model; a payload whose
    [appearance] is missing or falsy leaves the default appearance. *)
Theorem X15_import_merges_appearance
    (obj : value) (n n' : nat) (m : Model) (k : string) :
  importModel_ obj n = (Some m, n') ->
  let given := spread (or_else (getp obj "appearance") (VObj [])) in
  (In k (List.map fst given) ->
   lookup_prop k (Model.appearance m) = lookup_prop k given)
  /\ (~ In k (List.map fst given) ->
      lookup_prop k (Model.appearance m) = lookup_prop k defaultAppearance)
  /\ (truthy (getp obj "appearance") = false ->
      Model.appearance m = defaultAppearance).
Proof.
  intros Hm given.
  destruct (importModel_inv _ _ _ _ _ _ _ Hm) as (_ & _ & _ & Ha).
  fold given in Ha. rewrite Ha.
  destruct (lookup_prop_app k defaultAppearance given) as [H1 H2].
  split; [exact H1|]. split; [exact H2|].
  intros Hf. unfold given, or_else. rewrite Hf. cbn [spread].
  apply app_nil_r.
Qed.

End ImportedAppearance.

Lemma X15_witness :
  exists (m : Model) (n' : nat),
    importModel Sample.NumberToString Sample.StringToNumber Sample.uid_at
      (VObj [("appearance", VObj [("ribLength", VNum (Fin 99))])]%string) 0%nat
    = (Some m, n')
    /\ lookup_prop "ribLength" (Model.appearance m) = VNum (Fin 99)
    /\ lookup_prop "blockWidth" (Model.appearance m) = VNum (Fin 300).
Proof.
  destruct (importModel Sample.NumberToString Sample.StringToNumber
              Sample.uid_at
              (VObj [("appearance", VObj [("ribLength", VNum (Fin 99))])]%string)
              0%nat) as [[m|] n'] eqn:E; [|vm_compute in E; discriminate E].
  exists m, n'. split; [reflexivity|].
  destruct (X15_import_merges_appearance _ _ _ _ _ _ _ "ribLength" E)
    as (H1 & _).
  destruct (X15_import_merges_appearance _ _ _ _ _ _ _ "blockWidth" E)
    as (_ & H2 & _).
  split.
  - rewrite H1; [reflexivity|]. vm_compute. left. reflexivity.
  - rewrite H2; [reflexivity|]. vm_compute. intros [H|[]]. discriminate H.
Defined.

(** ** Ids stay distinct *)

Lemma Forall_update_first2 {A : Type} (P P' : A -> Prop) (p : A -> bool)
    (f : A -> A) (l : list A) :
  (forall a, P a -> P' a) -> (forall a, P a -> P' (f a)) ->
  Forall P l -> Forall P' (update_first p f l).
Proof.
  intros Hk Hf. induction 1 as [|a l Ha Hl IH]; cbn; [constructor|].
  destruct (p a); constructor; auto. eapply Forall_impl; eauto.
Qed.

Lemma Forall_alter2 {A : Type} (P P' : A -> Prop) (f : A -> A) (i : nat)
    (l : list A) :
  (forall a, P a -> P' a) -> (forall a, P a -> P' (f a)) ->
  Forall P l -> Forall P' (alter f i l).
Proof.
  intros Hk Hf H. revert i.
  induction H as [|a l Ha Hl IH]; intros [|i]; cbn; constructor; auto.
  eapply Forall_impl; eauto.
Qed.

Lemma map_id_filter (k : string) (bs : list Block) :
  List.map Block.id
    (List.filter (fun b => negb (String.eqb (Block.id b) k)) bs)
  = List.filter (fun s => negb (String.eqb s k)) (List.map Block.id bs).
Proof.
  induction bs as [|b bs IH]; [reflexivity|]. cbn.
  destruct (String.eqb (Block.id b) k); cbn; [|f_equal]; exact IH.
Qed.

Section DistinctIds.

Variable NumberToString : num -> string.
Variable StringToNumber : string -> num.
Variable uid_at : nat -> string.

(** [uid()] never returns the same id twice. *)
Hypothesis uid_fresh : forall i j : nat, uid_at i = uid_at j -> i = j.

Let step_ := step NumberToString StringToNumber uid_at.
Let run_ := run NumberToString StringToNumber uid_at.

(** The ids of the blocks of one category. *)
Let idsOK (n : nat) (ids : list string) : Prop :=
  List.NoDup ids /\ Forall (drawn uid_at n) ids.

Lemma drawn_mono (n n' : nat) (s : string) :
  (n <= n')%nat -> drawn uid_at n s -> drawn uid_at n' s.
Proof. intros Hn (k & Hk & ->). exists k. split; [lia|reflexivity]. Qed.

Lemma idsOK_mono (n n' : nat) (ids : list string) :
  (n <= n')%nat -> idsOK n ids -> idsOK n' ids.
Proof.
  intros Hn [H1 H2]. split; [exact H1|].
  eapply Forall_impl; [exact H2|]. intros s. now apply drawn_mono.
Qed.

Lemma idsOK_filter (n : nat) (p : string -> bool) (ids : list string) :
  idsOK n ids -> idsOK n (List.filter p ids).
Proof.
  intros [H1 H2]. split; [now apply List.NoDup_filter|].
  now apply Forall_filter_pres.
Qed.

Lemma idsOK_push (n : nat) (ids : list string) :
  idsOK n ids -> idsOK (S n) (ids ++ [uid_at n]).
Proof.
  intros [H1 H2]. split.
  - apply List.NoDup_app; [exact H1|repeat constructor; intros []|].
    intros s Hs [<-|[]]. rewrite Forall_forall in H2.
    apply list_elem_of_In in Hs. destruct (H2 _ Hs) as (k & Hk & E).
    apply uid_fresh in E. lia.
  - apply Forall_app. split.
    + eapply Forall_impl; [exact H2|]. intros s. apply drawn_mono. lia.
    + constructor; [|constructor]. exists n. split; [lia|reflexivity].
Qed.

Lemma defaultModel_idsDrawn (n : nat) :
  idsDrawn uid_at (snd (defaultModel uid_at n)) (fst (defaultModel uid_at n)).
Proof.
  split.
  - cbn. repeat (apply List.NoDup_cons;
                 [cbn; intros H;
                  repeat (destruct H as [H|H]; [apply uid_fresh in H; lia|]);
                  exact H|]).
    apply List.NoDup_nil.
  - cbn. repeat (constructor;
                 [split;
                  [apply List.NoDup_cons; [intros []|apply List.NoDup_nil]
                  |constructor; [|constructor];
                   eexists; split; [|reflexivity]; lia]|]).
    constructor.
Qed.

(** A change of the categories found by a predicate, or at a place, that
    keeps the [id] of the category and the distinct ids of its blocks. *)
Lemma idsDrawn_update_first (n n' : nat) (m : Model) (p : Category -> bool)
    (f : Category -> Category) :
  (n <= n')%nat ->
  (forall c, Category.id (f c) = Category.id c) ->
  (forall c, idsOK n (List.map Block.id (Category.blocks c)) ->
             idsOK n' (List.map Block.id (Category.blocks (f c)))) ->
  idsDrawn uid_at n m ->
  idsDrawn uid_at n'
    (Model.set_categories (update_first p f (Model.categories m)) m).
Proof.
  intros Hn Hid Hf [H1 H2]. split; cbn [Model.categories Model.set_categories].
  - rewrite map_update_first by exact Hid. exact H1.
  - eapply Forall_update_first2; [| |exact H2]; cbn beta.
    + intros c Hc. now apply (idsOK_mono n n').
    + intros c Hc. now apply Hf.
Qed.

Lemma idsDrawn_alter (n n' : nat) (m : Model) (i : nat)
    (f : Category -> Category) :
  (n <= n')%nat ->
  (forall c, Category.id (f c) = Category.id c) ->
  (forall c, idsOK n (List.map Block.id (Category.blocks c)) ->
             idsOK n' (List.map Block.id (Category.blocks (f c)))) ->
  idsDrawn uid_at n m ->
  idsDrawn uid_at n' (Model.set_categories (alter f i (Model.categories m)) m).
Proof.
  intros Hn Hid Hf [H1 H2]. split; cbn [Model.categories Model.set_categories].
  - rewrite map_alter_pres by exact Hid. exact H1.
  - eapply Forall_alter2; [| |exact H2]; cbn beta.
    + intros c Hc. now apply (idsOK_mono n n').
    + intros c Hc. now apply Hf.
Qed.

(** Every event but an import keeps the ids distinct and drawn. *)
Lemma step_idsDrawn (st : State) (ev : Event) :
  is_import ev = false ->
  idsDrawn uid_at (uidCount st) (model st) ->
  idsDrawn uid_at (uidCount (step_ st ev)) (model (step_ st ev)).
Proof.
  assert (Hkeep : forall (g : list Block -> list Block) (c : Category) n,
             (forall bs, List.map Block.id (g bs) = List.map Block.id bs) ->
             idsOK n (List.map Block.id (Category.blocks c)) ->
             idsOK n (List.map Block.id
                        (Category.blocks
                           (Category.set_blocks (g (Category.blocks c)) c)))).
  { intros g c n Hg Hc. cbn [Category.blocks Category.set_blocks].
    now rewrite Hg. }
  destruct ev; cbn [is_import]; intros Hi H; try discriminate Hi;
    unfold step_; cbn [step].
  - exact H.
  - unfold onBlockMouseDown, select. break_match; exact H.
  - unfold onHandlePointerDown, startDrag, select. break_match; exact H.
  - unfold onDragMove. break_match; try exact H. cbn [model uidCount].
    unfold assign_t.
    apply (idsDrawn_update_first (uidCount st)); [lia|reflexivity| |exact H].
    intros c0. apply (Hkeep (update_first _ _)).
    intros bs. now apply map_update_first.
  - exact H.
  - unfold onAddHeading. break_match; try exact H.
    all: cbn [model uidCount uid snd fst].
    all: apply (idsDrawn_update_first (uidCount st)); [lia|reflexivity| |exact H].
    all: intros c0 Hc; cbn [Category.blocks Category.set_blocks].
    all: rewrite List.map_app; cbn [List.map Block.id]; now apply idsOK_push.
  - unfold onAddBullet, with_model. break_match; try exact H.
    all: cbn [model uidCount].
    all: apply (idsDrawn_update_first (uidCount st)); [lia|reflexivity| |exact H].
    all: intros c0; apply (Hkeep (update_first _ _)).
    all: intros bs; now apply map_update_first.
  - unfold onDeleteHeading. break_match; try exact H.
    all: cbn [model uidCount]; unfold alter_cat.
    all: apply (idsDrawn_alter (uidCount st)); [lia|reflexivity| |exact H].
    all: intros c0 Hc; cbn [Category.blocks Category.set_blocks].
    all: rewrite map_id_filter; now apply idsOK_filter.
  - unfold onDeleteBullet, with_model. break_match; try exact H.
    all: cbn [model uidCount]; unfold alter_block, alter_cat.
    all: apply (idsDrawn_alter (uidCount st)); [lia|reflexivity| |exact H].
    all: intros c0; apply (Hkeep (alter _ _)).
    all: intros bs; now apply map_alter_pres.
  - unfold onEditTitle, with_model. cbn [model uidCount].
    unfold alter_block, alter_cat.
    apply (idsDrawn_alter (uidCount st)); [lia|reflexivity| |exact H].
    intros c0. apply (Hkeep (alter _ _)).
    intros bs. now apply map_alter_pres.
  - unfold onEditBullet, with_model. cbn [model uidCount].
    unfold alter_block, alter_cat.
    apply (idsDrawn_alter (uidCount st)); [lia|reflexivity| |exact H].
    intros c0. apply (Hkeep (alter _ _)).
    intros bs. now apply map_alter_pres.
  - unfold onEditLabel, with_model. cbn [model uidCount]. unfold alter_cat.
    apply (idsDrawn_alter (uidCount st)); [lia|reflexivity| |exact H].
    intros c0 Hc. exact Hc.
  - unfold onBlockResize, with_model. cbn [model uidCount].
    unfold alter_block, alter_cat.
    apply (idsDrawn_alter (uidCount st)); [lia|reflexivity| |exact H].
    intros c0. apply (Hkeep (alter _ _)).
    intros bs. now apply map_alter_pres.
  - unfold onAppearanceInput, with_model. break_match; exact H.
  - unfold onReset. destruct ok; cbn [negb]; [|exact H].
    pose proof (defaultModel_idsDrawn (uidCount st)) as Hd.
    destruct (defaultModel uid_at (uidCount st)) as [m n]. exact Hd.
Qed.

(** X16. As long as [uid()] never returns the same id twice and nothing
    is imported, no two categories of the model share an [id], nor two
    blocks of a category, and the search by ids that the drag and the
    commands of the tool bar use finds every block at its own place. *)
Theorem X16_ids_stay_distinct (evs : list Event) :
  Forall (fun ev => is_import ev = false) evs ->
  idsDistinct (model (run_ (initial uid_at) evs))
  /\ forall (ci bi : nat) (cat : Category) (block : Block),
       Model.categories (model (run_ (initial uid_at) evs)) !! ci = Some cat ->
       Category.blocks cat !! bi = Some block ->
       findBlock (model (run_ (initial uid_at) evs))
         (Category.id cat) (Block.id block)
       = Some block.
Proof.
  intros Hall.
  assert (Hinv : idsDrawn uid_at (uidCount (run_ (initial uid_at) evs))
                   (model (run_ (initial uid_at) evs))).
  { unfold run_, run.
    assert (H0 : idsDrawn uid_at (uidCount (initial uid_at))
                   (model (initial uid_at))).
    { unfold initial.
      pose proof (defaultModel_idsDrawn 0%nat) as Hd.
      destruct (defaultModel uid_at 0%nat) as [m n]. exact Hd. }
    revert H0. generalize (initial uid_at). 
    induction evs as [|ev evs IH]; intros st Hst; [exact Hst|].
    apply Forall_cons_1 in Hall as [Hev Hall]. cbn [fold_left].
    apply IH; [exact Hall|]. now apply step_idsDrawn. }
  assert (Hd : idsDistinct (model (run_ (initial uid_at) evs))).
  { destruct Hinv as [H1 H2]. split; [exact H1|].
    eapply Forall_impl; [exact H2|]. intros c [Hc _]. exact Hc. }
  split; [exact Hd|]. intros ci bi cat block. now apply findBlock_at.
Qed.

End DistinctIds.

Lemma sample_uid_fresh (i j : nat) : Sample.uid_at i = Sample.uid_at j -> i = j.
Proof.
  unfold Sample.uid_at, nat_to_string. cbn [String.append]. intros H.
  injection H as H. unfold String.append in H.
  apply (f_equal NilEmpty.uint_of_string) in H. rewrite !NilEmpty.usu in H.
  injection H as H. apply (f_equal Nat.of_uint) in H.
  now rewrite !Unsigned.of_to in H.
Qed.

Lemma X16_witness :
  idsDistinct
    (model (Sample.run Sample.initial [EvFrame; EvSelect 0 0; EvAddHeading])).
Proof.
  apply (X16_ids_stay_distinct Sample.NumberToString Sample.StringToNumber
           Sample.uid_at sample_uid_fresh
           [EvFrame; EvSelect 0 0; EvAddHeading]).
  repeat constructor.
Defined.

(** ** The width of a block *)

Section Widths.

Variable NumberToString : num -> string.
Variable StringToNumber : string -> num.
Variable uid_at : nat -> string.

Let step_ := step NumberToString StringToNumber uid_at.
Let run_ := run NumberToString StringToNumber uid_at.
Let blockW_ := blockW NumberToString StringToNumber.

Lemma resize_wBounded (width : num) (b : Block) :
  wBounded (Block.set_w (clamp (Math_round width) (Fin 180) (Fin 520)) b).
Proof.
  unfold wBounded. cbn [Block.w Block.set_w].
  destruct (observed_size width 180 520 ltac:(lia)) as (_ & _ & H).
  destruct width as [ | | |q]; [left; reflexivity|right; apply H; discriminate..].
Qed.

Lemma step_wBounded (st : State) (ev : Event) :
  is_import ev = false ->
  eachBlock wBounded (model st) -> eachBlock wBounded (model (step_ st ev)).
Proof.
  unfold eachBlock, eachCategory.
  destruct ev; cbn [is_import]; intros Hi H; try discriminate Hi;
    unfold step_; cbn [step]; unfold_handlers; try exact H;
    try (cats_kept ltac:(first [ assumption
                               | apply resize_wBounded
                               | exact I ])).
  repeat match goal with
         | |- Forall _ _ => cbn [Category.blocks]; constructor
         end.
  all: exact I.
Qed.

Lemma importModel_wBounded (obj : value) (n n' : nat) (m : Model) :
  importModel NumberToString StringToNumber uid_at obj n = (Some m, n') ->
  eachBlock wBounded m.
Proof.
  intros E. apply importModel_category in E as [_ Hcat].
  unfold eachBlock, eachCategory. apply Forall_lookup. intros i c Hi.
  destruct (Hcat i c Hi) as (dc & k & k' & _ & Hf).
  apply importCategory_inv in Hf as (_ & _ & _ & Hb).
  cbn zeta in Hb.
  destruct (getp (payloadCategory (arrayOrEmpty (getp obj "categories")) i)
              "blocks") as [ | | ? | ? | ? | items | ?];
    try (destruct Hb as [id Hb]; rewrite Hb; constructor; [|constructor];
         exact I).
  destruct Hb as [_ Hb]. apply Forall_lookup. intros j b Hj.
  destruct (Hb j b Hj) as (sb & id & _ & _ & ->). exact I.
Qed.

(** X19. After every sequence of events the width stored for a block, if
    any, is [NaN] or a number from 180 to 520, and an import stores none.
    So the width that [positionBlocks] takes for a block is a number from
    180 to 520 or the [blockWidth] of the appearance. *)
Theorem X19_block_width_bounded (evs : list Event) :
  let m := model (run_ (initial uid_at) evs) in
  eachBlock
    (fun b =>
       wBounded b
       /\ (in_range 180 520 (blockW_ m b)
           \/ blockW_ m b
              = ToNumber NumberToString StringToNumber
                  (coalesce (lookup_prop "blockWidth" (Model.appearance m))
                     (VNum (Fin 300)))))
    (model (run_ (initial uid_at) evs)).
Proof.
  intros m.
  assert (H : eachBlock wBounded m).
  { unfold m, run_. apply run_invariant.
    - unfold eachBlock, eachCategory. cbn.
      repeat match goal with
             | |- Forall _ _ => cbn [Category.blocks]; constructor
             end.
      all: exact I.
    - apply step_wBounded.
    - apply importModel_wBounded. }
  unfold eachBlock, eachCategory in *. fold m.
  eapply Forall_impl; [exact H|]. intros c Hc. cbn beta in *.
  eapply Forall_impl; [exact Hc|]. intros b Hb. split; [exact Hb|].
  unfold blockW_, blockW, wBounded in *.
  destruct (Block.w b) as [v|]; [|right; reflexivity].
  destruct Hb as [->|Hr]; [right; reflexivity|].
  destruct v as [ | | |q]; try contradiction. cbn [JSNum.truthy].
  destruct (Qeq_bool q 0) eqn:E; [|left; exact Hr].
  exfalso. apply Qeq_bool_iff in E. cbn in Hr. lra.
Qed.

End Widths.

(** ** An export, read back and imported *)

Import Json.

Lemma find_rev_split {A : Type} (p : A -> bool) (l : list A) (x : A) :
  List.find p (rev l) = Some x ->
  exists pre post,
    l = pre ++ x :: post /\ p x = true /\ List.find p (rev post) = None.
Proof.
  induction l as [|a l IH] using rev_ind; [discriminate|].
  rewrite rev_app_distr. cbn [rev app List.find].
  destruct (p a) eqn:E.
  - intros H. injection H as <-. exists l, []. auto.
  - intros H. destruct (IH H) as (pre & post & -> & Hx & Hp).
    exists pre, (post ++ [a]). rewrite <- app_assoc. split; [reflexivity|].
    split; [exact Hx|]. rewrite rev_app_distr. cbn. now rewrite E.
Qed.

Lemma find_rev_none (k : string) {A : Type} (l : list (string * A)) :
  List.find (fun kv => String.eqb k (fst kv)) (rev l) = None ->
  ~ In k (List.map fst l).
Proof.
  intros H Hin. apply in_map_iff in Hin as ([k' a] & Hk & Hin). cbn in Hk.
  subst k'. apply in_rev in Hin.
  apply (find_none _ _ H) in Hin. cbn in Hin. now rewrite String.eqb_refl in Hin.
Qed.

Lemma lookup_prop_latest (k : string) (ps : list (string * value)) :
  lookup_prop k ps = match latest k ps with Some v => v | None => VUndefined end.
Proof.
  unfold lookup_prop, latest.
  destruct (List.find _ (rev ps)) as [[k' v]|]; reflexivity.
Qed.

(** The writes kept of a part [ps] of the writes [whole]. *)
Lemma written_keys (whole ps : list (string * option value)) (k : string) :
  In k (List.map fst
          (flat_map
             (fun kv =>
                match latest (fst kv) whole, snd kv with
                | Some (Some _), Some v => [(fst kv, v)]
                | _, _ => []
                end) ps)) ->
  In k (List.map fst ps) /\ exists v, latest k whole = Some (Some v).
Proof.
  induction ps as [|[k' r] ps IH]; [intros []|]. cbn [flat_map fst snd].
  rewrite List.map_app, in_app_iff. intros [H|H].
  - destruct (latest k' whole) as [[v0|]|] eqn:E; try destruct H.
    destruct r as [v|]; [|destruct H]. destruct H as [<-|[]].
    split; [left; reflexivity|eauto].
  - destruct (IH H) as [H1 H2]. split; [right; exact H1|exact H2].
Qed.

(** A key is read in the properties written as its latest write says. *)
Lemma lookup_written (k : string) (ps : list (string * option value)) :
  lookup_prop k (written ps)
  = match latest k ps with
    | Some (Some v) => v
    | _ => VUndefined
    end.
Proof.
  destruct (latest k ps) as [[v|]|] eqn:E.
  - unfold latest in E.
    destruct (List.find _ (rev ps)) as [[k' r]|] eqn:F; [|discriminate].
    cbn in E. injection E as ->.
    destruct (find_rev_split _ _ _ F) as (pre & post & Hps & Hk & Hpost).
    cbn in Hk. apply String.eqb_eq in Hk. subst k'.
    assert (El : latest k ps = Some (Some v)) by (unfold latest; now rewrite F).
    unfold written.
    set (f := fun kv : string * option value =>
                match latest (fst kv) ps, snd kv with
                | Some (Some _), Some v => [(fst kv, v)]
                | _, _ => []
                end).
    rewrite Hps. rewrite flat_map_app. cbn [flat_map].
    replace (f (k, Some v)) with [(k, v)]
      by (unfold f; cbn [fst snd]; rewrite El; reflexivity).
    match goal with |- lookup_prop k (?a ++ ?b) = _ =>
      destruct (lookup_prop_app k a b) as [-> _] end; [|left; reflexivity].
    match goal with |- lookup_prop k (([?x] ++ ?b)) = _ =>
      destruct (lookup_prop_app k [x] b) as [_ ->] end.
    + unfold lookup_prop. cbn. now rewrite String.eqb_refl.
    + intros Hin. unfold f in Hin. apply written_keys in Hin as [Hin _].
      exact (find_rev_none k post Hpost Hin).
  - unfold lookup_prop. rewrite find_key_none; [reflexivity|].
    rewrite map_rev. intros Hin. apply (proj2 (in_rev _ _)) in Hin.
    apply written_keys in Hin as [_ [v Hv]]. congruence.
  - unfold lookup_prop. rewrite find_key_none; [reflexivity|].
    rewrite map_rev. intros Hin. apply (proj2 (in_rev _ _)) in Hin.
    apply written_keys in Hin as [_ [v Hv]]. congruence.
Qed.

Lemma latest_readBack (k : string) (ps : list (string * value)) :
  latest k (List.map (fun kv => let '(k, e) := kv in (k, readBack e)) ps)
  = option_map readBack (latest k ps).
Proof.
  unfold latest. rewrite <- map_rev. generalize (rev ps). intros l.
  induction l as [|[k' v] l IH]; [reflexivity|]. cbn.
  destruct (String.eqb k k'); [reflexivity|exact IH].
Qed.

(** A key of an object read back reads as the read-back of its value. *)
Lemma lookup_readBack (k : string) (ps : list (string * value)) :
  let read :=
    written (List.map (fun kv => let '(k, e) := kv in (k, readBack e)) ps) in
  lookup_prop k read
  = match readBack (lookup_prop k ps) with
    | Some v => v
    | None => VUndefined
    end
  /\ (In k (List.map fst read) -> readBack (lookup_prop k ps) <> None)
  /\ (readBack (lookup_prop k ps) <> None -> In k (List.map fst read)).
Proof.
  intros read. unfold read.
  rewrite lookup_written, latest_readBack, lookup_prop_latest.
  split; [destruct (latest k ps); reflexivity|]. split.
  - intros Hin. apply written_keys in Hin as [_ [v Hv]].
    rewrite latest_readBack in Hv.
    destruct (latest k ps); cbn in *; congruence.
  - intros Hr. destruct (latest k ps) as [v|] eqn:E; [|now cbn in Hr].
    destruct (readBack v) as [r|] eqn:Er; [|congruence].
    unfold latest in E.
    destruct (List.find _ (rev ps)) as [[k' v']|] eqn:F; [|discriminate].
    cbn in E. injection E as ->.
    destruct (find_rev_split _ _ _ F) as (pre & post & Hps & Hk & _).
    cbn in Hk. apply String.eqb_eq in Hk. subst k'.
    unfold written.
    set (ps' := List.map (fun kv => let '(k, e) := kv in (k, readBack e)) ps).
    assert (El : latest k ps' = Some (Some r)).
    { unfold ps'. rewrite latest_readBack. unfold latest. rewrite F. cbn.
      now rewrite Er. }
    set (f := fun kv : string * option value =>
                match latest (fst kv) ps', snd kv with
                | Some (Some _), Some v => [(fst kv, v)]
                | _, _ => []
                end).
    unfold ps' at 1. rewrite Hps.
    rewrite List.map_app, flat_map_app, List.map_app, in_app_iff. right.
    cbn [List.map flat_map]. rewrite Er.
    replace (f (k, Some r)) with [(k, r)]
      by (unfold f; cbn [fst snd]; rewrite El; reflexivity).
    left. reflexivity.
Qed.

Lemma Forall2_zip_with {A B : Type} (R : B -> B -> Prop) (f : A -> B -> B)
    (l : list A) (k : list B) :
  length l = length k ->
  (forall j a b, l !! j = Some a -> k !! j = Some b -> R b (f a b)) ->
  Forall2 R k (zip_with f l k).
Proof.
  revert k. induction l as [|a l IH]; intros [|b k] Hlen H;
    try discriminate Hlen; cbn; constructor.
  - apply (H 0%nat); reflexivity.
  - apply IH; [now injection Hlen|]. intros j. apply (H (S j)).
Qed.

Section RoundTrip.

Variable NumberToString : num -> string.
Variable StringToNumber : string -> num.
Variable uid_at : nat -> string.

Let String_ := ToString NumberToString.
Let Number_ := ToNumber NumberToString StringToNumber.
Let importBlock_ := importBlock NumberToString StringToNumber uid_at.
Let importCategory_ := importCategory NumberToString StringToNumber uid_at.
Let importModel_ := importModel NumberToString StringToNumber uid_at.
Let importedBlock_ := importedBlock NumberToString StringToNumber.
Let reimported := Json.reimported NumberToString StringToNumber.

(** The four properties that the importer reads of a block read back. *)
Lemma jsonBlock_props (b : Block) :
  getp (jsonBlock b) "id" = VStr (Block.id b)
  /\ getp (jsonBlock b) "title" = VStr (Block.title b)
  /\ getp (jsonBlock b) "bullets" = VArr (List.map VStr (Block.bullets b))
  /\ getp (jsonBlock b) "t" = jsonNum (Block.t b).
Proof. unfold jsonBlock. destruct (Block.w b); repeat split; reflexivity. Qed.

Lemma importedBlock_kept (b : Block) :
  blockKept b (importedBlock_ (jsonBlock b) (Block.id b)).
Proof.
  destruct (jsonBlock_props b) as (_ & Ht & Hb & Hn).
  unfold blockKept, importedBlock_, importedBlock.
  cbn [Block.id Block.title Block.bullets Block.t Block.w].
  rewrite Ht, Hb, Hn. repeat split.
  - unfold or_else. cbn [truthy].
    destruct (String.eqb (Block.title b) "") eqn:E; cbn [negb ToString];
      [apply String.eqb_eq in E; now rewrite E|reflexivity].
  - rewrite List.map_map. cbn [ToString]. apply map_id.
  - intros Hr. destruct (Block.t b) as [ | | |q]; try contradiction.
    cbn [jsonNum coalesce nullish ToNumber].
    destruct (clamp_Fin_bounds q tMin tMax) as (r & -> & _ & _ & _ & H).
    destruct Hr. cbn. apply H; assumption.
  - intros Hf. destruct (Block.t b) as [ | | |q]; try discriminate Hf;
      cbn [jsonNum coalesce nullish ToNumber];
      (rewrite clamp_inside by qconst); reflexivity.
Qed.

Lemma importBlock_json (b : Block) (n : nat) :
  Block.id b <> ""%string ->
  importBlock_ (jsonBlock b) n
  = (Some (importedBlock_ (jsonBlock b) (Block.id b)), n).
Proof.
  intros Hid. destruct (jsonBlock_props b) as (Hi & _).
  unfold importBlock_, importBlock, bind, lift, get.
  change (nullish (jsonBlock b)) with false. cbv iota. rewrite Hi.
  unfold or_uid. cbn [truthy]. apply String.eqb_neq in Hid. rewrite Hid.
  reflexivity.
Qed.

Lemma mapMi_importBlock_json (bs : list Block) (i n : nat) :
  Forall (fun b => Block.id b <> ""%string) bs ->
  mapMi (fun sb _ => importBlock_ sb) (List.map jsonBlock bs) i n
  = (Some (List.map (fun b => importedBlock_ (jsonBlock b) (Block.id b)) bs), n).
Proof.
  revert i. induction bs as [|b bs IH]; intros i Hall; [reflexivity|].
  apply Forall_cons_1 in Hall as [Hb Hall].
  cbn [List.map mapMi]. unfold bind at 1. rewrite (importBlock_json b n Hb).
  unfold bind at 1. rewrite (IH (S i) Hall). reflexivity.
Qed.

Lemma importCategory_json (whole : list value) (dc c : Category) (i n : nat) :
  whole !! i = Some (jsonCategory c) ->
  Category.id c <> ""%string ->
  Forall (fun b => Block.id b <> ""%string) (Category.blocks c) ->
  importCategory_ whole dc i n = (Some (reimported dc c), n).
Proof.
  intros Hw Hid Hbs.
  unfold importCategory_, importCategory, payloadCategory, index.
  rewrite (nth_lookup_Some _ _ _ _ Hw).
  change (or_else (jsonCategory c) (VObj [])) with (jsonCategory c).
  cbv zeta.
  change (getp (jsonCategory c) "id") with (VStr (Category.id c)).
  change (getp (jsonCategory c) "label") with (VStr (Category.label c)).
  change (getp (jsonCategory c) "blocks")
    with (VArr (List.map jsonBlock (Category.blocks c))).
  apply String.eqb_neq in Hid.
  unfold bind at 1. unfold or_uid, or_else. cbn [truthy]. rewrite Hid.
  cbn [negb truthy]. rewrite Hid. cbn [negb ret].
  unfold bind at 1. unfold mapM.
  pose proof (mapMi_importBlock_json (Category.blocks c) 0 n Hbs) as Hm.
  unfold importBlock_ in Hm. rewrite Hm. unfold ret, reimported, Json.reimported. cbn [ToString].
  destruct (String.eqb (Category.label c) ""); reflexivity.
Qed.

Lemma mapMi_importCategory_json (whole : list value) (dcs cs : list Category)
    (i n : nat) :
  length dcs = length cs ->
  (forall j c, cs !! j = Some c -> whole !! (i + j)%nat = Some (jsonCategory c)) ->
  Forall (fun c => Category.id c <> ""%string) cs ->
  Forall (fun c => Forall (fun b => Block.id b <> ""%string) (Category.blocks c))
    cs ->
  mapMi (importCategory_ whole) dcs i n = (Some (zip_with reimported dcs cs), n).
Proof.
  revert cs i. induction dcs as [|dc dcs IH]; intros [|c cs] i Hlen Hw Hc Hb;
    try discriminate Hlen; [reflexivity|].
  apply Forall_cons_1 in Hc as [Hc Hcs]. apply Forall_cons_1 in Hb as [Hb Hbs].
  cbn [mapMi zip_with]. unfold bind at 1.
  rewrite (importCategory_json whole dc c i n); [|now rewrite <- (Hw 0%nat c), Nat.add_0_r|exact Hc|exact Hb].
  unfold bind at 1. rewrite (IH cs (S i)); [reflexivity| | |exact Hcs|exact Hbs].
  - now injection Hlen.
  - intros j c' Hj. rewrite <- (Hw (S j) c' Hj). f_equal. lia.
Qed.

Lemma Forall2_map_same {A : Type} (R : A -> A -> Prop) (f : A -> A)
    (l : list A) :
  (forall x, R x (f x)) -> Forall2 R l (List.map f l).
Proof. intros H. induction l; cbn; constructor; auto. Qed.

(** X20. A model of the six sides whose ids are not empty, exported and
    imported again, is read without an error and without a new id but
    those of the default model that the importer builds.  Every category
    comes back with its id, its side, its label (if not empty) and its
    blocks in order; every block with its id, title and bullets, with its
    [t] if that is a number of the band and with 0.3 if it is [NaN] or
    infinite, and without its width [w], which the importer does not read.
    The effect text (if not empty), a finite offset and a finite size
    without zero come back, and every key of the appearance reads as its
    value read back, or as the default if nothing was written for it. *)
Theorem X20_import_of_export (m : Model) (n : nat) :
  sidesFixed m ->
  eachCategory (fun c => Category.id c <> ""%string) m ->
  eachBlock (fun b => Block.id b <> ""%string) m ->
  exists m' : Model,
    importModel_ (jsonModel m) n = (Some m', (12 + n)%nat)
    /\ Forall2 categoryKept (Model.categories m) (Model.categories m')
    /\ (Model.effectText m <> ""%string ->
        Model.effectText m' = Model.effectText m)
    /\ (forall k : string,
          lookup_prop k (Model.appearance m')
          = match readBack (lookup_prop k (Model.appearance m)) with
            | Some v => v
            | None => lookup_prop k defaultAppearance
            end)
    /\ (forall dx dy : Q,
          Model.effectPos m = EffectPos.mk (Fin dx) (Fin dy) ->
          EffectPos.dx (Model.effectPos m') ≈ Fin dx
          /\ EffectPos.dy (Model.effectPos m') ≈ Fin dy)
    /\ (forall w h : Q,
          Model.effectSize m = EffectSize.mk (Fin w) (Fin h) ->
          ~ w == 0 -> ~ h == 0 ->
          Model.effectSize m' = Model.effectSize m).
Proof.
  intros Hs Hc Hb. unfold eachBlock, eachCategory, sidesFixed in *.
  pose proof (defaultModel_sides uid_at n) as Hds.
  pose proof (defaultModel_count uid_at n) as Hdn.
  assert (Hlen : length (Model.categories (fst (defaultModel uid_at n)))
                 = length (Model.categories m)).
  { rewrite <- (length_map Category.side), Hds.
    rewrite <- (length_map Category.side (Model.categories m)), Hs.
    reflexivity. }
  assert (Hfix :
            mapMi (importCategory_ (List.map jsonCategory (Model.categories m)))
              (Model.categories (fst (defaultModel uid_at n))) 0
              (snd (defaultModel uid_at n))
            = (Some (zip_with reimported
                       (Model.categories (fst (defaultModel uid_at n)))
                       (Model.categories m)),
               snd (defaultModel uid_at n))).
  { apply mapMi_importCategory_json; [exact Hlen| |exact Hc|exact Hb].
    intros j c Hj. cbn [Nat.add]. rewrite list_lookup_fmap, Hj. reflexivity. }
  unfold importModel_, importModel. unfold bind at 1. unfold gen.
  rewrite (surjective_pairing (defaultModel uid_at n)).
  unfold bind at 1, lift, get.
  change (nullish (jsonModel m)) with false. cbv iota.
  change (getp (jsonModel m) "categories")
    with (VArr (List.map jsonCategory (Model.categories m))).
  cbn [arrayOrEmpty]. unfold bind at 1.
  unfold importCategory_ in Hfix. rewrite Hfix, Hdn.
  eexists. split; [reflexivity|].
  cbn [Model.categories Model.effectText Model.appearance Model.effectPos
       Model.effectSize].
  split; [|split; [|split; [|split]]].
  - apply Forall2_zip_with; [exact Hlen|]. intros j dc c Hdc Hcj.
    unfold categoryKept, reimported, Json.reimported.
    cbn [Category.id Category.side Category.label Category.blocks].
    split; [reflexivity|]. split; [|split].
    + assert (H1 : List.map Category.side
                     (Model.categories (fst (defaultModel uid_at n))) !! j
                   = Some (Category.side dc))
        by (rewrite list_lookup_fmap, Hdc; reflexivity).
      assert (H2 : List.map Category.side (Model.categories m) !! j
                   = Some (Category.side c))
        by (rewrite list_lookup_fmap, Hcj; reflexivity).
      rewrite Hds in H1. rewrite Hs in H2. unfold sixSides in H2. congruence.
    + intros Hl. apply String.eqb_neq in Hl. now rewrite Hl.
    + apply Forall2_map_same. intros b. apply importedBlock_kept.
  - intros Ht.
    change (getp (jsonModel m) "effectText") with (VStr (Model.effectText m)).
    unfold or_else. cbn [truthy]. apply String.eqb_neq in Ht. rewrite Ht.
    reflexivity.
  - intros k.
    change (getp (jsonModel m) "appearance")
      with (VObj (written
                    (List.map (fun kv => let '(k, e) := kv in (k, readBack e))
                       (Model.appearance m)))).
    change (or_else (VObj ?x) (VObj [])) with (VObj x). cbn [spread].
    change (Model.appearance (fst (defaultModel uid_at n)))
      with defaultAppearance.
    destruct (lookup_readBack k (Model.appearance m)) as (Hl & Hin & Hni).
    cbv zeta in Hl, Hin, Hni.
    match goal with |- lookup_prop k (?a ++ ?b) = _ =>
      destruct (lookup_prop_app k a b) as [H1 H2] end.
    destruct (readBack (lookup_prop k (Model.appearance m))) as [v|] eqn:E.
    + rewrite H1; [exact Hl|]. apply Hni. discriminate.
    + apply H2. intros H. now apply Hin in H.
  - intros dx dy Hp.
    change (getp (jsonModel m) "effectPos")
      with (VObj [ ("dx", jsonNum (EffectPos.dx (Model.effectPos m)));
                   ("dy", jsonNum (EffectPos.dy (Model.effectPos m))) ]%string).
    rewrite Hp. cbn [truthy typeof_object andb EffectPos.dx EffectPos.dy jsonNum].
    change (getp (VObj [("dx"%string, VNum (Fin dx)); ("dy"%string, VNum (Fin dy))]) "dx")
      with (VNum (Fin dx)).
    change (getp (VObj [("dx"%string, VNum (Fin dx)); ("dy"%string, VNum (Fin dy))]) "dy")
      with (VNum (Fin dy)).
    unfold or_else. cbn [truthy JSNum.truthy EffectPos.dx EffectPos.dy].
    split.
    + destruct (Qeq_bool dx 0) eqn:E; cbn [negb ToNumber num_eq];
        [apply Qeq_bool_iff in E; now rewrite E|reflexivity].
    + destruct (Qeq_bool dy 0) eqn:E; cbn [negb ToNumber num_eq];
        [apply Qeq_bool_iff in E; now rewrite E|reflexivity].
  - intros w h Hz Hw Hh.
    change (getp (jsonModel m) "effectSize")
      with (VObj [ ("w", jsonNum (EffectSize.w (Model.effectSize m)));
                   ("h", jsonNum (EffectSize.h (Model.effectSize m))) ]%string).
    rewrite Hz. cbn [truthy typeof_object andb EffectSize.w EffectSize.h jsonNum].
    change (getp (VObj [("w"%string, VNum (Fin w)); ("h"%string, VNum (Fin h))]) "w")
      with (VNum (Fin w)).
    change (getp (VObj [("w"%string, VNum (Fin w)); ("h"%string, VNum (Fin h))]) "h")
      with (VNum (Fin h)).
    unfold or_else. cbn [truthy JSNum.truthy].
    rewrite (Qeq_bool_false _ _ Hw), (Qeq_bool_false _ _ Hh). reflexivity.
Qed.

End RoundTrip.

Lemma X20_witness :
  exists m' : Model,
    importModel Sample.NumberToString Sample.StringToNumber Sample.uid_at
      (jsonModel (model Sample.ready)) 12%nat
    = (Some m', 24%nat)
    /\ Forall2 categoryKept (Model.categories (model Sample.ready))
         (Model.categories m').
Proof.
  destruct (X20_import_of_export Sample.NumberToString Sample.StringToNumber
              Sample.uid_at (model Sample.ready) 12%nat)
    as (m' & Hm & Hk & _).
  - reflexivity.
  - vm_compute. repeat (constructor; [discriminate|]). constructor.
  - vm_compute.
    repeat (constructor; [repeat (constructor; [discriminate|]); constructor|]).
    constructor.
  - exists m'. split; [exact Hm|exact Hk].
Defined.

(** * The runs without type error

    The properties above that run the editor are stated on [step], which
    leaves the type errors out.  On every run whose imports hold no value
    that cannot be converted, [Strict.step] is [step]: there the
    properties of the one are properties of the other. *)

Lemma lookup_prop_plain (k : string) (props : list (string * value)) :
  Strict.plain props = true -> Strict.throws (lookup_prop k props) = false.
Proof.
  unfold Strict.plain, lookup_prop. intros H.
  destruct (List.find _ (rev props)) as [kv|] eqn:E; [|reflexivity].
  apply find_some in E as [Hin _]. apply (proj2 (in_rev _ _)) in Hin.
  rewrite forallb_forall in H. specialize (H kv Hin).
  now apply negb_true_iff in H.
Qed.

Lemma plain_drawnTexts (m : Model) :
  Strict.plain (Model.appearance m) = true ->
  existsb Strict.throws (Strict.drawnTexts m) = false.
Proof.
  intros H. unfold Strict.drawnTexts. cbn [existsb].
  rewrite !throws_coalesce, throws_or_else by reflexivity.
  now rewrite !lookup_prop_plain by exact H.
Qed.

Lemma plain_appearanceTexts (m : Model) :
  Strict.plain (Model.appearance m) = true ->
  existsb Strict.throws (Strict.appearanceTexts Strict.controlSizes m) = false.
Proof.
  intros H. unfold Strict.appearanceTexts, Strict.controlSizes.
  cbn [List.map existsb fst snd].
  rewrite !throws_coalesce, throws_or_else by reflexivity.
  now rewrite !lookup_prop_plain by exact H.
Qed.

Section Agreement.

Variable NumberToString : num -> string.
Variable StringToNumber : string -> num.
Variable uid_at : nat -> string.

Let step_ := step NumberToString StringToNumber uid_at.
Let run_ := run NumberToString StringToNumber uid_at.
Let strictStep := Strict.step NumberToString StringToNumber uid_at.
Let strictRun := Strict.run NumberToString StringToNumber uid_at.

(** The appearance holds no value that cannot be converted, after an
    event as before. *)
Lemma step_plain (st : State) (ev : Event) :
  Strict.plainEvent ev = true ->
  Strict.plain (Model.appearance (model st)) = true ->
  Strict.plain (Model.appearance (model (step_ st ev))) = true.
Proof.
  intros Hev Hst. destruct (redraws ev) eqn:Er.
  - destruct ev; try discriminate Er; unfold step_; cbn [step].
    + unfold onAppearanceInput, with_model.
      destruct (String.eqb key "boneColor");
        [|destruct (existsb (String.eqb key) numericControls)];
        cbn [model Model.appearance Model.set_appearance]; try exact Hst;
        unfold Strict.plain; rewrite forallb_app; cbn;
        unfold Strict.plain in Hst; now rewrite Hst.
    + unfold onImport. rewrite bind_run, lift_run.
      destruct parsed as [obj|]; [|exact Hst].
      destruct (importModel NumberToString StringToNumber uid_at obj (uidCount st))
        as [[m|] n'] eqn:E; [|exact Hst].
      cbn [model]. apply importModel_inv in E as (_ & _ & _ & ->).
      cbn [Strict.plainEvent] in Hev. apply andb_true_iff in Hev as [_ Hev].
      unfold Strict.plain in *. rewrite forallb_app, Hev. reflexivity.
    + unfold onReset. destruct ok; cbn; [reflexivity|exact Hst].
  - pose proof (step_skeleton NumberToString StringToNumber uid_at st ev Er) as E.
    unfold skeleton in E. injection E as Ea _. unfold step_. now rewrite Ea.
Qed.

Lemma strict_step_agrees (st : State) (ev : Event) :
  Strict.plainEvent ev = true ->
  Strict.plain (Model.appearance (model st)) = true ->
  strictStep st ev = step_ st ev.
Proof.
  intros Hev Hst. destruct ev; try reflexivity;
    unfold strictStep, step_; cbn [Strict.step step].
  - unfold Strict.onFrame, Strict.drawStaticBones, onFrame.
    now rewrite plain_drawnTexts by exact Hst.
  - destruct parsed as [obj|]; [|reflexivity].
    cbn [Strict.plainEvent] in Hev. apply andb_true_iff in Hev as [Hc Hp].
    apply negb_true_iff in Hc.
    pose proof (step_plain st (EvImport (Some obj))) as Hplain.
    cbn [Strict.plainEvent] in Hplain. rewrite Hc, Hp in Hplain.
    specialize (Hplain eq_refl Hst). unfold step_ in Hplain. cbn [step] in Hplain.
    destruct (importModel NumberToString StringToNumber uid_at obj (uidCount st))
      as [[m|] n'] eqn:E.
    + rewrite (onImport_accepts _ _ _ _ _ _ _ E) in *. cbn [model] in Hplain.
      rewrite (strict_onImport_accepts NumberToString StringToNumber uid_at
                 obj st m n').
      * now rewrite plain_appearanceTexts by exact Hplain.
      * now apply strict_importModel_iff.
    + rewrite (onImport_rejects _ _ _ _ _ _ E).
      apply strict_onImport_rejects.
      now rewrite (strict_importModel_agrees NumberToString StringToNumber
                     uid_at obj (uidCount st) Hc).
Qed.

(** From the state in which the script leaves the editor, and through
    events that raise no type error, the two transition systems make the
    same run. *)
Lemma strict_run_agrees (evs : list Event) :
  forallb Strict.plainEvent evs = true ->
  strictRun (initial uid_at) evs = run_ (initial uid_at) evs.
Proof.
  intros Hevs.
  assert (Hgen : forall st,
             Strict.plain (Model.appearance (model st)) = true ->
             strictRun st evs = run_ st evs).
  { induction evs as [|ev evs IH]; intros st Hst; [reflexivity|].
    cbn [forallb] in Hevs. apply andb_true_iff in Hevs as [Hev Hevs].
    unfold strictRun, run_, Strict.run, run. cbn [fold_left].
    fold strictStep step_.
    rewrite (strict_step_agrees st ev Hev Hst).
    apply (IH Hevs). now apply step_plain. }
  apply Hgen. reflexivity.
Qed.

End Agreement.
